(** * SwiftDateParser comparison harness: a shallow embedding

    The repository ships three Python scripts around a date parsing engine:

    - [analyze_final_results.py]: counts passes of two engines over two lists
      of JSON test records;
    - [docs/compare_results.py]: compares the timestamps two engines printed;
    - [test_comparison.py]: runs every scenario through a parser and wraps the
      answer in a result record.

    Python values are embedded as follows: a call either returns a value or
    raises an exception ([outcome]); a dict loaded from JSON is an association
    list inside [json]; [None] is the [None] of an [option]. *)

From Stdlib Require Import ZArith QArith List String Ascii Bool Lia.
Import ListNotations.

Local Open Scope string_scope.
Local Open Scope Z_scope.

(** ** Python exceptions and the outcome of a call *)

Module Py.

(** An exception object: the names of its class and of all its base
    classes (its method resolution order), and what [str(e)] prints. *)
Record exn : Type := mkExn { exn_mro : list string; exn_str : string }.

Inductive outcome (A : Type) : Type :=
  | Returned (a : A)
  | Raised (e : exn).
Arguments Returned {A} a.
Arguments Raised {A} e.

Definition bind {A B} (m : outcome A) (k : A -> outcome B) : outcome B :=
  match m with
  | Returned a => k a
  | Raised e => Raised e
  end.

(** [isinstance(e, cls)] *)
Definition isinstance (e : exn) (cls : string) : bool :=
  existsb (String.eqb cls) (exn_mro e).

(** [except (c1, c2, ...)] matches when [e] is an instance of one of them. *)
Definition except_matches (classes : list string) (e : exn) : bool :=
  existsb (isinstance e) classes.

Definition KeyError (key : string) : exn :=
  mkExn ["KeyError"; "LookupError"; "Exception"; "BaseException"] key.
Definition TypeError (msg : string) : exn :=
  mkExn ["TypeError"; "Exception"; "BaseException"] msg.
Definition ValueError (msg : string) : exn :=
  mkExn ["ValueError"; "Exception"; "BaseException"] msg.
Definition OverflowError (msg : string) : exn :=
  mkExn ["OverflowError"; "ArithmeticError"; "Exception"; "BaseException"] msg.
(** [dateutil.parser.ParserError] derives from [ValueError]. *)
Definition ParserError (msg : string) : exn :=
  mkExn ["ParserError"; "ValueError"; "Exception"; "BaseException"] msg.

(** Truthiness of a string: [not s] holds for the empty string only. *)
Definition str_truthy (s : string) : bool :=
  match s with EmptyString => false | String _ _ => true end.

(** Truthiness of an optional string ([None] and [''] are falsy). *)
Definition opt_truthy (s : option string) : bool :=
  match s with None => false | Some s => str_truthy s end.

End Py.

Notation "x <- m ;; k" := (Py.bind m (fun x => k))
  (at level 61, m at next level, right associativity).

(** ** Calendar timestamps ([datetime.datetime]) *)

Module Datetime.

(** The fields of a [datetime]; [utcoffset] is the offset of an aware value
    in minutes east of UTC, [None] for a naive one. *)
Record datetime : Type := mkDatetime {
  year : Z;
  month : Z;
  day : Z;
  hour : Z;
  minute : Z;
  second : Z;
  microsecond : Z;
  utcoffset : option Z
}.

(** [dt.date()]: year, month and day. *)
Definition date (dt : datetime) : Z * Z * Z := (year dt, month dt, day dt).

(** Leap-year test: divisible by 4 and (not divisible by 100 or divisible
    by 400). *)
Definition is_leap (y : Z) : bool :=
  (y mod 4 =? 0) && (negb (y mod 100 =? 0) || (y mod 400 =? 0)).

Definition days_in_month (y m : Z) : Z :=
  if m =? 2 then (if is_leap y then 29 else 28)
  else if (m =? 4) || (m =? 6) || (m =? 9) || (m =? 11) then 30
  else 31.

Definition in_range (lo x hi : Z) : bool := (lo <=? x) && (x <=? hi).

(** The values a [datetime] object can hold. *)
Definition valid (dt : datetime) : bool :=
  in_range 1 (year dt) 9999 && in_range 1 (month dt) 12 &&
  in_range 1 (day dt) (days_in_month (year dt) (month dt)) &&
  in_range 0 (hour dt) 23 && in_range 0 (minute dt) 59 &&
  in_range 0 (second dt) 59 && in_range 0 (microsecond dt) 999999 &&
  match utcoffset dt with
  | None => true
  | Some o => in_range (-1439) o 1439
  end.

Definition digit (n : Z) : ascii := ascii_of_nat (48 + Z.to_nat (n mod 10)).

(** [n] in decimal, zero-filled to [width] characters (the low [width]
    digits when [n] is wider). *)
Fixpoint digits (width : nat) (n : Z) : string :=
  match width with
  | O => ""
  | S w => digits w (n / 10) ++ String (digit n) ""
  end.

(** [dt.strftime('%Y-%m-%d %H:%M:%S')], the year zero-filled to four digits
    as documented for [%Y]. The C library behind [strftime] prints a year
    below 1000 without the zeros on some platforms; from 1000 on the text is
    the same everywhere. *)
Definition strftime (dt : datetime) : string :=
  digits 4 (year dt) ++ "-" ++ digits 2 (month dt) ++ "-" ++ digits 2 (day dt)
  ++ " " ++ digits 2 (hour dt) ++ ":" ++ digits 2 (minute dt) ++ ":"
  ++ digits 2 (second dt).

Definition offset_suffix (o : option Z) : string :=
  match o with
  | None => ""
  | Some m =>
      (if m <? 0 then "-" else "+") ++ digits 2 (Z.abs m / 60) ++ ":"
      ++ digits 2 (Z.abs m mod 60)
  end.

(** The text of [dt.isoformat()]: [YYYY-MM-DDTHH:MM:SS], then [.ffffff]
    when the microsecond is not zero, then the offset of an aware value. *)
Definition iso_string (dt : datetime) : string :=
  digits 4 (year dt) ++ "-" ++ digits 2 (month dt) ++ "-" ++ digits 2 (day dt)
  ++ "T" ++ digits 2 (hour dt) ++ ":" ++ digits 2 (minute dt) ++ ":"
  ++ digits 2 (second dt)
  ++ (if microsecond dt =? 0 then "" else "." ++ digits 6 (microsecond dt))
  ++ offset_suffix (utcoffset dt).

(** [dt.isoformat()]. It raises [ValueError] when the offset of an aware
    value is not strictly between minus and plus 24 hours. *)
Definition isoformat (dt : datetime) : Py.outcome string :=
  match utcoffset dt with
  | Some o =>
      if in_range (-1439) o 1439 then Py.Returned (iso_string dt)
      else Py.Raised (Py.ValueError "offset must be strictly between -24h and 24h")
  | None => Py.Returned (iso_string dt)
  end.

(** *** Reading the timestamp format back *)

Definition is_digit (c : ascii) : bool :=
  let n := nat_of_ascii c in (48 <=? n)%nat && (n <=? 57)%nat.

Definition digit_value (c : ascii) : Z := Z.of_nat (nat_of_ascii c) - 48.

(** Exactly [n] decimal digits at the head of [s]. *)
Fixpoint take_digits (n : nat) (acc : Z) (s : string) : option (Z * string) :=
  match n with
  | O => Some (acc, s)
  | S n' =>
      match s with
      | String c rest =>
          if is_digit c then take_digits n' (10 * acc + digit_value c) rest
          else None
      | EmptyString => None
      end
  end.

Definition expect (c : ascii) (s : string) : option string :=
  match s with
  | String c' rest => if Ascii.eqb c c' then Some rest else None
  | EmptyString => None
  end.

Definition obind {A B} (m : option A) (k : A -> option B) : option B :=
  match m with Some a => k a | None => None end.

(** The longest run of digits (at most [fuel]) at the head of [s], its
    value and its length. *)
Fixpoint take_run (fuel : nat) (acc : Z) (len : nat) (s : string) : Z * nat * string :=
  match fuel, s with
  | S f, String c rest =>
      if is_digit c then take_run f (10 * acc + digit_value c) (S len) rest
      else (acc, len, s)
  | _, _ => (acc, len, s)
  end.

(** [[±HH:MM|Z]] or nothing, up to the end of the text. *)
Definition read_offset (s : string) : option (option Z) :=
  match s with
  | EmptyString => Some None
  | String c rest =>
      if Ascii.eqb c "Z" then
        (match rest with EmptyString => Some (Some 0) | _ => None end)
      else if Ascii.eqb c "+" || Ascii.eqb c "-" then
        obind (take_digits 2 0 rest) (fun '(h, r1) =>
        obind (expect ":" r1) (fun r2 =>
        obind (take_digits 2 0 r2) (fun '(m, r3) =>
        match r3 with
        | EmptyString =>
            let o := 60 * h + m in
            Some (Some (if Ascii.eqb c "-" then - o else o))
        | _ => None
        end)))
      else None
  end.

(** [[.ffffff]]: one to six digits after ['.'] or [','], scaled to
    microseconds. *)
Definition read_fraction (s : string) : option (Z * string) :=
  match s with
  | String c rest =>
      if Ascii.eqb c "." || Ascii.eqb c "," then
        let '(v, len, r) := take_run 6 0 0 rest in
        match len with
        | O => None
        | _ => Some (v * 10 ^ Z.of_nat (6 - len), r)
        end
      else Some (0, s)
  | EmptyString => Some (0, s)
  end.

Definition read_time (s : string) : option (Z * Z * Z * Z * option Z) :=
  obind (take_digits 2 0 s) (fun '(h, r1) =>
  obind (expect ":" r1) (fun r2 =>
  obind (take_digits 2 0 r2) (fun '(mi, r3) =>
  obind (expect ":" r3) (fun r4 =>
  obind (take_digits 2 0 r4) (fun '(se, r5) =>
  obind (read_fraction r5) (fun '(us, r6) =>
  obind (read_offset r6) (fun off =>
  Some (h, mi, se, us, off)))))))).

Definition read_timestamp (s : string) : option datetime :=
  obind (take_digits 4 0 s) (fun '(y, r1) =>
  obind (expect "-" r1) (fun r2 =>
  obind (take_digits 2 0 r2) (fun '(m, r3) =>
  obind (expect "-" r3) (fun r4 =>
  obind (take_digits 2 0 r4) (fun '(d, r5) =>
  match r5 with
  | EmptyString => Some (mkDatetime y m d 0 0 0 0 None)
  | String c r6 =>
      if Ascii.eqb c "T" || Ascii.eqb c " " then
        obind (read_time r6) (fun '(h, mi, se, us, off) =>
        Some (mkDatetime y m d h mi se us off))
      else None
  end))))).

(** Modelled from the spec: the reader of the timestamp representation of
    section 6, [YYYY-MM-DDTHH:MM:SS[.ffffff][±HH:MM|Z]] (a date alone is read
    as midnight). The scripts call the [dateutil] library for it, which is
    not part of the repository; this reader stands for it wherever a
    concrete one is needed. *)
Definition isoparse (s : string) : Py.outcome datetime :=
  match read_timestamp s with
  | Some dt =>
      if valid dt then Py.Returned dt
      else Py.Raised (Py.ValueError "field out of range")
  | None => Py.Raised (Py.ValueError "invalid isoformat string")
  end.

(** *** Facts about the printed form *)

Lemma digit_inj a b : digit a = digit b -> a mod 10 = b mod 10.
Proof.
  unfold digit. intros H.
  apply (f_equal nat_of_ascii) in H.
  pose proof (Z.mod_pos_bound a 10 ltac:(lia)).
  pose proof (Z.mod_pos_bound b 10 ltac:(lia)).
  rewrite !nat_ascii_embedding in H by lia.
  lia.
Qed.

Lemma two_digits_inj a b :
  0 <= a <= 99 -> 0 <= b <= 99 ->
  digit (a / 10) = digit (b / 10) -> digit a = digit b -> a = b.
Proof.
  intros Ha Hb H1 H0.
  apply digit_inj in H1, H0.
  revert H1 H0. Z.div_mod_to_equations. lia.
Qed.

Lemma four_digits_inj a b :
  0 <= a <= 9999 -> 0 <= b <= 9999 ->
  digit (a / 10 / 10 / 10) = digit (b / 10 / 10 / 10) ->
  digit (a / 10 / 10) = digit (b / 10 / 10) ->
  digit (a / 10) = digit (b / 10) -> digit a = digit b -> a = b.
Proof.
  intros Ha Hb H3 H2 H1 H0.
  apply digit_inj in H3, H2, H1, H0.
  revert H3 H2 H1 H0. Z.div_mod_to_equations. lia.
Qed.

Lemma valid_bounds dt :
  valid dt = true ->
  1 <= year dt <= 9999 /\ 1 <= month dt <= 12 /\ 1 <= day dt <= 31 /\
  0 <= hour dt <= 23 /\ 0 <= minute dt <= 59 /\ 0 <= second dt <= 59.
Proof.
  unfold valid, in_range. rewrite !andb_true_iff, !Z.leb_le.
  intros [[[[[[[Hy Hm] Hd] Hh] Hmi] Hs] _] _].
  assert (days_in_month (year dt) (month dt) <= 31).
  { unfold days_in_month.
    destruct (month dt =? 2); [destruct (is_leap (year dt)); lia |].
    destruct ((month dt =? 4) || (month dt =? 6) || (month dt =? 9)
              || (month dt =? 11)); lia. }
  lia.
Qed.

(** The normalized text of a valid timestamp determines its date and its
    time of day down to the second. *)
Lemma strftime_inj d1 d2 :
  valid d1 = true -> valid d2 = true -> strftime d1 = strftime d2 ->
  date d1 = date d2 /\
  hour d1 = hour d2 /\ minute d1 = minute d2 /\ second d1 = second d2.
Proof.
  intros V1 V2 H.
  apply valid_bounds in V1, V2.
  unfold strftime in H. cbn [digits append] in H.
  injection H as Hy3 Hy2 Hy1 Hy0 Hm1 Hm0 Hd1 Hd0 Hh1 Hh0 Hi1 Hi0 Hs1 Hs0.
  unfold date.
  rewrite (four_digits_inj (year d1) (year d2)) by (assumption || lia).
  rewrite (two_digits_inj (month d1) (month d2)) by (assumption || lia).
  rewrite (two_digits_inj (day d1) (day d2)) by (assumption || lia).
  rewrite (two_digits_inj (hour d1) (hour d2)) by (assumption || lia).
  rewrite (two_digits_inj (minute d1) (minute d2)) by (assumption || lia).
  rewrite (two_digits_inj (second d1) (second d2)) by (assumption || lia).
  repeat split.
Qed.

End Datetime.

(** ** analyze_final_results.py *)

Module AnalyzeFinal.
Import Py.

Section Loop.

(** Numbers of the JSON files (Python floats, and integers where the file
    has an integer literal): only the comparison with zero, truthiness and
    true division are used by the loop. *)
Variable num : Type.
Variable num_gt0 : num -> bool.
Variable num_nonzero : num -> bool.
Variable num_of_bool : bool -> num.

(** [a / b] for a divisor greater than zero: the quotient as a float, or
    [OverflowError] when an integer operand or the quotient of two integers
    is beyond the range of floats. *)
Variable num_div : num -> num -> outcome num.

#[warnings="-register-all"]
Inductive json : Type :=
  | JNull
  | JBool (b : bool)
  | JNum (x : num)
  | JStr (s : string)
  | JArr (l : list json)
  | JObj (fields : list (string * json)).

Fixpoint assoc (key : string) (fields : list (string * json)) : option json :=
  match fields with
  | [] => None
  | (k, v) :: rest => if String.eqb k key then Some v else assoc key rest
  end.

(** [obj[key]] with a string key. [json.load] keeps the last of several
    equal keys; the files are taken as loaded, with distinct keys. *)
Definition getitem (obj : json) (key : string) : outcome json :=
  match obj with
  | JObj fields =>
      match assoc key fields with
      | Some v => Returned v
      | None => Raised (KeyError key)
      end
  | _ => Raised (TypeError "indices must be integers or not subscriptable")
  end.

Definition truthy (v : json) : bool :=
  match v with
  | JNull => false
  | JBool b => b
  | JNum x => num_nonzero x
  | JStr s => str_truthy s
  | JArr l => match l with [] => false | _ => true end
  | JObj f => match f with [] => false | _ => true end
  end.

(** The numeric value of an operand of [>] or [/]; [bool] is a number. *)
Definition as_num (v : json) : outcome num :=
  match v with
  | JNum x => Returned x
  | JBool b => Returned (num_of_bool b)
  | _ => Raised (TypeError "unsupported operand type")
  end.

Record counters : Type := mkCounters {
  swift_passed : Z;
  python_passed : Z;
  both_passed : Z;
  swift_only : Z;
  python_only : Z;
  performance_ratios : list num
}.

Definition initial : counters := mkCounters 0 0 0 0 0 [].

(** One iteration of the loop of lines 21-41. *)
Definition iteration (c : counters) (pair : json * json) : outcome counters :=
  let '(swift_test, python_test) := pair in
  sd <- getitem swift_test "default" ;;
  swift_success <- getitem sd "success" ;;
  pd <- getitem python_test "default" ;;
  python_success <- getitem pd "success" ;;
  let sp := if truthy swift_success then swift_passed c + 1 else swift_passed c in
  let pp := if truthy python_success then python_passed c + 1 else python_passed c in
  bp_ratios <-
    (if truthy swift_success && truthy python_success then
       sd' <- getitem swift_test "default" ;;
       swift_time <- getitem sd' "timeMs" ;;
       pd' <- getitem python_test "default" ;;
       python_time <- getitem pd' "timeMs" ;;
       pt <- as_num python_time ;;
       if num_gt0 pt then
         st <- as_num swift_time ;;
         if num_gt0 st then
           ratio <- num_div st pt ;;
           Returned (both_passed c + 1,
                     (performance_ratios c ++ [ratio])%list)
         else Returned (both_passed c + 1, performance_ratios c)
       else Returned (both_passed c + 1, performance_ratios c)
     else Returned (both_passed c, performance_ratios c)) ;;
  let so := if truthy swift_success && negb (truthy python_success)
            then swift_only c + 1 else swift_only c in
  let po := if truthy python_success && negb (truthy swift_success)
            then python_only c + 1 else python_only c in
  Returned (mkCounters sp pp (fst bp_ratios) so po (snd bp_ratios)).

(** [for ... in zip(...)]: the first exception ends the script. *)
Fixpoint loop (c : counters) (pairs : list (json * json)) : outcome counters :=
  match pairs with
  | [] => Returned c
  | p :: rest => c' <- iteration c p ;; loop c' rest
  end.

Definition analyze (swift_results python_results : list json) : outcome counters :=
  loop initial (combine swift_results python_results).

(** The two equalities between the counters. *)
Definition balanced (c : counters) : Prop :=
  swift_passed c = both_passed c + swift_only c /\
  python_passed c = both_passed c + python_only c.

(** A record the loop can read: [default.success] is there, and
    [default.timeMs] is a number. *)
Definition readable (t : json) : bool :=
  match getitem t "default" with
  | Returned d =>
      match getitem d "success", getitem d "timeMs" with
      | Returned _, Returned (JNum _) => true
      | _, _ => false
      end
  | Raised _ => false
  end.

(** *** Facts about the counting loop *)

Lemma bind_returned {A B} (m : outcome A) (k : A -> outcome B) (b : B) :
  (x <- m ;; k x) = Returned b -> exists a, m = Returned a /\ k a = Returned b.
Proof.
  destruct m as [a | e]; simpl; intros H.
  - exists a; split; [reflexivity | exact H].
  - discriminate H.
Qed.

Ltac open_bind H :=
  let a := fresh "v" in
  let Ha := fresh "Hv" in
  apply bind_returned in H; destruct H as (a & Ha & H).

(** The counter of common passes after one iteration. *)
Lemma iteration_counts c swift_test python_test c' :
  iteration c (swift_test, python_test) = Returned c' ->
  exists s p : bool,
    swift_passed c' = swift_passed c + (if s then 1 else 0) /\
    python_passed c' = python_passed c + (if p then 1 else 0) /\
    both_passed c' = both_passed c + (if s && p then 1 else 0) /\
    swift_only c' = swift_only c + (if s && negb p then 1 else 0) /\
    python_only c' = python_only c + (if p && negb s then 1 else 0).
Proof.
  unfold iteration. intros H.
  open_bind H. open_bind H. open_bind H. open_bind H. open_bind H.
  exists (truthy v0), (truthy v2).
  injection H as <-. simpl.
  assert (Hb : fst v3 = both_passed c + (if truthy v0 && truthy v2 then 1 else 0)).
  { destruct (truthy v0 && truthy v2).
    - repeat match goal with
             | H : Py.bind _ _ = Returned _ |- _ => open_bind H
             | H : (if ?b then _ else _) = Returned _ |- _ => destruct b
             | H : Returned _ = Returned _ |- _ => injection H as <-
             end; reflexivity.
    - injection Hv3 as <-. simpl. lia. }
  rewrite Hb.
  destruct (truthy v0), (truthy v2); simpl; repeat split; lia.
Qed.

Lemma iteration_balanced c pair c' :
  balanced c -> iteration c pair = Returned c' -> balanced c'.
Proof.
  destruct pair as [swift_test python_test]. intros [Hs Hp] H.
  destruct (iteration_counts _ _ _ _ H) as (s & p & E1 & E2 & E3 & E4 & E5).
  unfold balanced. rewrite E1, E2, E3, E4, E5.
  destruct s, p; simpl; lia.
Qed.

Lemma loop_balanced pairs : forall c c',
  balanced c -> loop c pairs = Returned c' -> balanced c'.
Proof.
  induction pairs as [| p rest IH]; simpl; intros c c' Hc H.
  - injection H as <-. exact Hc.
  - open_bind H. eapply IH; [| exact H].
    eapply iteration_balanced; eassumption.
Qed.

Lemma initial_balanced : balanced initial.
Proof. split; reflexivity. Qed.

(** On records it can read, an iteration completes unless the division of
    line 36 raises. *)
Definition division_raises (e : exn) : Prop :=
  exists st pt,
    num_gt0 st = true /\ num_gt0 pt = true /\ num_div st pt = Raised e.

Lemma iteration_readable c swift_test python_test :
  readable swift_test = true -> readable python_test = true ->
  (exists c', iteration c (swift_test, python_test) = Returned c') \/
  (exists e, division_raises e /\
             iteration c (swift_test, python_test) = Raised e).
Proof.
  unfold readable, iteration. intros Hs Hp.
  destruct (getitem swift_test "default") as [sd |]; [| discriminate].
  destruct (getitem python_test "default") as [pd |]; [| discriminate].
  simpl.
  destruct (getitem sd "success") as [ss |]; [| discriminate].
  destruct (getitem pd "success") as [ps |]; [| discriminate].
  simpl.
  destruct (getitem sd "timeMs") as [[] |]; try discriminate.
  destruct (getitem pd "timeMs") as [[] |]; try discriminate.
  destruct (truthy ss && truthy ps); simpl; [| left; eexists; reflexivity].
  destruct (num_gt0 x0) eqn:Gp; simpl; [| left; eexists; reflexivity].
  destruct (num_gt0 x) eqn:Gs; [| left; eexists; reflexivity].
  destruct (num_div x x0) as [q | e] eqn:D; simpl.
  - left. eexists; reflexivity.
  - right. exists e. split; [| reflexivity].
    exists x, x0. repeat split; assumption.
Qed.

Lemma loop_readable pairs : forall c,
  forallb (fun p => readable (fst p) && readable (snd p)) pairs = true ->
  (exists c', loop c pairs = Returned c') \/
  (exists e, division_raises e /\ loop c pairs = Raised e).
Proof.
  induction pairs as [| [s p] rest IH]; intros c H.
  - left. eexists; reflexivity.
  - cbn [forallb fst snd] in H.
    apply andb_true_iff in H as [H Hrest]. apply andb_true_iff in H as [Hs Hp].
    cbn [loop].
    destruct (iteration_readable c s p Hs Hp) as [[c1 ->] | (e & De & ->)];
      cbn [Py.bind].
    + apply IH, Hrest.
    + right. exists e. split; [exact De | reflexivity].
Qed.

Lemma combine_readable swift python :
  forallb readable swift = true -> forallb readable python = true ->
  forallb (fun p => readable (fst p) && readable (snd p)) (combine swift python) = true.
Proof.
  revert python. induction swift as [| s swift IH]; intros [| p python]; simpl; auto.
  intros Hs Hp.
  apply andb_true_iff in Hs as [-> Hs]. apply andb_true_iff in Hp as [-> Hp].
  simpl. apply IH; assumption.
Qed.

(** C9. For two result lists of equal length, the counters the loop of
    [analyze_final_results.py] ends with satisfy
    [swift_passed = both_passed + swift_only] and
    [python_passed = both_passed + python_only]; every iteration that
    completes preserves both equalities; and on records the loop can read
    ([default.success] present, [default.timeMs] a number) the loop
    completes, with both equalities, unless the division of line 36 raises
    (an integer time beyond the range of floats), which ends the script
    with that exception. *)
Theorem analyze_counters_balanced (swift_results python_results : list json) :
  List.length swift_results = List.length python_results ->
  (forall c, analyze swift_results python_results = Returned c -> balanced c) /\
  (forall c pair c', balanced c -> iteration c pair = Returned c' -> balanced c') /\
  (forallb readable swift_results = true ->
   forallb readable python_results = true ->
   (exists c, analyze swift_results python_results = Returned c /\ balanced c) \/
   (exists e, division_raises e /\
              analyze swift_results python_results = Raised e)).
Proof.
  intros _. split; [| split].
  - intros c H. exact (loop_balanced _ _ _ initial_balanced H).
  - exact iteration_balanced.
  - intros Hs Hp.
    destruct (loop_readable _ initial (combine_readable _ _ Hs Hp))
      as [[c Hc] | (e & De & He)].
    + left. exists c. split; [exact Hc |].
      exact (loop_balanced _ _ _ initial_balanced Hc).
    + right. exists e. split; [exact De | exact He].
Qed.

End Loop.

Arguments JNull {num}.
Arguments JBool {num} b.
Arguments JNum {num} x.
Arguments JStr {num} s.
Arguments JArr {num} l.
Arguments JObj {num} fields.

(** *** The loop on rational milliseconds *)

Definition Q_gt0 (x : Q) : bool := 0 <? Qnum x.
Definition Q_nonzero (x : Q) : bool := negb (Qnum x =? 0).
Definition Q_of_bool (b : bool) : Q := if b then Qmake 1 1 else Qmake 0 1.

(** Division of rationals: there is no overflow. *)
Definition Q_div (a b : Q) : outcome Q := Returned (Qdiv a b).

(** A test record with the keys the loop reads. *)
Definition test_record (input : string) (ok : bool) (ms : Q) : json Q :=
  JObj [("input", JStr input);
        ("default", JObj [("success", JBool ok); ("timeMs", JNum ms)])].

Definition sample_swift : list (json Q) :=
  [test_record "2003-09-25" true (Qmake 1 100);
   test_record "10/09/03" true (Qmake 3 100);
   test_record "tomorrow" true (Qmake 2 100);
   test_record "not a date" false (Qmake 0 1)].

Definition sample_python : list (json Q) :=
  [test_record "2003-09-25" true (Qmake 5 100);
   test_record "10/09/03" true (Qmake 0 1);
   test_record "tomorrow" false (Qmake 0 1);
   test_record "not a date" false (Qmake 0 1)].

Lemma analyze_counters_balanced_witness :
  List.length sample_swift = List.length sample_python /\
  exists c,
    analyze Q Q_gt0 Q_nonzero Q_of_bool Q_div sample_swift sample_python
      = Returned c /\
    balanced Q c /\
    (swift_passed Q c, python_passed Q c, both_passed Q c,
     swift_only Q c, python_only Q c) = (3, 2, 2, 1, 0).
Proof.
  split; [reflexivity |].
  destruct (analyze_counters_balanced Q Q_gt0 Q_nonzero Q_of_bool Q_div
              sample_swift sample_python eq_refl) as (Hc & _ & _).
  eexists. split; [vm_compute; reflexivity |].
  split; [apply Hc; vm_compute; reflexivity | reflexivity].
Defined.

(** A record with the keys [test_comparison.py] writes ([time_ms], not
    [timeMs]) is not one the loop can read: when both entries of a pair pass,
    the iteration raises [KeyError] on line 34. *)
Definition python_record (input : string) (ok : bool) (ms : Q) : json Q :=
  JObj [("input", JStr input);
        ("description", JStr "");
        ("default", JObj [("success", JBool ok); ("date", JNull);
                          ("time_ms", JNum ms); ("error", JNull)]);
        ("fuzzy", JNull); ("dayfirst", JNull)].

Lemma iteration_on_python_record :
  readable Q (python_record "2003-09-25" true (Qmake 5 100)) = false /\
  iteration Q Q_gt0 Q_nonzero Q_of_bool Q_div (initial Q)
    (test_record "2003-09-25" true (Qmake 1 100),
     python_record "2003-09-25" true (Qmake 5 100))
  = Raised (KeyError "timeMs").
Proof. split; vm_compute; reflexivity. Qed.

End AnalyzeFinal.

(** ** docs/compare_results.py *)

Module CompareResults.
Import Py Datetime.

(** [a == b] on values that are [None] or a string. *)
Definition opt_eqb (a b : option string) : bool :=
  match a, b with
  | None, None => true
  | Some x, Some y => String.eqb x y
  | _, _ => false
  end.

Definition date_eqb (a b : Z * Z * Z) : bool :=
  let '(y1, m1, d1) := a in
  let '(y2, m2, d2) := b in
  (y1 =? y2) && (m1 =? m2) && (d1 =? d2).

Section Compare.

(** [dateutil_parser.isoparse]: returns a [datetime] or raises. *)
Variable isoparse : string -> outcome datetime.

(** Lines 29-39. The bare [except] hands the text back unchanged. *)
Definition normalize_dates (date_str : option string) : option string :=
  match date_str with
  | None => None
  | Some s =>
      if negb (str_truthy s) then None
      else match isoparse s with
           | Returned dt => Some (strftime dt)
           | Raised _ => Some s
           end
  end.

(** The [try] block of lines 54-63: both texts parse and fall on the same
    day; any exception counts as a mismatch. *)
Definition same_day (python_date swift_date : string) : bool :=
  match isoparse python_date with
  | Returned py_dt =>
      match isoparse swift_date with
      | Returned sw_dt => date_eqb (date py_dt) (date sw_dt)
      | Raised _ => false
      end
  | Raised _ => false
  end.

(** Lines 41-65. *)
Definition compare_dates (python_date swift_date : option string) : bool :=
  if negb (opt_truthy python_date) || negb (opt_truthy swift_date) then
    opt_eqb python_date swift_date
  else if opt_eqb (normalize_dates python_date) (normalize_dates swift_date) then
    true
  else
    match python_date, swift_date with
    | Some p, Some s => same_day p s
    | _, _ => false
    end.

(** *** Facts *)

Lemma opt_eqb_sym a b : opt_eqb a b = opt_eqb b a.
Proof.
  destruct a as [x |], b as [y |]; simpl; try reflexivity.
  apply String.eqb_sym.
Qed.

Lemma opt_eqb_eq a b : opt_eqb a b = true <-> a = b.
Proof.
  destruct a as [x |], b as [y |]; simpl; split; intros H;
    try discriminate; try reflexivity.
  - apply String.eqb_eq in H. now subst.
  - injection H as ->. apply String.eqb_refl.
Qed.

Lemma date_eqb_sym a b : date_eqb a b = date_eqb b a.
Proof.
  destruct a as [[y1 m1] d1], b as [[y2 m2] d2]; simpl.
  now rewrite (Z.eqb_sym y1), (Z.eqb_sym m1), (Z.eqb_sym d1).
Qed.

Lemma date_eqb_eq a b : date_eqb a b = true <-> a = b.
Proof.
  destruct a as [[y1 m1] d1], b as [[y2 m2] d2]; simpl.
  rewrite !andb_true_iff, !Z.eqb_eq. split.
  - intros [[-> ->] ->]. reflexivity.
  - intros H. injection H as -> -> ->. auto.
Qed.

Lemma same_day_sym a b : same_day a b = same_day b a.
Proof.
  unfold same_day.
  destruct (isoparse a), (isoparse b); try reflexivity.
  apply date_eqb_sym.
Qed.

(** C10. [compare_dates] is symmetric: for all arguments (texts or [None])
    [compare_dates(a, b)] and [compare_dates(b, a)] are the same boolean. *)
Theorem compare_dates_symmetric (a b : option string) :
  compare_dates a b = compare_dates b a.
Proof.
  unfold compare_dates.
  rewrite (orb_comm (negb (opt_truthy a))), (opt_eqb_sym a b).
  destruct (negb (opt_truthy b) || negb (opt_truthy a)); [reflexivity |].
  rewrite (opt_eqb_sym (normalize_dates a)).
  destruct (opt_eqb (normalize_dates b) (normalize_dates a)); [reflexivity |].
  destruct a as [x |], b as [y |]; try reflexivity.
  apply same_day_sym.
Qed.

(** Two texts that both parse are normalized to the same text only when
    they fall on the same day. *)
Lemma normalized_equal_same_day a b da db :
  str_truthy a = true -> str_truthy b = true ->
  isoparse a = Returned da -> isoparse b = Returned db ->
  valid da = true -> valid db = true ->
  opt_eqb (normalize_dates (Some a)) (normalize_dates (Some b)) = true ->
  date da = date db.
Proof.
  intros Ta Tb Ha Hb Va Vb H.
  unfold normalize_dates in H. rewrite Ta, Tb, Ha, Hb in H.
  cbn [negb opt_eqb] in H.
  apply String.eqb_eq in H.
  exact (proj1 (strftime_inj da db Va Vb H)).
Qed.

(** C2, as amended. For two non-empty texts that both parse to valid
    timestamps, [compare_dates] returns [True] exactly when they fall on the
    same calendar day (year, month and day; the time of day, the fraction and
    the offset are not compared); in particular identical timestamps compare
    [True] and timestamps on different days compare [False]. *)
Theorem compare_dates_same_calendar_day (a b : string) (da db : datetime) :
  str_truthy a = true -> str_truthy b = true ->
  isoparse a = Returned da -> isoparse b = Returned db ->
  valid da = true -> valid db = true ->
  (compare_dates (Some a) (Some b) = true <-> date da = date db) /\
  (da = db -> compare_dates (Some a) (Some b) = true) /\
  (date da <> date db -> compare_dates (Some a) (Some b) = false).
Proof.
  intros Ta Tb Ha Hb Va Vb.
  assert (E : compare_dates (Some a) (Some b) = true <-> date da = date db).
  { unfold compare_dates. cbn [opt_truthy]. rewrite Ta, Tb. cbn [negb orb].
    destruct (opt_eqb (normalize_dates (Some a)) (normalize_dates (Some b)))
      eqn:N.
    - split; [intros _ | reflexivity].
      exact (normalized_equal_same_day a b da db Ta Tb Ha Hb Va Vb N).
    - unfold same_day. rewrite Ha, Hb. apply date_eqb_eq. }
  split; [exact E | split].
  - intros ->. apply E. reflexivity.
  - intros D. destruct (compare_dates (Some a) (Some b)); [| reflexivity].
    exfalso. apply D, E. reflexivity.
Qed.

End Compare.

(** C2, as stated, fails: two timestamps of the same day that differ in the
    time of day (["2003-09-25T10:49:41"] against midnight of that day) are
    different instants, and [compare_dates] returns [True] for them. *)
Lemma compare_dates_ignores_time_of_day :
  exists d1 d2 : datetime,
    isoparse "2003-09-25T10:49:41" = Returned d1 /\
    isoparse "2003-09-25T00:00:00" = Returned d2 /\
    hour d1 = 10 /\ hour d2 = 0 /\ d1 <> d2 /\
    compare_dates isoparse (Some "2003-09-25T10:49:41")
                  (Some "2003-09-25T00:00:00") = true.
Proof.
  exists (mkDatetime 2003 9 25 10 49 41 0 None).
  exists (mkDatetime 2003 9 25 0 0 0 0 None).
  split; [vm_compute; reflexivity |].
  split; [vm_compute; reflexivity |].
  split; [reflexivity |]. split; [reflexivity |].
  split; [discriminate | vm_compute; reflexivity].
Qed.

Lemma compare_dates_same_calendar_day_witness :
  (str_truthy "2003-09-25T10:49:41" = true /\
   str_truthy "2004-02-29" = true /\
   isoparse "2003-09-25T10:49:41" = Returned (mkDatetime 2003 9 25 10 49 41 0 None) /\
   isoparse "2004-02-29" = Returned (mkDatetime 2004 2 29 0 0 0 0 None)) /\
  ((compare_dates isoparse (Some "2003-09-25T10:49:41") (Some "2004-02-29") = true
    <-> date (mkDatetime 2003 9 25 10 49 41 0 None)
        = date (mkDatetime 2004 2 29 0 0 0 0 None)) /\
   (mkDatetime 2003 9 25 10 49 41 0 None = mkDatetime 2004 2 29 0 0 0 0 None ->
    compare_dates isoparse (Some "2003-09-25T10:49:41") (Some "2004-02-29") = true) /\
   (date (mkDatetime 2003 9 25 10 49 41 0 None)
      <> date (mkDatetime 2004 2 29 0 0 0 0 None) ->
    compare_dates isoparse (Some "2003-09-25T10:49:41") (Some "2004-02-29") = false)).
Proof.
  split.
  - split; [| split; [| split]]; vm_compute; reflexivity.
  - apply (compare_dates_same_calendar_day isoparse
             "2003-09-25T10:49:41" "2004-02-29"); vm_compute; reflexivity.
Defined.

End CompareResults.

(** ** The parsing engine

    The scripts above only call the engine: [test_comparison.py] hands each
    scenario to a parser, and the parser itself (the Swift DateParser and the
    library it is measured against) is not among them. The engine is
    therefore modelled from sections 3, 4 and 7 of the specification, stage by
    stage: text, tokens, classified tokens, (relative check, else) field
    assignment, year windowing, default filling, validation, assembled
    result, with the Fuzzy Extractor above the pipeline. *)

Module Engine.
Import Datetime.

(** *** 4.1 Token Stream Builder *)

Inductive TokenKind : Type := Numeric | Alpha | Separator | Whitespace.

(** Modelled from the spec: the Token of section 3 (kind, text, numeric
    value if applicable, source span). *)
Record Token : Type := mkToken {
  kind : TokenKind;
  text : string;
  value : option Z;
  span : nat * nat
}.

Definition is_letter (c : ascii) : bool :=
  let n := nat_of_ascii c in
  ((65 <=? n)%nat && (n <=? 90)%nat) || ((97 <=? n)%nat && (n <=? 122)%nat).

Definition is_space (c : ascii) : bool :=
  let n := nat_of_ascii c in
  (n =? 32)%nat || ((9 <=? n)%nat && (n <=? 13)%nat).

(** The longest prefix of [s] whose characters satisfy [p], and the rest. *)
Fixpoint span_while (p : ascii -> bool) (s : string) : string * string :=
  match s with
  | String c rest =>
      if p c then let '(run, tl) := span_while p rest in (String c run, tl)
      else (EmptyString, s)
  | EmptyString => (EmptyString, EmptyString)
  end.

Fixpoint decimal_value (acc : Z) (s : string) : Z :=
  match s with
  | String c rest => decimal_value (10 * acc + digit_value c) rest
  | EmptyString => acc
  end.

Fixpoint tokenize_from (fuel pos : nat) (s : string) : list Token :=
  match fuel, s with
  | S f, String c rest =>
      if is_digit c then
        let '(run, tl) := span_while is_digit s in
        let stop := (pos + String.length run)%nat in
        mkToken Numeric run (Some (decimal_value 0 run)) (pos, stop)
          :: tokenize_from f stop tl
      else if is_letter c then
        let '(run, tl) := span_while is_letter s in
        let stop := (pos + String.length run)%nat in
        mkToken Alpha run None (pos, stop) :: tokenize_from f stop tl
      else
        mkToken (if is_space c then Whitespace else Separator)
                (String c EmptyString) None (pos, S pos)
          :: tokenize_from f (S pos) rest
  | _, _ => []
  end.

(** Modelled from the spec: [tokenize] of section 4.1. Maximal runs of
    digits and of letters are one token each, every other character is a
    token of its own, and the empty text has no token. Every step consumes a
    character, so the length of the text is fuel enough. *)
Definition tokenize (txt : string) : list Token :=
  tokenize_from (String.length txt) 0 txt.

(** *** 4.2 Lexical Classifier *)

Inductive Meridiem : Type := AM | PM.
Inductive Era : Type := AD | BC | CE.
Inductive Unit : Type := Day | Week | MonthUnit | YearUnit.
Inductive RelativeKind : Type :=
| Today | Tomorrow | Yesterday | Ago | In | Next | Last | UnitWord (u : Unit).

Inductive Tag : Type :=
| Month (n : Z)
| Weekday (n : Z)
| MeridiemTag (m : Meridiem)
| EraTag (e : Era)
| RelativeKeyword (k : RelativeKind)
| OrdinalSuffix.

(** Modelled from the spec: the ClassifiedToken of section 3, a token and
    at most one semantic tag. *)
Record ClassifiedToken : Type := mkClassified {
  token : Token;
  tag : option Tag
}.

(** A locale table: vocabulary in lower case, each word with its tag. *)
Definition LocaleTable : Type := list (string * Tag).

Definition english : LocaleTable :=
  [("january", Month 1); ("february", Month 2); ("march", Month 3);
   ("april", Month 4); ("may", Month 5); ("june", Month 6);
   ("july", Month 7); ("august", Month 8); ("september", Month 9);
   ("october", Month 10); ("november", Month 11); ("december", Month 12);
   ("jan", Month 1); ("feb", Month 2); ("mar", Month 3); ("apr", Month 4);
   ("jun", Month 6); ("jul", Month 7); ("aug", Month 8); ("sep", Month 9);
   ("oct", Month 10); ("nov", Month 11); ("dec", Month 12);
   ("monday", Weekday 1); ("tuesday", Weekday 2); ("wednesday", Weekday 3);
   ("thursday", Weekday 4); ("friday", Weekday 5); ("saturday", Weekday 6);
   ("sunday", Weekday 7);
   ("mon", Weekday 1); ("tue", Weekday 2); ("wed", Weekday 3);
   ("thu", Weekday 4); ("fri", Weekday 5); ("sat", Weekday 6);
   ("sun", Weekday 7);
   ("am", MeridiemTag AM); ("pm", MeridiemTag PM);
   ("ad", EraTag AD); ("bc", EraTag BC); ("ce", EraTag CE);
   ("today", RelativeKeyword Today); ("tomorrow", RelativeKeyword Tomorrow);
   ("yesterday", RelativeKeyword Yesterday); ("ago", RelativeKeyword Ago);
   ("in", RelativeKeyword In); ("next", RelativeKeyword Next);
   ("last", RelativeKeyword Last);
   ("day", RelativeKeyword (UnitWord Day));
   ("week", RelativeKeyword (UnitWord Week));
   ("month", RelativeKeyword (UnitWord MonthUnit));
   ("year", RelativeKeyword (UnitWord YearUnit));
   ("st", OrdinalSuffix); ("nd", OrdinalSuffix); ("rd", OrdinalSuffix);
   ("th", OrdinalSuffix)].

(** Modelled from the spec: the ParseConfig of section 3, with the two
    policy choices sections 4.7 and 4.3 (item 6) expose as configuration:
    strict or lenient validation, and astronomical year numbering. *)
Record ParseConfig : Type := mkConfig {
  dayFirst : bool;
  yearFirst : bool;
  fuzzy : bool;
  ignoreTimezone : bool;
  pivotYear : Z;
  defaultDateTime : datetime;
  locale : LocaleTable;
  strict : bool;
  astronomicalYears : bool
}.

Definition lower (c : ascii) : ascii :=
  let n := nat_of_ascii c in
  if (65 <=? n)%nat && (n <=? 90)%nat then ascii_of_nat (n + 32) else c.

Fixpoint lowercase (s : string) : string :=
  match s with
  | String c rest => String (lower c) (lowercase rest)
  | EmptyString => EmptyString
  end.

(** The table word that is the longest prefix of [word]. *)
Fixpoint longest_prefix (table : LocaleTable) (word : string)
    (best : option (string * Tag)) : option (string * Tag) :=
  match table with
  | [] => best
  | (w, tg) :: rest =>
      let better :=
        match best with
        | None => true
        | Some (b, _) => (String.length b <? String.length w)%nat
        end in
      if String.prefix w word && better
      then longest_prefix rest word (Some (w, tg))
      else longest_prefix rest word best
  end.

(** Modelled from the spec: [classify] of section 4.2. Alpha tokens are
    matched without regard to case, by longest prefix against the locale
    table; other tokens carry no tag. *)
Definition classify (tok : Token) (config : ParseConfig) : ClassifiedToken :=
  match kind tok with
  | Alpha =>
      mkClassified tok
        (option_map snd (longest_prefix (locale config) (lowercase (text tok)) None))
  | _ => mkClassified tok None
  end.

Definition is_ordinal (tg : option Tag) : bool :=
  match tg with Some OrdinalSuffix => true | _ => false end.

(** An ordinal suffix attaches to the Numeric token immediately before it;
    anywhere else the word is no ordinal suffix and stays untagged. *)
Fixpoint classify_all (prev_numeric : bool) (toks : list Token)
    (config : ParseConfig) : list ClassifiedToken :=
  match toks with
  | [] => []
  | tok :: rest =>
      let ct := classify tok config in
      let ct := if is_ordinal (tag ct) && negb prev_numeric
                then mkClassified tok None else ct in
      ct :: classify_all (match kind tok with Numeric => true | _ => false end)
                         rest config
  end.

(** *** 3 and 7: partial results, errors, results *)

(** Modelled from the spec: the PartialDateTime of section 3. Every field is
    optional; [p_yearDigits] keeps the length of the numeral the year came
    from (the Windower applies to one- and two-digit years), [p_fraction]
    the digits after the decimal separator and their count. *)
Record PartialDateTime : Type := mkPartial {
  p_year : option Z;
  p_yearDigits : nat;
  p_month : option Z;
  p_day : option Z;
  p_hour : option Z;
  p_minute : option Z;
  p_second : option Z;
  p_fraction : option (Z * nat);
  p_era : option Era;
  p_offset : option Z;
  p_zulu : bool
}.

Definition empty_partial : PartialDateTime :=
  mkPartial None 0 None None None None None None None None false.

(** Modelled from the spec: the error kinds of section 7. *)
Inductive ErrorKind : Type :=
| EmptyInput
| UnrecognizedToken
| AmbiguousField
| InvalidCalendarDate
| InvalidTimeOfDay
| YearZeroRejected
| IncompleteRelativeExpression.

Definition kind_name (k : ErrorKind) : string :=
  match k with
  | EmptyInput => "EmptyInput"
  | UnrecognizedToken => "UnrecognizedToken"
  | AmbiguousField => "AmbiguousField"
  | InvalidCalendarDate => "InvalidCalendarDate"
  | InvalidTimeOfDay => "InvalidTimeOfDay"
  | YearZeroRejected => "YearZeroRejected"
  | IncompleteRelativeExpression => "IncompleteRelativeExpression"
  end.

(** A failure: its kind and the offending substring when there is one. *)
Record ParseError : Type := mkError {
  error_kind : ErrorKind;
  offending : string
}.

Definition message (e : ParseError) : string :=
  kind_name (error_kind e) ++ ": " ++ offending e.

Inductive result (A : Type) : Type :=
| Ok (a : A)
| Err (e : ParseError).
Arguments Ok {A} a.
Arguments Err {A} e.

Definition fail {A} (k : ErrorKind) (what : string) : result A :=
  Err (mkError k what).

Definition rbind {A B} (m : result A) (k : A -> result B) : result B :=
  match m with Ok a => k a | Err e => Err e end.

(** Modelled from the spec: the ParseResult of section 3. [bcFlag] is the
    BC flag of section 4.3, item 6. *)
Record ParseResult : Type := mkResult {
  success : bool;
  timestamp : option datetime;
  utcOffsetMinutes : option Z;
  error : option ParseError;
  skippedTokens : list string;
  bcFlag : bool
}.

(** *** 4.4 Two-Digit Year Windower *)

(** Modelled from the spec: [window] of section 4.4. *)
Definition window (twoDigitYear pivot : Z) : Z :=
  if twoDigitYear <? pivot then 2000 + twoDigitYear else 1900 + twoDigitYear.

(** *** 4.3 Field Resolver *)

Definition numeral (ct : ClassifiedToken) : option (Z * nat) :=
  match kind (token ct), value (token ct) with
  | Numeric, Some v => Some (v, String.length (text (token ct)))
  | _, _ => None
  end.

Definition is_sep (c : string) (ct : ClassifiedToken) : bool :=
  match kind (token ct) with
  | Separator => String.eqb (text (token ct)) c
  | _ => false
  end.

Definition is_date_sep (ct : ClassifiedToken) : bool :=
  is_sep "/" ct || is_sep "-" ct || is_sep "." ct.

Definition is_blank (ct : ClassifiedToken) : bool :=
  match kind (token ct) with Whitespace => true | _ => false end.

Definition is_word (w : string) (ct : ClassifiedToken) : bool :=
  match kind (token ct), tag ct with
  | Alpha, None => String.eqb (lowercase (text (token ct))) w
  | _, _ => false
  end.

(** What the resolver has assigned so far: the fields, the numerals of the
    date group still waiting for a field, and the meridiem marker. *)
Record Assigned : Type := mkAssigned {
  fields : PartialDateTime;
  waiting : list (Z * nat);
  meridiem : option Meridiem
}.

Definition set_date (y : Z * nat) (m d : Z) (p : PartialDateTime) : PartialDateTime :=
  mkPartial (Some (fst y)) (snd y) (Some m) (Some d) (p_hour p) (p_minute p)
            (p_second p) (p_fraction p) (p_era p) (p_offset p) (p_zulu p).

Definition set_year (y : Z * nat) (p : PartialDateTime) : PartialDateTime :=
  mkPartial (Some (fst y)) (snd y) (p_month p) (p_day p) (p_hour p) (p_minute p)
            (p_second p) (p_fraction p) (p_era p) (p_offset p) (p_zulu p).

Definition set_month (m : Z) (p : PartialDateTime) : PartialDateTime :=
  mkPartial (p_year p) (p_yearDigits p) (Some m) (p_day p) (p_hour p) (p_minute p)
            (p_second p) (p_fraction p) (p_era p) (p_offset p) (p_zulu p).

Definition set_day (d : Z) (p : PartialDateTime) : PartialDateTime :=
  mkPartial (p_year p) (p_yearDigits p) (p_month p) (Some d) (p_hour p) (p_minute p)
            (p_second p) (p_fraction p) (p_era p) (p_offset p) (p_zulu p).

Definition set_time (h mi : Z) (s : option Z) (f : option (Z * nat))
    (p : PartialDateTime) : PartialDateTime :=
  mkPartial (p_year p) (p_yearDigits p) (p_month p) (p_day p) (Some h) (Some mi)
            s f (p_era p) (p_offset p) (p_zulu p).

Definition set_hour (h : Z) (p : PartialDateTime) : PartialDateTime :=
  mkPartial (p_year p) (p_yearDigits p) (p_month p) (p_day p) (Some h) (p_minute p)
            (p_second p) (p_fraction p) (p_era p) (p_offset p) (p_zulu p).

Definition set_era (e : Era) (p : PartialDateTime) : PartialDateTime :=
  mkPartial (p_year p) (p_yearDigits p) (p_month p) (p_day p) (p_hour p) (p_minute p)
            (p_second p) (p_fraction p) (Some e) (p_offset p) (p_zulu p).

Definition set_offset (o : Z) (zulu : bool) (p : PartialDateTime) : PartialDateTime :=
  mkPartial (p_year p) (p_yearDigits p) (p_month p) (p_day p) (p_hour p) (p_minute p)
            (p_second p) (p_fraction p) (p_era p) (Some o) zulu.

Definition is_some {A} (o : option A) : bool :=
  match o with Some _ => true | None => false end.

Definition has_date (p : PartialDateTime) : bool :=
  is_some (p_year p) || is_some (p_month p) || is_some (p_day p).

(** Item 4: a numeral followed by [:] begins a time-of-day group; seconds
    follow a second [:], the fraction follows [.] or [,]. *)
Definition take_time (l : list ClassifiedToken)
    : option (Z * Z * option Z * option (Z * nat) * list ClassifiedToken) :=
  match l with
  | h :: c1 :: mi :: rest =>
      match numeral h, is_sep ":" c1, numeral mi with
      | Some (hv, _), true, Some (mv, _) =>
          match rest with
          | c2 :: s :: rest2 =>
              match is_sep ":" c2, numeral s with
              | true, Some (sv, _) =>
                  match rest2 with
                  | dot :: f :: rest3 =>
                      match is_sep "." dot || is_sep "," dot, numeral f with
                      | true, Some fr => Some (hv, mv, Some sv, Some fr, rest3)
                      | _, _ => Some (hv, mv, Some sv, None, rest2)
                      end
                  | _ => Some (hv, mv, Some sv, None, rest2)
                  end
              | _, _ => Some (hv, mv, None, None, rest)
              end
          | _ => Some (hv, mv, None, None, rest)
          end
      | _, _, _ => None
      end
  | _ => None
  end.

(** Item 7: a signed offset [+HH:MM] or [-HH:MM], or the literal [Z], after
    the time of day. *)
Definition take_offset (l : list ClassifiedToken)
    : option (Z * bool * list ClassifiedToken) :=
  match l with
  | z :: rest =>
      if is_word "z" z then Some (0, true, rest)
      else
        match rest with
        | h :: c :: mi :: rest2 =>
            match is_sep "+" z || is_sep "-" z, numeral h, is_sep ":" c, numeral mi with
            | true, Some (hv, 2%nat), true, Some (mv, 2%nat) =>
                let o := 60 * hv + mv in
                Some (if is_sep "-" z then - o else o, false, rest2)
            | _, _, _, _ => None
            end
        | _ => None
        end
  | [] => None
  end.

(** Item 3: three numerals separated by [/], [-] or [.]. *)
Definition take_triple (l : list ClassifiedToken)
    : option ((Z * nat) * (Z * nat) * (Z * nat) * list ClassifiedToken) :=
  match l with
  | a :: s1 :: b :: s2 :: c :: rest =>
      match numeral a, numeral b, numeral c with
      | Some na, Some nb, Some nc =>
          if is_date_sep s1 && is_date_sep s2 then Some (na, nb, nc, rest)
          else None
      | _, _, _ => None
      end
  | _ => None
  end.

(** Item 3, the order of the three groups: year-month-day when the first
    group has length 4; otherwise [yearFirst] yields YMD, [dayFirst] without
    [yearFirst] yields DMY, and neither yields MDY. *)
Definition assign_triple (a b c : Z * nat) (config : ParseConfig)
    (p : PartialDateTime) : PartialDateTime :=
  if (snd a =? 4)%nat then set_date a (fst b) (fst c) p
  else if yearFirst config then set_date a (fst b) (fst c) p
  else if dayFirst config then set_date c (fst b) (fst a) p
  else set_date c (fst a) (fst b) p.

(** Item 1: a compact block of eight digits is year, month, day; a compact
    block of six digits after [T] is hour, minute, second. *)
Definition compact_date (v : Z) (p : PartialDateTime) : PartialDateTime :=
  set_date (v / 10000, 4%nat) (v / 100 mod 100) (v mod 100) p.

Definition compact_time (v : Z) (p : PartialDateTime) : PartialDateTime :=
  set_time (v / 10000) (v / 100 mod 100) (Some (v mod 100)) None p.

Definition unrecognized {A} (ct : ClassifiedToken) : result A :=
  fail UnrecognizedToken (text (token ct)).

Definition ambiguous {A} (ct : ClassifiedToken) : result A :=
  fail AmbiguousField (text (token ct)).

(** Item 7: the offset after the time of day is kept, or recognized and
    discarded under [ignoreTimezone]. *)
Definition assign_offset (rest : list ClassifiedToken) (config : ParseConfig)
    (p : PartialDateTime) : PartialDateTime * list ClassifiedToken :=
  match take_offset rest with
  | Some (o, zulu, rest') =>
      (if ignoreTimezone config then p else set_offset o zulu p, rest')
  | None => (p, rest)
  end.

(** One step of the left-to-right pass: the group at the head of the
    sequence is assigned, and the rest is handed back. [named] tells whether
    a Month token occurs in the sequence (item 2 then takes the numerals). *)
Definition step (named : bool) (config : ParseConfig) (st : Assigned)
    (l : list ClassifiedToken) : result (Assigned * list ClassifiedToken) :=
  match l with
  | [] => Ok (st, [])
  | ct :: rest =>
      let p := fields st in
      match kind (token ct) with
      | Whitespace => Ok (st, rest)
      | Numeric =>
          match take_time l with
          | Some (h, mi, s, f, rest') =>
              if is_some (p_hour p) then ambiguous ct
              else
                let '(p', rest'') :=
                  assign_offset rest' config (set_time h mi s f p) in
                Ok (mkAssigned p' (waiting st) (meridiem st), rest'')
          | None =>
              match numeral ct with
              | Some (v, 8%nat) =>
                  if has_date p then ambiguous ct
                  else Ok (mkAssigned (compact_date v p) (waiting st) (meridiem st), rest)
              | Some n =>
                  match (if named then None else take_triple l) with
                  | Some (a, b, c, rest') =>
                      if has_date p then ambiguous ct
                      else Ok (mkAssigned (assign_triple a b c config p)
                                          (waiting st) (meridiem st), rest')
                  | None =>
                      match rest with
                      | sfx :: rest' =>
                          if is_ordinal (tag sfx) then
                            (if is_some (p_day p) then ambiguous ct
                             else Ok (mkAssigned (set_day (fst n) p) (waiting st)
                                                 (meridiem st), rest'))
                          else Ok (mkAssigned p (waiting st ++ [n])%list
                                              (meridiem st), rest)
                      | [] => Ok (mkAssigned p (waiting st ++ [n])%list
                                             (meridiem st), rest)
                      end
                  end
              | None => unrecognized ct
              end
          end
      | Separator =>
          if is_sep "'" ct then
            match rest with
            | y :: rest' =>
                match numeral y with
                | Some n =>
                    if is_some (p_year p) then ambiguous y
                    else Ok (mkAssigned (set_year n p) (waiting st) (meridiem st), rest')
                | None => Ok (st, rest)
                end
            | [] => Ok (st, rest)
            end
          else Ok (st, rest)
      | Alpha =>
          match tag ct with
          | Some (Month m) =>
              if is_some (p_month p) then ambiguous ct
              else Ok (mkAssigned (set_month m p) (waiting st) (meridiem st), rest)
          | Some (Weekday _) => Ok (st, rest)
          | Some (MeridiemTag m) =>
              if is_some (meridiem st) then ambiguous ct
              else Ok (mkAssigned p (waiting st) (Some m), rest)
          | Some (EraTag e) =>
              if is_some (p_era p) then ambiguous ct
              else Ok (mkAssigned (set_era e p) (waiting st) (meridiem st), rest)
          | Some (RelativeKeyword _) => unrecognized ct
          | Some OrdinalSuffix => unrecognized ct
          | None =>
              if is_word "t" ct then
                match rest with
                | n :: rest' =>
                    match take_time rest, numeral n with
                    | Some _, _ => Ok (st, rest)
                    | None, Some (v, 6%nat) =>
                        if is_some (p_hour p) then ambiguous n
                        else
                          let '(p', rest'') :=
                            assign_offset rest' config (compact_time v p) in
                          Ok (mkAssigned p' (waiting st) (meridiem st), rest'')
                    | None, _ => unrecognized ct
                    end
                | [] => unrecognized ct
                end
              else unrecognized ct
          end
      end
  end.

Fixpoint pass (fuel : nat) (named : bool) (config : ParseConfig)
    (st : Assigned) (l : list ClassifiedToken) : result Assigned :=
  match l with
  | [] => Ok st
  | _ =>
      match fuel with
      | O => fail AmbiguousField ""
      | S f =>
          rbind (step named config st l) (fun '(st', rest) =>
          pass f named config st' rest)
      end
  end.

Definition year_like (n : Z * nat) : bool := (31 <? fst n) || (snd n =? 4)%nat.
Definition day_like (n : Z * nat) : bool := 12 <? fst n.

(** Items 2 and the closing paragraph of 4.3: the numerals still waiting.
    With the month named they are day and year by magnitude (over 31 or of
    length 4 is a year, over 12 is a day, and [yearFirst] breaks the tie of
    two small numerals). A single numeral with no date around it is a year:
    a two-digit year when of length 1 or 2, a literal year when of length 4. *)
Definition assign_waiting (named : bool) (config : ParseConfig) (st : Assigned)
    : result PartialDateTime :=
  let p := fields st in
  let no_year := negb (is_some (p_year p)) in
  let no_day := negb (is_some (p_day p)) in
  match waiting st with
  | [] => Ok p
  | [a] =>
      if named || has_date p then
        if no_year && year_like a then Ok (set_year a p)
        else if no_day then Ok (set_day (fst a) p)
        else if no_year then Ok (set_year a p)
        else fail AmbiguousField ""
      else if (snd a <=? 2)%nat || (snd a =? 4)%nat || is_some (p_era p)
      then Ok (set_year a p)
      else fail AmbiguousField ""
  | [a; b] =>
      if named && no_year && no_day then
        if year_like a then Ok (set_day (fst b) (set_year a p))
        else if year_like b then Ok (set_day (fst a) (set_year b p))
        else if day_like a then Ok (set_day (fst a) (set_year b p))
        else if day_like b then Ok (set_day (fst b) (set_year a p))
        else if yearFirst config then Ok (set_day (fst b) (set_year a p))
        else Ok (set_day (fst a) (set_year b p))
      else fail AmbiguousField ""
  | _ => fail AmbiguousField ""
  end.

(** Item 5: a meridiem marker converts an hour 1-12 to 24-hour form (PM
    adds 12 except for 12 PM itself, 12 AM is midnight). *)
Definition apply_meridiem (m : option Meridiem) (p : PartialDateTime)
    : result PartialDateTime :=
  match m, p_hour p with
  | None, _ => Ok p
  | Some AM, Some h =>
      if in_range 1 h 12 then Ok (set_hour (if h =? 12 then 0 else h) p)
      else fail InvalidTimeOfDay ""
  | Some PM, Some h =>
      if in_range 1 h 12 then Ok (set_hour (if h =? 12 then 12 else h + 12) p)
      else fail InvalidTimeOfDay ""
  | Some _, None => fail InvalidTimeOfDay ""
  end.

Definition is_month (ct : ClassifiedToken) : bool :=
  match tag ct with Some (Month _) => true | _ => false end.

(** Modelled from the spec: the Field Resolver of section 4.3 in strict
    mode. Every step of the pass consumes a token, so the length of the
    sequence is fuel enough. Item 8: a word no item accounts for ends the
    pass with [UnrecognizedToken]; in fuzzy mode the Fuzzy Extractor below
    turns such words into the skipped-token report. *)
Definition resolve (l : list ClassifiedToken) (config : ParseConfig)
    : result PartialDateTime :=
  let named := existsb is_month l in
  rbind (pass (List.length l) named config (mkAssigned empty_partial [] None) l)
    (fun st =>
  rbind (assign_waiting named config st) (fun p =>
  apply_meridiem (meridiem st) p)).

(** The Windower stage: a year of one or two digits is mapped through
    [window]; a year that carries an era marker is a literal year. *)
Definition windowed (config : ParseConfig) (p : PartialDateTime) : PartialDateTime :=
  match p_year p with
  | Some y =>
      if (p_yearDigits p <=? 2)%nat && negb (is_some (p_era p))
      then set_year (window y (pivotYear config), 4%nat) p
      else p
  | None => p
  end.

(** Item 6: a BC year is stored as a non-positive astronomical year only
    when the configuration asks for it. *)
Definition era_year (config : ParseConfig) (p : PartialDateTime) : PartialDateTime :=
  match p_era p, p_year p with
  | Some BC, Some y =>
      if astronomicalYears config then set_year (1 - y, p_yearDigits p) p else p
  | _, _ => p
  end.

Definition or_default (field : option Z) (dflt : Z) : Z :=
  match field with Some v => v | None => dflt end.

Definition microseconds (f : option (Z * nat)) : Z :=
  match f with
  | None => 0
  | Some (v, n) =>
      if (n <=? 6)%nat then v * 10 ^ Z.of_nat (6 - n)
      else v / 10 ^ Z.of_nat (n - 6)
  end.

(** Modelled from the spec: the Default Filler of section 4.8. Year, month,
    day, hour, minute and second are taken from the baseline one by one when
    the text left them out. *)
Definition fill (config : ParseConfig) (p : PartialDateTime) : datetime :=
  let d := defaultDateTime config in
  mkDatetime (or_default (p_year p) (year d)) (or_default (p_month p) (month d))
             (or_default (p_day p) (day d)) (or_default (p_hour p) (hour d))
             (or_default (p_minute p) (minute d))
             (or_default (p_second p) (second d))
             (microseconds (p_fraction p)) (p_offset p).

Definition next_day (dt : datetime) : datetime :=
  let '(y, m, d) :=
    if day dt <? days_in_month (year dt) (month dt)
    then (year dt, month dt, day dt + 1)
    else if month dt <? 12 then (year dt, month dt + 1, 1)
    else (year dt + 1, 1, 1) in
  mkDatetime y m d (hour dt) (minute dt) (second dt) (microsecond dt) (utcoffset dt).

Definition prev_day (dt : datetime) : datetime :=
  let '(y, m, d) :=
    if 1 <? day dt then (year dt, month dt, day dt - 1)
    else if 1 <? month dt
    then (year dt, month dt - 1, days_in_month (year dt) (month dt - 1))
    else (year dt - 1, 12, 31) in
  mkDatetime y m d (hour dt) (minute dt) (second dt) (microsecond dt) (utcoffset dt).

Definition midnight (dt : datetime) : datetime :=
  mkDatetime (year dt) (month dt) (day dt) 0 0 0 0 (utcoffset dt).

(** Modelled from the spec: the Validator of section 4.7, on the filled
    fields. A month outside 1-12 and a day that is 0 or exceeds the length
    of the month are errors in either mode; strict mode rejects year 0 unless
    years are astronomical; minute and second lie in 0-59; 24:00 rolls over
    to the next day in lenient mode only. *)
Definition validate (dt : datetime) (config : ParseConfig) : result datetime :=
  if negb (in_range 1 (month dt) 12) then fail InvalidCalendarDate "month"
  else if negb (in_range 1 (day dt) (days_in_month (year dt) (month dt)))
  then fail InvalidCalendarDate "day"
  else if strict config && (year dt =? 0) && negb (astronomicalYears config)
  then fail YearZeroRejected "year"
  else if negb (in_range 0 (minute dt) 59 && in_range 0 (second dt) 59)
  then fail InvalidTimeOfDay "time"
  else if in_range 0 (hour dt) 23 then Ok dt
  else if (hour dt =? 24) && (minute dt =? 0) && (second dt =? 0)
          && (microsecond dt =? 0) && negb (strict config)
  then Ok (midnight (next_day dt))
  else fail InvalidTimeOfDay "hour".

Definition is_bc (p : PartialDateTime) : bool :=
  match p_era p with Some BC => true | _ => false end.

(** *** 4.5 Relative Date Resolver *)

Inductive Anchor : Type := Now | TodayAnchor.

(** Modelled from the spec: the RelativeExpression of section 3. *)
Record RelativeExpression : Type := mkRelative {
  unit : Unit;
  magnitude : Z;
  anchor : Anchor
}.

Definition relative_kind (ct : ClassifiedToken) : option RelativeKind :=
  match tag ct with Some (RelativeKeyword k) => Some k | _ => None end.

Definition words (l : list ClassifiedToken) : list ClassifiedToken :=
  filter (fun ct => negb (is_blank ct)) l.

(** Modelled from the spec: [tryResolveRelative] of section 4.5, on the
    whole input: today, tomorrow, yesterday; N unit ago; in N unit; next
    unit; last unit. *)
Definition tryResolveRelative (l : list ClassifiedToken) : option RelativeExpression :=
  match words l with
  | [a] =>
      match relative_kind a with
      | Some Today => Some (mkRelative Day 0 TodayAnchor)
      | Some Tomorrow => Some (mkRelative Day 1 TodayAnchor)
      | Some Yesterday => Some (mkRelative Day (-1) TodayAnchor)
      | _ => None
      end
  | [a; b] =>
      match relative_kind a, relative_kind b with
      | Some Next, Some (UnitWord u) => Some (mkRelative u 1 Now)
      | Some Last, Some (UnitWord u) => Some (mkRelative u (-1) Now)
      | _, _ => None
      end
  | [a; b; c] =>
      match numeral a, relative_kind b, relative_kind c with
      | Some (n, _), Some (UnitWord u), Some Ago => Some (mkRelative u (- n) Now)
      | _, _, _ =>
          match relative_kind a, numeral b, relative_kind c with
          | Some In, Some (n, _), Some (UnitWord u) => Some (mkRelative u n Now)
          | _, _, _ => None
          end
      end
  | _ => None
  end.

(** Relative keywords and numerals only, and no expression among them. *)
Definition incomplete_relative (l : list ClassifiedToken) : bool :=
  let ws := words l in
  forallb (fun ct => is_some (relative_kind ct) || is_some (numeral ct)) ws
  && existsb (fun ct => is_some (relative_kind ct)) ws.

Fixpoint iterate {A} (n : nat) (f : A -> A) (a : A) : A :=
  match n with O => a | S k => iterate k f (f a) end.

(** Exact calendar-day addition. *)
Definition add_days (n : Z) (dt : datetime) : datetime :=
  if n <? 0 then iterate (Z.to_nat (- n)) prev_day dt
  else iterate (Z.to_nat n) next_day dt.

(** Month addition: the day of the month is clamped to the length of the
    target month. *)
Definition add_months (k : Z) (dt : datetime) : datetime :=
  let t := month dt - 1 + k in
  let y := year dt + t / 12 in
  let m := t mod 12 + 1 in
  mkDatetime y m (Z.min (day dt) (days_in_month y m)) (hour dt) (minute dt)
             (second dt) (microsecond dt) (utcoffset dt).

Definition evaluate (r : RelativeExpression) (reference : datetime) : datetime :=
  let base := match anchor r with Now => reference | TodayAnchor => midnight reference end in
  match unit r with
  | Day => add_days (magnitude r) base
  | Week => add_days (7 * magnitude r) base
  | MonthUnit => add_months (magnitude r) base
  | YearUnit => add_months (12 * magnitude r) base
  end.

(** *** The pipeline and the Result Assembler *)

Definition no_field (p : PartialDateTime) : bool :=
  negb (has_date p || is_some (p_hour p)).

(** Modelled from the spec: the strict pipeline of section 2 on a token
    sequence. The empty sequence is the empty-input failure of section 4.1;
    a sequence that assigns no field at all holds no date either. *)
Definition pipeline (l : list ClassifiedToken) (config : ParseConfig)
    : result (datetime * bool) :=
  match l with
  | [] => fail EmptyInput ""
  | _ =>
      match tryResolveRelative l with
      | Some r =>
          rbind (validate (evaluate r (defaultDateTime config)) config)
            (fun dt => Ok (dt, false))
      | None =>
          if incomplete_relative l then fail IncompleteRelativeExpression ""
          else
            rbind (resolve l config) (fun p =>
            if no_field p then fail EmptyInput ""
            else
              let p := era_year config (windowed config p) in
              rbind (validate (fill config p) config) (fun dt =>
              Ok (dt, is_bc p && negb (astronomicalYears config))))
      end
  end.

(** Modelled from the spec: the Result Assembler. *)
Definition assemble (r : result (datetime * bool)) (skipped : list string)
    : ParseResult :=
  match r with
  | Ok (dt, bc) => mkResult true (Some dt) (utcoffset dt) None skipped bc
  | Err e => mkResult false None None (Some e) [] false
  end.

(** *** 4.6 Fuzzy Extractor *)

(** A token may be dropped unless it carries one of the tags the section
    protects: Month, Weekday, Meridiem, Era, OrdinalSuffix. *)
Definition droppable_word (ct : ClassifiedToken) : bool :=
  match kind (token ct), tag ct with
  | Alpha, None => true
  | Alpha, Some (RelativeKeyword _) => true
  | _, _ => false
  end.

Definition edge_filler (ct : ClassifiedToken) : bool :=
  match kind (token ct) with
  | Separator | Whitespace => true
  | _ => false
  end.

(** The sequence with its drop marks. *)
Definition Marked : Type := list (ClassifiedToken * bool).

Definition kept (l : Marked) : list ClassifiedToken :=
  map fst (filter (fun x => negb (snd x)) l).

Definition dropped (l : Marked) : list string :=
  map (fun x => text (token (fst x))) (filter snd l).

(** Mark the first token still kept that satisfies [p]. *)
Fixpoint mark_first (p : ClassifiedToken -> bool) (l : Marked) : option Marked :=
  match l with
  | [] => None
  | (ct, d) :: rest =>
      if negb d && p ct then Some ((ct, true) :: rest)
      else option_map (cons (ct, d)) (mark_first p rest)
  end.

(** Mark the first token still kept, when it is filler. *)
Fixpoint mark_leading (l : Marked) : option Marked :=
  match l with
  | [] => None
  | (ct, d) :: rest =>
      if d then option_map (cons (ct, d)) (mark_leading rest)
      else if edge_filler ct then Some ((ct, true) :: rest)
      else None
  end.

(** The token to drop next: a word first, then leading or trailing filler. *)
Definition drop_one (l : Marked) : option Marked :=
  match mark_first droppable_word l with
  | Some l' => Some l'
  | None =>
      match mark_leading l with
      | Some l' => Some l'
      | None => option_map (@rev _) (mark_leading (rev l))
      end
  end.

Fixpoint fuzzy_loop (fuel : nat) (l : Marked) (config : ParseConfig)
    (first : option ParseError) : ParseResult :=
  match pipeline (kept l) config with
  | Ok r => assemble (Ok r) (dropped l)
  | Err e =>
      let reported := match first with Some e0 => e0 | None => e end in
      match fuel with
      | O => assemble (Err reported) []
      | S f =>
          match drop_one l with
          | Some l' => fuzzy_loop f l' config (Some reported)
          | None => assemble (Err reported) []
          end
      end
  end.

(** Modelled from the spec: [parseFuzzy] of section 4.6. The full sequence
    is tried first; after a failure one more token is dropped and the
    pipeline runs again; the report lists the dropped tokens in the order
    of the text. Each round drops a token, so the number of tokens is fuel
    enough; when nothing can be dropped the first failure is surfaced. *)
Definition parseFuzzy (txt : string) (config : ParseConfig) : ParseResult :=
  let l := classify_all false (tokenize txt) config in
  fuzzy_loop (List.length l) (map (fun ct => (ct, false)) l) config None.

(** Modelled from the spec: the parse entry point of section 6,
    [parse(text, config)]; the engine behind it is not among the scripts. *)
Definition parse (txt : string) (config : ParseConfig) : ParseResult :=
  if fuzzy config then parseFuzzy txt config
  else assemble (pipeline (classify_all false (tokenize txt) config) config) [].

(** *** Fuel: the pass, the tokenizer and the extractor are total *)

Ltac split_matches H :=
  repeat (match type of H with
          | context [match ?x with _ => _ end] => destruct x eqn:?
          end; try discriminate H).

Lemma take_time_shorter l h mi s f rest :
  take_time l = Some (h, mi, s, f, rest) ->
  (List.length rest < List.length l)%nat.
Proof.
  unfold take_time. intros H.
  split_matches H; injection H as <- <- <- <- <-; cbn [List.length]; lia.
Qed.

Lemma take_offset_shorter l o z rest :
  take_offset l = Some (o, z, rest) ->
  (List.length rest < List.length l)%nat.
Proof.
  unfold take_offset. intros H.
  split_matches H; injection H as <- <- <-; cbn [List.length]; lia.
Qed.

Lemma take_triple_shorter l a b c rest :
  take_triple l = Some (a, b, c, rest) ->
  (List.length rest < List.length l)%nat.
Proof.
  unfold take_triple. intros H.
  split_matches H; injection H as <- <- <- <-; cbn [List.length]; lia.
Qed.

Lemma assign_offset_shorter rest config p p' rest' :
  assign_offset rest config p = (p', rest') ->
  (List.length rest' <= List.length rest)%nat.
Proof.
  unfold assign_offset. intros H.
  destruct (take_offset rest) as [[[o z] r] |] eqn:E.
  - apply take_offset_shorter in E. injection H as _ <-. lia.
  - injection H as _ <-. lia.
Qed.

(** Every step consumes a token. *)
Lemma step_consumes named config st l st' rest :
  l <> [] -> step named config st l = Ok (st', rest) ->
  (List.length rest < List.length l)%nat.
Proof.
  intros Hl H. destruct l as [| ct l]; [congruence |].
  unfold step in H.
  split_matches H.
  all: repeat match goal with
         | E : take_time _ = Some _ |- _ => apply take_time_shorter in E
         | E : assign_offset _ _ _ = _ |- _ => apply assign_offset_shorter in E
         | E : (if ?b then None else take_triple _) = Some _ |- _ =>
             destruct b; [discriminate E | apply take_triple_shorter in E]
         end.
  all: injection H as _ <-; cbn [List.length] in *; lia.
Qed.

(** The pass does not depend on the fuel once the fuel covers the
    sequence: the length of the sequence is enough. *)
Lemma pass_fuel named config : forall fuel l st,
  (List.length l <= fuel)%nat ->
  pass fuel named config st l = pass (List.length l) named config st l.
Proof.
  induction fuel as [fuel IH] using lt_wf_ind. intros l st Hf.
  destruct l as [| ct l]; [destruct fuel; reflexivity |].
  cbn [List.length] in Hf.
  destruct fuel as [| fuel]; [lia |].
  cbn [pass List.length].
  destruct (step named config st (ct :: l)) as [[st' rest] | e] eqn:S;
    [| reflexivity].
  cbn [rbind].
  apply step_consumes in S; [| discriminate]. cbn [List.length] in S.
  rewrite (IH fuel) by lia.
  rewrite (IH (List.length l)) by lia. reflexivity.
Qed.

Lemma span_while_length p s :
  String.length s
  = (String.length (fst (span_while p s)) + String.length (snd (span_while p s)))%nat.
Proof.
  induction s as [| c s IH]; [reflexivity |].
  cbn [span_while]. destruct (p c); [| reflexivity].
  destruct (span_while p s) as [run tl]. cbn [fst snd String.length] in *. lia.
Qed.

Lemma span_while_head p c s :
  p c = true -> (1 <= String.length (fst (span_while p (String c s))))%nat.
Proof.
  intros H. cbn [span_while]. rewrite H.
  destruct (span_while p s) as [run tl]. cbn [fst String.length]. lia.
Qed.

(** The tokens do not depend on the fuel once it covers the text. *)
Lemma tokenize_fuel : forall fuel pos s,
  (String.length s <= fuel)%nat ->
  tokenize_from fuel pos s = tokenize_from (String.length s) pos s.
Proof.
  induction fuel as [fuel IH] using lt_wf_ind. intros pos s Hf.
  destruct s as [| c s]; [destruct fuel; reflexivity |].
  cbn [String.length] in Hf. destruct fuel as [| fuel]; [lia |].
  cbn [tokenize_from String.length].
  destruct (is_digit c) eqn:D; [| destruct (is_letter c) eqn:L].
  - pose proof (span_while_length is_digit (String c s)) as E.
    pose proof (span_while_head is_digit c s D) as N.
    destruct (span_while is_digit (String c s)) as [run tl].
    cbn [fst snd String.length] in E, N.
    rewrite (IH fuel) by lia. rewrite (IH (String.length s)) by lia.
    reflexivity.
  - pose proof (span_while_length is_letter (String c s)) as E.
    pose proof (span_while_head is_letter c s L) as N.
    destruct (span_while is_letter (String c s)) as [run tl].
    cbn [fst snd String.length] in E, N.
    rewrite (IH fuel) by lia. rewrite (IH (String.length s)) by lia.
    reflexivity.
  - rewrite (IH fuel) by lia. reflexivity.
Qed.

Definition remaining (l : Marked) : nat :=
  List.length (filter (fun x => negb (snd x)) l).

Lemma mark_first_remaining p : forall l l',
  mark_first p l = Some l' -> remaining l = S (remaining l').
Proof.
  unfold remaining.
  induction l as [| [ct d] l IH]; intros l' H; [discriminate H |].
  cbn [mark_first] in H.
  destruct (negb d && p ct) eqn:E.
  - injection H as <-. apply andb_true_iff in E as [E _].
    cbn [filter snd]. rewrite E. cbn. reflexivity.
  - destruct (mark_first p l) as [m |]; [| discriminate H].
    injection H as <-. cbn [filter snd].
    destruct (negb d); cbn [List.length]; rewrite (IH m eq_refl); reflexivity.
Qed.

Lemma mark_leading_remaining : forall l l',
  mark_leading l = Some l' -> remaining l = S (remaining l').
Proof.
  unfold remaining.
  induction l as [| [ct d] l IH]; intros l' H; [discriminate H |].
  cbn [mark_leading] in H. destruct d.
  - destruct (mark_leading l) as [m |]; [| discriminate H].
    injection H as <-. cbn [filter snd negb]. apply IH. reflexivity.
  - destruct (edge_filler ct); [| discriminate H].
    injection H as <-. cbn. reflexivity.
Qed.

Lemma remaining_rev l : remaining (rev l) = remaining l.
Proof.
  unfold remaining.
  induction l as [| x l IH]; [reflexivity |].
  cbn [rev filter]. rewrite filter_app, length_app, IH. cbn [filter].
  destruct (negb (snd x)); cbn [List.length]; lia.
Qed.

(** Every round drops a token that was still kept. *)
Lemma drop_one_remaining l l' :
  drop_one l = Some l' -> remaining l = S (remaining l').
Proof.
  unfold drop_one. intros H.
  destruct (mark_first droppable_word l) as [m |] eqn:A.
  - injection H as <-. now apply mark_first_remaining in A.
  - destruct (mark_leading l) as [m |] eqn:B.
    + injection H as <-. now apply mark_leading_remaining in B.
    + destruct (mark_leading (rev l)) as [m |] eqn:C; [| discriminate H].
      injection H as <-. apply mark_leading_remaining in C.
      rewrite remaining_rev in *. exact C.
Qed.

(** The extractor does not depend on the fuel once it covers the tokens
    still kept. *)
Lemma fuzzy_fuel config : forall fuel l first,
  (remaining l <= fuel)%nat ->
  fuzzy_loop fuel l config first = fuzzy_loop (remaining l) l config first.
Proof.
  induction fuel as [fuel IH] using lt_wf_ind. intros l first Hf.
  destruct fuel as [| fuel].
  - replace (remaining l) with 0%nat by lia. reflexivity.
  - cbn [fuzzy_loop].
    destruct (pipeline (kept l) config) as [r | e] eqn:P.
    + destruct (remaining l); cbn [fuzzy_loop]; rewrite P; reflexivity.
    + destruct (drop_one l) as [l' |] eqn:D.
      * pose proof (drop_one_remaining l l' D) as R. rewrite R.
        cbn [fuzzy_loop]. rewrite P, D.
        apply IH; lia.
      * destruct (remaining l); cbn [fuzzy_loop]; rewrite P, ?D; reflexivity.
Qed.

Lemma remaining_unmarked l :
  remaining (map (fun ct => (ct, false)) l) = List.length l.
Proof.
  unfold remaining. induction l as [| ct l IH]; cbn; [reflexivity |].
  now rewrite IH.
Qed.

(** *** Facts about the pipeline *)

Lemma kept_unmarked l : kept (map (fun ct => (ct, false)) l) = l.
Proof.
  unfold kept. induction l as [| ct l IH]; cbn; [reflexivity |].
  now rewrite IH.
Qed.

Lemma dropped_unmarked l : dropped (map (fun ct => (ct, false)) l) = [].
Proof.
  unfold dropped. induction l as [| ct l IH]; cbn; [reflexivity | exact IH].
Qed.

(** A text the strict pipeline accepts is accepted as it is, with nothing
    skipped, whether or not fuzzy mode is on. *)
Lemma parse_accepts txt config r :
  pipeline (classify_all false (tokenize txt) config) config = Ok r ->
  parse txt config = assemble (Ok r) [].
Proof.
  intros H. unfold parse. destruct (fuzzy config); [| now rewrite H].
  unfold parseFuzzy.
  destruct (List.length (classify_all false (tokenize txt) config));
    cbn [fuzzy_loop]; rewrite kept_unmarked, H, dropped_unmarked; reflexivity.
Qed.

(** A text the strict pipeline rejects and that offers nothing to drop is
    rejected with that failure. *)
Lemma parse_rejects txt config e :
  pipeline (classify_all false (tokenize txt) config) config = Err e ->
  drop_one (map (fun ct => (ct, false))
                (classify_all false (tokenize txt) config)) = None ->
  parse txt config = assemble (Err e) [].
Proof.
  intros H D. unfold parse. destruct (fuzzy config); [| now rewrite H].
  unfold parseFuzzy.
  destruct (List.length (classify_all false (tokenize txt) config));
    cbn [fuzzy_loop]; rewrite kept_unmarked, H; [reflexivity |].
  rewrite D. reflexivity.
Qed.

Lemma pipeline_fields l config p :
  tryResolveRelative l = None -> incomplete_relative l = false ->
  resolve l config = Ok p -> no_field p = false ->
  pipeline l config =
  rbind (validate (fill config (era_year config (windowed config p))) config)
    (fun dt =>
  Ok (dt, is_bc (era_year config (windowed config p))
          && negb (astronomicalYears config))).
Proof.
  intros Hr Hi Hp Hn. unfold pipeline.
  destruct l as [| ct l].
  - cbv in Hp. injection Hp as <-. discriminate Hn.
  - rewrite Hr, Hi, Hp. cbn [rbind]. rewrite Hn. reflexivity.
Qed.

(** The fields the Validator sees for a text that gives a date and nothing
    else: the time of day is the baseline's. *)
Definition date_only (config : ParseConfig) (y m d : Z) : datetime :=
  let dflt := defaultDateTime config in
  mkDatetime y m d (hour dflt) (minute dflt) (second dflt) 0 None.

Definition year_read (config : ParseConfig) (y : Z * nat) : Z :=
  if (snd y <=? 2)%nat then window (fst y) (pivotYear config) else fst y.

Lemma pipeline_date_only l config y m d :
  tryResolveRelative l = None -> incomplete_relative l = false ->
  resolve l config = Ok (set_date y m d empty_partial) ->
  pipeline l config =
  rbind (validate (date_only config (year_read config y) m d) config)
    (fun dt => Ok (dt, false)).
Proof.
  intros Hr Hi Hp.
  rewrite (pipeline_fields l config _ Hr Hi Hp eq_refl).
  unfold windowed, year_read, date_only.
  cbn [set_date empty_partial p_year p_yearDigits p_era is_some negb andb].
  rewrite andb_true_r.
  destruct (snd y <=? 2)%nat; reflexivity.
Qed.

Lemma valid_time d :
  valid d = true ->
  in_range 0 (hour d) 23 = true /\ in_range 0 (minute d) 59 = true /\
  in_range 0 (second d) 59 = true.
Proof.
  unfold valid. rewrite !andb_true_iff. tauto.
Qed.

(** With a valid baseline only the date can fail validation. *)
Lemma validate_date_only config y m d :
  valid (defaultDateTime config) = true ->
  validate (date_only config y m d) config =
  if negb (in_range 1 m 12) then fail InvalidCalendarDate "month"
  else if negb (in_range 1 d (days_in_month y m))
  then fail InvalidCalendarDate "day"
  else if strict config && (y =? 0) && negb (astronomicalYears config)
  then fail YearZeroRejected "year"
  else Ok (date_only config y m d).
Proof.
  intros Hv. apply valid_time in Hv as (Hh & Hmi & Hs).
  unfold validate, date_only.
  cbn [year month day hour minute second microsecond].
  rewrite Hh, Hmi, Hs. reflexivity.
Qed.

Lemma is_leap_iff y :
  is_leap y = true <-> y mod 4 = 0 /\ (y mod 100 <> 0 \/ y mod 400 = 0).
Proof.
  unfold is_leap.
  rewrite andb_true_iff, orb_true_iff, negb_true_iff, !Z.eqb_eq, Z.eqb_neq.
  reflexivity.
Qed.

Lemma window_not_zero y pivot : 0 <= y -> (window y pivot =? 0) = false.
Proof. intros H. unfold window. destruct (y <? pivot); apply Z.eqb_neq; lia. Qed.

End Engine.

(** ** test_comparison.py *)

Module TestComparison.
Import Py Datetime.

Section Harness.

(** The values of [time.time()] (Python floats) with the arithmetic the
    harness does on them. *)
Variable seconds : Type.
Variable sub : seconds -> seconds -> seconds.
Variable mul : seconds -> seconds -> seconds.
Variable of_int : Z -> seconds.

(** [dateutil_parser.parse(date_string, fuzzy=, dayfirst=, yearfirst=)]. It
    returns a [datetime] or raises; the first argument is the current date
    and time, which the library reads for the fields the text leaves out
    (docs/compare_results.py, "default date components"). *)
Variable dateutil_parse :
  datetime -> string -> bool -> bool -> bool -> outcome datetime.

(** What one call reads from the wall clock: the two values of
    [time.time()] and the current date and time. *)
Record Readings : Type := mkReadings {
  start_time : seconds;
  end_time : seconds;
  now : datetime
}.

(** The dict [parse_with_dateutil] returns. *)
Record result : Type := mkResult {
  success : bool;
  date : option string;
  time_ms : seconds;
  error : option string
}.

(** The classes of the [except] clause of line 119. *)
Definition handled : list string := ["ParserError"; "ValueError"; "OverflowError"].

(** The [try] block of lines 109-118: both the parser and [isoformat] may
    raise. *)
Definition attempt (w : Readings) (date_string : string)
    (fuzzy dayfirst yearfirst : bool) : outcome result :=
  parsed <- dateutil_parse (now w) date_string fuzzy dayfirst yearfirst ;;
  iso <- isoformat parsed ;;
  Returned (mkResult true (Some iso)
                     (mul (sub (end_time w) (start_time w)) (of_int 1000))
                     None).

(** Lines 106-125: an exception of the classes the [except] clause names
    becomes a failure record, any other exception propagates. *)
Definition parse_with_dateutil (w : Readings) (date_string : string)
    (fuzzy dayfirst yearfirst : bool) : outcome result :=
  match attempt w date_string fuzzy dayfirst yearfirst with
  | Returned r => Returned r
  | Raised e =>
      if except_matches handled e
      then Returned (mkResult false None (of_int 0) (Some (exn_str e)))
      else Raised e
  end.

(** [c in date_string] for a one-character [c]. *)
Fixpoint contains (c : ascii) (s : string) : bool :=
  match s with
  | String c' rest => Ascii.eqb c c' || contains c rest
  | EmptyString => false
  end.

(** One entry of the list [run_python_tests] builds. *)
Record test_result : Type := mkTest {
  input : string;
  description : string;
  default : result;
  fuzzy_result : option result;
  dayfirst_result : option result
}.

(** The body of the loop of lines 134-156, without the printing: the
    default call, the fuzzy call when the default one failed on a non-empty
    text, the day-first call when the text has a [/], [-] or [.]. Each call
    has its own readings of the clock. *)
Definition run_scenario (w1 w2 w3 : Readings) (date_string descr : string)
    : outcome test_result :=
  r <- parse_with_dateutil w1 date_string false false false ;;
  fz <- (if negb (success r) && str_truthy date_string
         then x <- parse_with_dateutil w2 date_string true false false ;;
              Returned (Some x)
         else Returned None) ;;
  df <- (if contains "/" date_string || contains "-" date_string
            || contains "." date_string
         then x <- parse_with_dateutil w3 date_string false true false ;;
              Returned (Some x)
         else Returned None) ;;
  Returned (mkTest date_string descr r fz df).

(** The parser fails only with the exceptions the [except] clause names
    (instances of [ParserError], [ValueError] or [OverflowError]). *)
Definition fails_as_documented : Prop :=
  forall today s fuzzy dayfirst yearfirst e,
    dateutil_parse today s fuzzy dayfirst yearfirst = Raised e ->
    except_matches handled e = true.

(** *** Facts *)

Lemma isoformat_raises dt e :
  isoformat dt = Raised e -> except_matches handled e = true.
Proof.
  unfold isoformat. destruct (utcoffset dt) as [o |]; [| discriminate].
  destruct (in_range (-1439) o 1439); [discriminate |].
  intros H. injection H as <-. reflexivity.
Qed.

(** A call returns one of two records, or lets an exception through that
    the parser raised and the [except] clause does not name. *)
Lemma parse_with_dateutil_cases w s fz df yf :
  (exists iso,
     parse_with_dateutil w s fz df yf =
     Returned (mkResult true (Some iso)
                        (mul (sub (end_time w) (start_time w)) (of_int 1000))
                        None)) \/
  (exists e,
     except_matches handled e = true /\
     parse_with_dateutil w s fz df yf =
     Returned (mkResult false None (of_int 0) (Some (exn_str e)))) \/
  (exists e,
     except_matches handled e = false /\
     dateutil_parse (now w) s fz df yf = Raised e /\
     parse_with_dateutil w s fz df yf = Raised e).
Proof.
  unfold parse_with_dateutil, attempt.
  destruct (dateutil_parse (now w) s fz df yf) as [parsed | e] eqn:P;
    cbn [Py.bind].
  - destruct (isoformat parsed) as [iso | e] eqn:I; cbn [Py.bind].
    + left. eexists; reflexivity.
    + right; left. exists e. rewrite (isoformat_raises _ _ I). split; reflexivity.
  - destruct (except_matches handled e) eqn:M.
    + right; left. exists e. split; [exact M | reflexivity].
    + right; right. exists e. repeat split. exact M.
Qed.


(** C8. A record [parse_with_dateutil] returns carries one payload:
    with [success = True] the date is a text and the error is [None]; with
    [success = False] the date is [None] and the error is a text. *)
Theorem result_payloads_exclusive
    (w : Readings) (date_string : string) (fuzzy dayfirst yearfirst : bool)
    (r : result) :
  parse_with_dateutil w date_string fuzzy dayfirst yearfirst = Returned r ->
  (success r = true -> (exists iso, date r = Some iso) /\ error r = None) /\
  (success r = false -> date r = None /\ (exists msg, error r = Some msg)).
Proof.
  intros H.
  destruct (parse_with_dateutil_cases w date_string fuzzy dayfirst yearfirst)
    as [[iso C] | [[e [_ C]] | [e [_ [_ C]]]]];
    rewrite H in C; [| | discriminate C]; injection C as ->; cbn [success date error].
  - split; [intros _ | discriminate].
    split; [eexists; reflexivity | reflexivity].
  - split; [discriminate | intros _].
    split; [reflexivity | eexists; reflexivity].
Qed.


End Harness.

End TestComparison.

(** ** The scenarios of the harness on the engine *)

Module Scenarios.
Import Py Datetime Engine.

(** The configuration of one call of the harness: the three flags of the
    call, the current date as baseline, and the rest from [base]. *)
Definition call_config (base : ParseConfig) (today : datetime)
    (fuzzy dayfirst yearfirst : bool) : ParseConfig :=
  mkConfig dayfirst yearfirst fuzzy (ignoreTimezone base) (pivotYear base)
           today (locale base) (strict base) (astronomicalYears base).

(** The engine behind the interface the harness calls: a timestamp is
    returned, a failure is raised as a [ParserError] with its message. *)
Definition engine_parser (base : ParseConfig) (today : datetime) (s : string)
    (fuzzy dayfirst yearfirst : bool) : outcome datetime :=
  let r := parse s (call_config base today fuzzy dayfirst yearfirst) in
  match timestamp r, error r with
  | Some dt, _ => Returned dt
  | None, Some e => Raised (ParserError (message e))
  | None, None => Raised (ParserError "")
  end.

(** A strict English configuration with the pivot at 50. *)
Definition reference_config : ParseConfig :=
  mkConfig false false false false 50 (mkDatetime 2024 1 15 0 0 0 0 None)
           english true false.

Lemma engine_parser_fails_as_documented base :
  TestComparison.fails_as_documented (engine_parser base).
Proof.
  intros today s fz df yf e. unfold engine_parser.
  destruct (timestamp _); [discriminate |].
  destruct (error _); intros H; injection H as <-; reflexivity.
Qed.

Definition empty_text : string := "".

Lemma empty_text_rejected config :
  parse empty_text config = assemble (fail EmptyInput "") [].
Proof.
  apply parse_rejects; reflexivity.
Qed.

(** C3. The empty text fails with [EmptyInput] whatever the
    configuration, and [parse_with_dateutil] on the engine returns
    [success = False] for it for every combination of the [fuzzy],
    [dayfirst] and [yearfirst] flags. *)
Theorem empty_string_fails :
  (forall config : ParseConfig,
     success (parse empty_text config) = false /\
     timestamp (parse empty_text config) = None /\
     option_map error_kind (error (parse empty_text config)) = Some EmptyInput) /\
  (forall (seconds : Type) (sub mul : seconds -> seconds -> seconds)
          (of_int : Z -> seconds) (base : ParseConfig)
          (w : TestComparison.Readings seconds) (fuzzy dayfirst yearfirst : bool),
     TestComparison.parse_with_dateutil seconds sub mul of_int
       (engine_parser base) w empty_text fuzzy dayfirst yearfirst
     = Returned (TestComparison.mkResult seconds false None (of_int 0)
                   (Some "EmptyInput: "))).
Proof.
  split.
  - intros config. rewrite empty_text_rejected. repeat split.
  - intros. unfold TestComparison.parse_with_dateutil, TestComparison.attempt,
      engine_parser.
    rewrite empty_text_rejected. reflexivity.
Qed.

(** *** The ambiguous short date *)

Definition short_date : string := "10/09/03".

Lemma short_date_shape config :
  tryResolveRelative (classify_all false (tokenize short_date) config) = None /\
  incomplete_relative (classify_all false (tokenize short_date) config) = false.
Proof. split; vm_compute; reflexivity. Qed.

Lemma short_date_resolved config :
  yearFirst config = false ->
  resolve (classify_all false (tokenize short_date) config) config =
  Ok (if dayFirst config
      then set_date (3, 2%nat) 9 10 empty_partial
      else set_date (3, 2%nat) 10 9 empty_partial).
Proof.
  destruct config as [df yf fz itz pivot dflt loc st astro].
  cbn [yearFirst dayFirst]. intros ->. destruct df; vm_compute; reflexivity.
Qed.

Lemma short_date_parsed config :
  yearFirst config = false -> valid (defaultDateTime config) = true ->
  parse short_date config =
  assemble (Ok (if dayFirst config
                then date_only config (window 3 (pivotYear config)) 9 10
                else date_only config (window 3 (pivotYear config)) 10 9,
                false)) [].
Proof.
  intros Hy Hv. apply parse_accepts.
  destruct (short_date_shape config) as [T I].
  pose proof (short_date_resolved config Hy) as R.
  destruct (dayFirst config);
    rewrite (pipeline_date_only _ config _ _ _ T I R);
    change (year_read config (3, 2%nat)) with (window 3 (pivotYear config));
    rewrite (validate_date_only config _ _ _ Hv);
    rewrite window_not_zero by lia; rewrite andb_false_r; reflexivity.
Qed.

(** C5. For the text "10/09/03" and a valid baseline: with [dayFirst] and
    [yearFirst] both off the parse succeeds with month 10 and day 9; with
    [dayFirst] on (and [yearFirst] off, as in the day-first call of the
    harness) it succeeds with day 10 and month 9. *)
Theorem short_date_day_first (config : ParseConfig) :
  yearFirst config = false -> valid (defaultDateTime config) = true ->
  exists dt : datetime,
    success (parse short_date config) = true /\
    timestamp (parse short_date config) = Some dt /\
    (dayFirst config = false -> month dt = 10 /\ day dt = 9) /\
    (dayFirst config = true -> day dt = 10 /\ month dt = 9).
Proof.
  intros Hy Hv. rewrite (short_date_parsed config Hy Hv).
  destruct (dayFirst config); eexists; cbn;
    (split; [reflexivity |]); (split; [reflexivity |]);
    split; intros H; try discriminate H; split; reflexivity.
Qed.

Lemma short_date_day_first_witness :
  (yearFirst reference_config = false /\
   valid (defaultDateTime reference_config) = true) /\
  exists dt : datetime,
    success (parse short_date reference_config) = true /\
    timestamp (parse short_date reference_config) = Some dt /\
    (dayFirst reference_config = false -> month dt = 10 /\ day dt = 9) /\
    (dayFirst reference_config = true -> day dt = 10 /\ month dt = 9).
Proof.
  split; [split; reflexivity |].
  apply (short_date_day_first reference_config); reflexivity.
Defined.

(** The scenario in the harness: the default call reads month 10 and day
    9, no fuzzy call is made, and the day-first call reads day 10 and
    month 9. *)
Lemma short_date_in_harness :
  TestComparison.run_scenario Q Qminus Qmult inject_Z
    (engine_parser reference_config)
    (TestComparison.mkReadings Q (Qmake 10 1) (Qmake 11 1)
       (defaultDateTime reference_config))
    (TestComparison.mkReadings Q (Qmake 12 1) (Qmake 13 1)
       (defaultDateTime reference_config))
    (TestComparison.mkReadings Q (Qmake 14 1) (Qmake 16 1)
       (defaultDateTime reference_config))
    short_date "Short date - ambiguous"
  = Returned
      (TestComparison.mkTest Q short_date "Short date - ambiguous"
         (TestComparison.mkResult Q true (Some "2003-10-09T00:00:00")
            (Qmake 1000 1) None)
         None
         (Some (TestComparison.mkResult Q true (Some "2003-09-10T00:00:00")
                  (Qmake 2000 1) None))).
Proof. vm_compute. reflexivity. Qed.

(** *** February 29 *)

Definition leap_day_2003 : string := "2003-02-29".
Definition leap_day_2004 : string := "2004-02-29".
Definition leap_day_0000 : string := "0000-02-29".

Lemma leap_day_2003_rejected config :
  parse leap_day_2003 config = assemble (fail InvalidCalendarDate "day") [].
Proof. apply parse_rejects; vm_compute; reflexivity. Qed.

Lemma leap_day_2004_accepted config :
  valid (defaultDateTime config) = true ->
  parse leap_day_2004 config = assemble (Ok (date_only config 2004 2 29, false)) [].
Proof.
  intros Hv. apply parse_accepts.
  rewrite (pipeline_date_only _ config (2004, 4%nat) 2 29);
    [| vm_compute; reflexivity ..].
  change (year_read config (2004, 4%nat)) with 2004.
  rewrite (validate_date_only config _ _ _ Hv).
  cbn. rewrite andb_false_r. reflexivity.
Qed.

(** The Validator on February 29 of year [y]. *)
Lemma validate_leap_day config y :
  valid (defaultDateTime config) = true ->
  strict config && (y =? 0) && negb (astronomicalYears config) = false ->
  ((exists dt, validate (date_only config y 2 29) config = Ok dt)
   <-> is_leap y = true).
Proof.
  intros Hv Hz. rewrite (validate_date_only config _ _ _ Hv), Hz.
  unfold days_in_month. cbn [Z.eqb negb in_range Z.leb Z.compare Pos.compare Pos.compare_cont andb].
  destruct (is_leap y); cbn; split; intros H; try reflexivity.
  - eexists; reflexivity.
  - destruct H as [dt H]; discriminate H.
  - discriminate H.
Qed.

(** The text of February 29 of year [y], the year written with four
    digits. *)
Definition february_29 (y : Z) : string := digits 4 y ++ "-02-29".

(** The tokens of such a text: the year numeral of four digits, the month
    and the day, with their separators. *)

Definition year_tokens (a b c d : ascii) (y : Z) : list Token :=
  [mkToken Numeric (String a (String b (String c (String d "")))) (Some y)
            (0, 4)%nat;
   mkToken Separator "-" None (4, 5)%nat;
   mkToken Numeric "02" (Some 2) (5, 7)%nat;
   mkToken Separator "-" None (7, 8)%nat;
   mkToken Numeric "29" (Some 29) (8, 10)%nat].

Lemma year_tokens_resolved a b c d y config :
  let l := classify_all false (year_tokens a b c d y) config in
  tryResolveRelative l = None /\ incomplete_relative l = false /\
  resolve l config = Ok (set_date (y, 4%nat) 2 29 empty_partial) /\
  drop_one (map (fun ct => (ct, false)) l) = None.
Proof.
  cbv zeta. repeat split; vm_compute; reflexivity.
Qed.

Lemma tokenize_from_digit f pos c rest :
  is_digit c = true ->
  tokenize_from (S f) pos (String c rest)
  = (let '(run, tl) := span_while is_digit (String c rest) in
     let stop := (pos + String.length run)%nat in
     mkToken Numeric run (Some (decimal_value 0 run)) (pos, stop)
       :: tokenize_from f stop tl).
Proof. intros H. cbn [tokenize_from]. rewrite H. reflexivity. Qed.

Lemma span_four_digits a b c d :
  is_digit a = true -> is_digit b = true -> is_digit c = true -> is_digit d = true ->
  span_while is_digit (String a (String b (String c (String d "-02-29"))))
  = (String a (String b (String c (String d ""))), "-02-29").
Proof.
  intros Ha Hb Hc Hd. cbn [span_while]. rewrite Ha, Hb, Hc, Hd. reflexivity.
Qed.

Lemma tokenize_year a b c d :
  is_digit a = true -> is_digit b = true -> is_digit c = true -> is_digit d = true ->
  tokenize (String a (String b (String c (String d "-02-29"))))
  = year_tokens a b c d (decimal_value 0 (String a (String b (String c (String d ""))))).
Proof.
  intros Ha Hb Hc Hd. unfold tokenize.
  change (String.length (String a (String b (String c (String d "-02-29")))))
    with 10%nat.
  rewrite (tokenize_from_digit _ _ _ _ Ha), (span_four_digits a b c d Ha Hb Hc Hd).
  cbv zeta iota beta.
  change (0 + String.length (String a (String b (String c (String d "")))))%nat
    with 4%nat.
  replace (tokenize_from 9 4 "-02-29")
    with [mkToken Separator "-" None (4, 5)%nat;
          mkToken Numeric "02" (Some 2) (5, 7)%nat;
          mkToken Separator "-" None (7, 8)%nat;
          mkToken Numeric "29" (Some 29) (8, 10)%nat]
    by (vm_compute; reflexivity).
  reflexivity.
Qed.

Lemma is_digit_digit n : is_digit (digit n) = true.
Proof.
  unfold digit.
  assert (H : 0 <= n mod 10 < 10) by (apply Z.mod_pos_bound; lia).
  assert (C : n mod 10 = 0 \/ n mod 10 = 1 \/ n mod 10 = 2 \/ n mod 10 = 3 \/
              n mod 10 = 4 \/ n mod 10 = 5 \/ n mod 10 = 6 \/ n mod 10 = 7 \/
              n mod 10 = 8 \/ n mod 10 = 9) by lia.
  repeat destruct C as [-> | C]; try rewrite C; reflexivity.
Qed.

Lemma digit_value_digit n : digit_value (digit n) = n mod 10.
Proof.
  unfold digit.
  assert (H : 0 <= n mod 10 < 10) by (apply Z.mod_pos_bound; lia).
  assert (C : n mod 10 = 0 \/ n mod 10 = 1 \/ n mod 10 = 2 \/ n mod 10 = 3 \/
              n mod 10 = 4 \/ n mod 10 = 5 \/ n mod 10 = 6 \/ n mod 10 = 7 \/
              n mod 10 = 8 \/ n mod 10 = 9) by lia.
  repeat destruct C as [-> | C]; try rewrite C; reflexivity.
Qed.

Lemma february_29_text y :
  february_29 y
  = String (digit (y / 10 / 10 / 10)) (String (digit (y / 10 / 10))
      (String (digit (y / 10)) (String (digit y) "-02-29"))).
Proof. reflexivity. Qed.

Lemma four_digits_value y :
  0 <= y <= 9999 ->
  decimal_value 0 (String (digit (y / 10 / 10 / 10)) (String (digit (y / 10 / 10))
      (String (digit (y / 10)) (String (digit y) ""))))
  = y.
Proof.
  intros H. cbn [decimal_value]. rewrite !digit_value_digit.
  revert H. Z.div_mod_to_equations. lia.
Qed.

Lemma tokenize_february_29 y :
  0 <= y <= 9999 ->
  tokenize (february_29 y)
  = year_tokens (digit (y / 10 / 10 / 10)) (digit (y / 10 / 10))
                (digit (y / 10)) (digit y) y.
Proof.
  intros H. rewrite february_29_text, tokenize_year by apply is_digit_digit.
  now rewrite four_digits_value.
Qed.

(** The strict pipeline on February 29 of a four-digit year. *)
Lemma february_29_pipeline config y :
  0 <= y <= 9999 -> valid (defaultDateTime config) = true ->
  pipeline (classify_all false (tokenize (february_29 y)) config) config
  = if is_leap y
    then if strict config && (y =? 0) && negb (astronomicalYears config)
         then fail YearZeroRejected "year"
         else Ok (date_only config y 2 29, false)
    else fail InvalidCalendarDate "day".
Proof.
  intros Hy Hv. rewrite (tokenize_february_29 y Hy).
  destruct (year_tokens_resolved (digit (y / 10 / 10 / 10)) (digit (y / 10 / 10))
              (digit (y / 10)) (digit y) y config) as (Hr & Hi & Hp & _).
  rewrite (pipeline_date_only _ config (y, 4%nat) 2 29 Hr Hi Hp).
  change (year_read config (y, 4%nat)) with y.
  rewrite (validate_date_only config _ _ _ Hv).
  unfold days_in_month.
  change (negb (in_range 1 2 12)) with false. change (2 =? 2) with true.
  cbv iota.
  destruct (is_leap y).
  - change (negb (in_range 1 29 29)) with false. cbv iota.
    destruct (strict config && (y =? 0) && negb (astronomicalYears config));
      reflexivity.
  - reflexivity.
Qed.

Lemma february_29_parsed config y :
  0 <= y <= 9999 -> valid (defaultDateTime config) = true ->
  parse (february_29 y) config
  = assemble
      (if is_leap y
       then if strict config && (y =? 0) && negb (astronomicalYears config)
            then fail YearZeroRejected "year"
            else Ok (date_only config y 2 29, false)
       else fail InvalidCalendarDate "day") [].
Proof.
  intros Hy Hv. pose proof (february_29_pipeline config y Hy Hv) as P.
  assert (D : drop_one (map (fun ct => (ct, false))
                (classify_all false (tokenize (february_29 y)) config)) = None).
  { rewrite (tokenize_february_29 y Hy).
    apply (year_tokens_resolved (digit (y / 10 / 10 / 10)) (digit (y / 10 / 10))
             (digit (y / 10)) (digit y) y config). }
  destruct (is_leap y).
  - destruct (strict config && (y =? 0) && negb (astronomicalYears config)).
    + exact (parse_rejects _ _ _ P D).
    + exact (parse_accepts _ _ _ P).
  - exact (parse_rejects _ _ _ P D).
Qed.

(** C6, as amended. In strict mode and with a valid baseline, "2003-02-29"
    fails with [InvalidCalendarDate] and "2004-02-29" succeeds; for a year
    [y] of four digits other than 0000 (or any, when years are
    astronomical) parsing February 29 of [y] succeeds, with that date,
    exactly when [y] is divisible by 4 and (not divisible by 100 or
    divisible by 400), and fails with [InvalidCalendarDate] otherwise;
    February 29 of year 0000 is rejected with [YearZeroRejected] unless
    years are astronomical. The Validator decides the same way on any
    year. *)
Theorem leap_day_validation (config : ParseConfig) :
  strict config = true -> valid (defaultDateTime config) = true ->
  (success (parse leap_day_2003 config) = false /\
   option_map error_kind (error (parse leap_day_2003 config))
     = Some InvalidCalendarDate) /\
  (success (parse leap_day_2004 config) = true /\
   timestamp (parse leap_day_2004 config) = Some (date_only config 2004 2 29)) /\
  (forall y : Z,
     0 <= y <= 9999 ->
     y <> 0 \/ astronomicalYears config = true ->
     (success (parse (february_29 y) config) = true
      <-> y mod 4 = 0 /\ (y mod 100 <> 0 \/ y mod 400 = 0)) /\
     (success (parse (february_29 y) config) = true ->
      timestamp (parse (february_29 y) config)
      = Some (date_only config y 2 29)) /\
     (success (parse (february_29 y) config) = false ->
      option_map error_kind (error (parse (february_29 y) config))
      = Some InvalidCalendarDate)) /\
  (astronomicalYears config = false ->
   success (parse (february_29 0) config) = false /\
   option_map error_kind (error (parse (february_29 0) config))
     = Some YearZeroRejected) /\
  (forall y : Z,
     y <> 0 \/ astronomicalYears config = true ->
     ((exists dt, validate (date_only config y 2 29) config = Ok dt)
      <-> y mod 4 = 0 /\ (y mod 100 <> 0 \/ y mod 400 = 0))).
Proof.
  intros Hs Hv. split; [| split; [| split; [| split]]].
  - rewrite (leap_day_2003_rejected config). split; reflexivity.
  - rewrite (leap_day_2004_accepted config Hv). split; reflexivity.
  - intros y Hy Hz. rewrite <- is_leap_iff.
    rewrite (february_29_parsed config y Hy Hv).
    assert (Z0 : strict config && (y =? 0) && negb (astronomicalYears config)
                 = false).
    { destruct Hz as [Hz | Ha].
      - apply Z.eqb_neq in Hz. rewrite Hz, andb_false_r. reflexivity.
      - rewrite Ha. apply andb_false_r. }
    rewrite Z0. destruct (is_leap y); cbn [assemble fail success timestamp error
                                           option_map error_kind].
    + split; [split; reflexivity |]. split; [reflexivity | discriminate].
    + split; [split; discriminate |]. split; [discriminate | reflexivity].
  - intros Ha. rewrite (february_29_parsed config 0 ltac:(lia) Hv).
    rewrite Hs, Ha. split; reflexivity.
  - intros y Hy. rewrite <- is_leap_iff. apply validate_leap_day; [exact Hv |].
    destruct Hy as [Hy | Ha].
    + apply Z.eqb_neq in Hy. rewrite Hy, andb_false_r. reflexivity.
    + rewrite Ha. apply andb_false_r.
Qed.

Lemma leap_day_validation_witness :
  (strict reference_config = true /\
   valid (defaultDateTime reference_config) = true) /\
  (success (parse leap_day_2003 reference_config) = false /\
   option_map error_kind (error (parse leap_day_2003 reference_config))
     = Some InvalidCalendarDate) /\
  (success (parse leap_day_2004 reference_config) = true /\
   timestamp (parse leap_day_2004 reference_config)
     = Some (date_only reference_config 2004 2 29)) /\
  (success (parse (february_29 1900) reference_config) = true
   <-> 1900 mod 4 = 0 /\ (1900 mod 100 <> 0 \/ 1900 mod 400 = 0)) /\
  (success (parse (february_29 2000) reference_config) = true
   <-> 2000 mod 4 = 0 /\ (2000 mod 100 <> 0 \/ 2000 mod 400 = 0)) /\
  success (parse (february_29 1900) reference_config) = false /\
  success (parse (february_29 2000) reference_config) = true /\
  (success (parse (february_29 0) reference_config) = false /\
   option_map error_kind (error (parse (february_29 0) reference_config))
     = Some YearZeroRejected).
Proof.
  split; [split; reflexivity |].
  destruct (leap_day_validation reference_config eq_refl eq_refl)
    as (H3 & H4 & Hy & H0 & _).
  split; [exact H3 |]. split; [exact H4 |].
  split; [exact (proj1 (Hy 1900 ltac:(lia) ltac:(left; lia))) |].
  split; [exact (proj1 (Hy 2000 ltac:(lia) ltac:(left; lia))) |].
  split; [vm_compute; reflexivity |]. split; [vm_compute; reflexivity |].
  exact (H0 eq_refl).
Defined.

(** C6, as stated, fails at year 0: 0 is divisible by 4 and by 400, and in
    strict mode February 29 of year 0 is rejected with [YearZeroRejected]. *)
Lemma leap_day_of_year_zero_rejected :
  (0 mod 4 = 0 /\ (0 mod 100 <> 0 \/ 0 mod 400 = 0)) /\
  strict reference_config = true /\
  validate (date_only reference_config 0 2 29) reference_config
    = fail YearZeroRejected "year" /\
  success (parse leap_day_0000 reference_config) = false /\
  option_map error_kind (error (parse leap_day_0000 reference_config))
    = Some YearZeroRejected.
Proof.
  split; [split; [reflexivity | right; reflexivity] |].
  repeat split; vm_compute; reflexivity.
Qed.

(** *** The sentence of the fuzzy scenario *)

Definition sentence : string := "Today is January 1, 2047 at 8:21:00AM".

Lemma sentence_fuzzy config :
  fuzzy config = true -> locale config = english ->
  parse sentence config =
  mkResult true (Some (mkDatetime 2047 1 1 8 21 0 0 None)) None None
           ["Today"; "is"; "at"] false.
Proof.
  destruct config as [df yf fz itz pivot dflt loc st astro].
  cbn [fuzzy locale]. intros -> ->.
  destruct df, yf, itz, st, astro; vm_compute; reflexivity.
Qed.

Lemma sentence_strict config :
  fuzzy config = false -> locale config = english ->
  parse sentence config = assemble (fail UnrecognizedToken "Today") [].
Proof.
  destruct config as [df yf fz itz pivot dflt loc st astro].
  cbn [fuzzy locale]. intros -> ->.
  destruct df, yf, itz, st, astro; vm_compute; reflexivity.
Qed.

(** C7. With fuzzy mode on (and the English tables) the sentence parses to
    2047-01-01T08:21:00 and the skipped tokens are "Today", "is", "at", in
    that order. *)
Theorem fuzzy_sentence_skips (config : ParseConfig) :
  fuzzy config = true -> locale config = english ->
  success (parse sentence config) = true /\
  option_map iso_string (timestamp (parse sentence config))
    = Some "2047-01-01T08:21:00" /\
  skippedTokens (parse sentence config) = ["Today"; "is"; "at"].
Proof.
  intros Hf Hl. rewrite (sentence_fuzzy config Hf Hl).
  repeat split; vm_compute; reflexivity.
Qed.

(** In the harness the default call on the sentence fails, the fuzzy call
    follows and succeeds, and no day-first call is made; the record of the
    fuzzy call keeps the timestamp, and the skipped tokens stay with the
    engine. *)
Lemma sentence_in_harness (seconds : Type) (sub mul : seconds -> seconds -> seconds)
    (of_int : Z -> seconds) (base : ParseConfig)
    (w1 w2 w3 : TestComparison.Readings seconds) (descr : string) :
  locale base = english ->
  TestComparison.run_scenario seconds sub mul of_int (engine_parser base)
    w1 w2 w3 sentence descr
  = Returned
      (TestComparison.mkTest seconds sentence descr
         (TestComparison.mkResult seconds false None (of_int 0)
            (Some "UnrecognizedToken: Today"))
         (Some (TestComparison.mkResult seconds true
                  (Some "2047-01-01T08:21:00")
                  (mul (sub (TestComparison.end_time seconds w2)
                            (TestComparison.start_time seconds w2))
                       (of_int 1000))
                  None))
         None).
Proof.
  intros Hl.
  unfold TestComparison.run_scenario, TestComparison.parse_with_dateutil,
    TestComparison.attempt, engine_parser.
  rewrite (sentence_strict (call_config base _ false false false) eq_refl Hl).
  rewrite (sentence_fuzzy (call_config base _ true false false) eq_refl Hl).
  reflexivity.
Qed.

Lemma fuzzy_sentence_skips_witness :
  (fuzzy (call_config reference_config (defaultDateTime reference_config)
                      true false false) = true /\
   locale (call_config reference_config (defaultDateTime reference_config)
                       true false false) = english) /\
  success (parse sentence (call_config reference_config
             (defaultDateTime reference_config) true false false)) = true /\
  option_map iso_string
    (timestamp (parse sentence (call_config reference_config
                  (defaultDateTime reference_config) true false false)))
    = Some "2047-01-01T08:21:00" /\
  skippedTokens (parse sentence (call_config reference_config
                   (defaultDateTime reference_config) true false false))
    = ["Today"; "is"; "at"].
Proof.
  split; [split; reflexivity |].
  apply (fuzzy_sentence_skips
           (call_config reference_config (defaultDateTime reference_config)
                        true false false)); reflexivity.
Defined.

(** *** The harness on the engine, with rational seconds *)

Definition Qreadings (start stop : Q) : TestComparison.Readings Q :=
  TestComparison.mkReadings Q start stop (defaultDateTime reference_config).

Definition harness_parse (w : TestComparison.Readings Q) (s : string)
    (fuzzy dayfirst yearfirst : bool) : outcome (TestComparison.result Q) :=
  TestComparison.parse_with_dateutil Q Qminus Qmult inject_Z
    (engine_parser reference_config) w s fuzzy dayfirst yearfirst.




Lemma result_payloads_exclusive_witness :
  harness_parse (Qreadings (Qmake 10 1) (Qmake 11 1)) "2003-09-25"
                false false false
  = Returned (TestComparison.mkResult Q true (Some "2003-09-25T00:00:00")
                (Qmake 1000 1) None) /\
  (true = true -> (exists iso, Some "2003-09-25T00:00:00" = Some iso)
                  /\ @None string = None) /\
  (true = false -> Some "2003-09-25T00:00:00" = None
                   /\ (exists msg, @None string = Some msg)).
Proof.
  split; [vm_compute; reflexivity |].
  apply (TestComparison.result_payloads_exclusive Q Qminus Qmult inject_Z
           (engine_parser reference_config)
           (Qreadings (Qmake 10 1) (Qmake 11 1)) "2003-09-25"
           false false false
           (TestComparison.mkResult Q true (Some "2003-09-25T00:00:00")
              (Qmake 1000 1) None)).
  vm_compute; reflexivity.
Defined.




End Scenarios.

(** ** analyze_final_results.py: the rest of the script *)

Module AnalyzeScript.
Import Py AnalyzeFinal.

Definition ZeroDivisionError (msg : string) : exn :=
  mkExn ["ZeroDivisionError"; "ArithmeticError"; "Exception"; "BaseException"] msg.

Section Script.

Variable num : Type.
Variable num_gt0 : num -> bool.
Variable num_nonzero : num -> bool.
Variable num_of_bool : bool -> num.
Variable num_div : num -> num -> outcome num.

(** [a / b * 100] on two counters with [b] not zero, a float. *)
Variable percent_of : Z -> Z -> num.

(** [mean], [median], [min] and [max] of a non-empty list of floats. *)
Variable mean median minimum maximum : list num -> num.

#[local] Abbreviation json := (AnalyzeFinal.json num).
#[local] Abbreviation counters := (AnalyzeFinal.counters num).
#[local] Abbreviation getitem := (AnalyzeFinal.getitem num).
#[local] Abbreviation truthy := (AnalyzeFinal.truthy num num_nonzero).
#[local] Abbreviation iteration :=
  (AnalyzeFinal.iteration num num_gt0 num_nonzero num_of_bool num_div).
#[local] Abbreviation loop :=
  (AnalyzeFinal.loop num num_gt0 num_nonzero num_of_bool num_div).
#[local] Abbreviation analyze :=
  (AnalyzeFinal.analyze num num_gt0 num_nonzero num_of_bool num_div).

(** [needle in s] on two strings: [needle] occurs in [s]. *)
Definition occurs (needle s : string) : bool :=
  match String.index 0 needle s with Some _ => true | None => false end.

Definition is_str (key : string) (v : json) : bool :=
  match v with JStr s => String.eqb s key | _ => false end.

(** [key in obj] for a string [key]: a key of a dict, an element of a list,
    a substring of a string; the other values are not containers. *)
Definition contains (key : string) (obj : json) : outcome bool :=
  match obj with
  | JObj fields =>
      Returned (match assoc num key fields with Some _ => true | None => false end)
  | JArr l => Returned (existsb (is_str key) l)
  | JStr s => Returned (occurs key s)
  | _ => Raised (TypeError "argument is not iterable")
  end.

(** ['fuzzy' in t and t['fuzzy']['success']], as a truth value. *)
Definition fuzzy_passed (t : json) : outcome bool :=
  has <- contains "fuzzy" t ;;
  if has then
    f <- getitem t "fuzzy" ;;
    s <- getitem f "success" ;;
    Returned (truthy s)
  else Returned false.

(** One iteration of the loop of lines 47-51 on the two fuzzy counters. *)
Definition fuzzy_iteration (f : Z * Z) (pair : json * json) : outcome (Z * Z) :=
  let '(swift_test, python_test) := pair in
  sp <- fuzzy_passed swift_test ;;
  pp <- fuzzy_passed python_test ;;
  Returned ((if sp then fst f + 1 else fst f), (if pp then snd f + 1 else snd f)).

Fixpoint fuzzy_loop (f : Z * Z) (pairs : list (json * json)) : outcome (Z * Z) :=
  match pairs with
  | [] => Returned f
  | p :: rest => f' <- fuzzy_iteration f p ;; fuzzy_loop f' rest
  end.

(** [a / total_tests * 100]: division by zero raises. *)
Definition percent (a total : Z) : outcome num :=
  if total =? 0 then Raised (ZeroDivisionError "division by zero")
  else Returned (percent_of a total).

(** What lines 53-72 print, in the order they compute it. *)
Record report : Type := mkReport {
  total_tests : Z;
  swift_percent : num;
  python_percent : num;
  both_percent : num;
  total_swift : Z;
  total_python : Z;
  total_swift_percent : num;
  total_python_percent : num;
  performance : option (num * num * num * num)
}.

Definition make_report (total : Z) (c : counters) (f : Z * Z) : outcome report :=
  sp <- percent (swift_passed num c) total ;;
  pp <- percent (python_passed num c) total ;;
  bp <- percent (both_passed num c) total ;;
  let ts := swift_passed num c + fst f in
  let tp := python_passed num c + snd f in
  tsp <- percent ts total ;;
  tpp <- percent tp total ;;
  let ratios := performance_ratios num c in
  Returned (mkReport total sp pp bp ts tp tsp tpp
              (match ratios with
               | [] => None
               | _ => Some (mean ratios, median ratios, minimum ratios,
                            maximum ratios)
               end)).

(** One iteration of the loop of lines 76-78: the description and the input
    of a test only Swift passes are printed. *)
Definition exclusive_iteration (printed : list (json * json))
    (pair : json * json) : outcome (list (json * json)) :=
  let '(swift_test, python_test) := pair in
  sd <- getitem swift_test "default" ;;
  swift_success <- getitem sd "success" ;;
  if truthy swift_success then
    pd <- getitem python_test "default" ;;
    python_success <- getitem pd "success" ;;
    if negb (truthy python_success) then
      d <- getitem swift_test "description" ;;
      i <- getitem swift_test "input" ;;
      Returned (printed ++ [(d, i)])%list
    else Returned printed
  else Returned printed.

Fixpoint exclusive_loop (printed : list (json * json))
    (pairs : list (json * json)) : outcome (list (json * json)) :=
  match pairs with
  | [] => Returned printed
  | p :: rest => l <- exclusive_iteration printed p ;; exclusive_loop l rest
  end.

(** The script from line 13 on, on the two loaded lists. *)
Definition script (swift_results python_results : list json)
    : outcome (counters * (Z * Z) * report * list (json * json)) :=
  let total := Z.of_nat (List.length swift_results) in
  let pairs := combine swift_results python_results in
  c <- loop (initial num) pairs ;;
  f <- fuzzy_loop (0, 0) pairs ;;
  r <- make_report total c f ;;
  e <- exclusive_loop [] pairs ;;
  Returned (c, f, r, e).

(** *** Facts *)

Ltac open_binds :=
  repeat match goal with
         | H : Py.bind ?m _ = Returned _ |- _ =>
             let E := fresh "E" in
             destruct m eqn:E; cbn [Py.bind] in H; [| discriminate H]
         end.

(** The ratio line 36 computes for a pair: both times are read from
    [default.timeMs], both are greater than zero, and the Swift time is
    divided by the Python time. *)
Definition ratio_of_pair (pair : json * json) (r : num) : Prop :=
  exists sd pd swift_time python_time st pt,
    getitem (fst pair) "default" = Returned sd /\
    getitem sd "timeMs" = Returned swift_time /\
    AnalyzeFinal.as_num num num_of_bool swift_time = Returned st /\
    getitem (snd pair) "default" = Returned pd /\
    getitem pd "timeMs" = Returned python_time /\
    AnalyzeFinal.as_num num num_of_bool python_time = Returned pt /\
    num_gt0 st = true /\ num_gt0 pt = true /\
    num_div st pt = Returned r.

(** What one iteration of the counting loop reads and adds. *)
Lemma iteration_reads c swift_test python_test c' :
  iteration c (swift_test, python_test) = Returned c' ->
  exists sd ss pd ps,
    getitem swift_test "default" = Returned sd /\
    getitem sd "success" = Returned ss /\
    getitem python_test "default" = Returned pd /\
    getitem pd "success" = Returned ps /\
    swift_passed num c' = swift_passed num c + (if truthy ss then 1 else 0) /\
    python_passed num c' = python_passed num c + (if truthy ps then 1 else 0) /\
    both_passed num c'
      = both_passed num c + (if truthy ss && truthy ps then 1 else 0) /\
    swift_only num c'
      = swift_only num c + (if truthy ss && negb (truthy ps) then 1 else 0) /\
    python_only num c'
      = python_only num c + (if truthy ps && negb (truthy ss) then 1 else 0) /\
    (performance_ratios num c' = performance_ratios num c \/
     truthy ss && truthy ps = true /\
     exists r,
       ratio_of_pair (swift_test, python_test) r /\
       performance_ratios num c'
         = (performance_ratios num c ++ [r])%list).
Proof.
  unfold AnalyzeFinal.iteration. intros H.
  destruct (getitem swift_test "default") as [sd |] eqn:Esd;
    cbn [Py.bind] in H; [| discriminate H].
  destruct (getitem sd "success") as [ss |] eqn:Ess;
    cbn [Py.bind] in H; [| discriminate H].
  destruct (getitem python_test "default") as [pd |] eqn:Epd;
    cbn [Py.bind] in H; [| discriminate H].
  destruct (getitem pd "success") as [ps |] eqn:Eps;
    cbn [Py.bind] in H; [| discriminate H].
  exists sd, ss, pd, ps.
  do 4 (split; [first [reflexivity | assumption] |]).
  destruct (truthy ss && truthy ps) eqn:B.
  - destruct (getitem sd "timeMs") as [swift_time |] eqn:Est;
      cbn [Py.bind] in H; [| discriminate H].
    destruct (getitem pd "timeMs") as [python_time |] eqn:Ept;
      cbn [Py.bind] in H; [| discriminate H].
    destruct (AnalyzeFinal.as_num num num_of_bool python_time) as [pt |] eqn:Ap;
      cbn [Py.bind] in H; [| discriminate H].
    apply andb_true_iff in B as [Bs Bp]. rewrite Bs, Bp in *.
    cbn [andb negb] in *.
    destruct (num_gt0 pt) eqn:Gp.
    + destruct (AnalyzeFinal.as_num num num_of_bool swift_time) as [st |] eqn:As;
        cbn [Py.bind] in H; [| discriminate H].
      destruct (num_gt0 st) eqn:Gs.
      * destruct (num_div st pt) as [r |] eqn:D; cbn [Py.bind] in H;
          [| discriminate H].
        injection H as <-.
        cbn [swift_passed python_passed both_passed swift_only python_only
             performance_ratios fst snd].
        repeat split; try lia.
        right. split; [reflexivity |]. exists r. split; [| reflexivity].
        exists sd, pd, swift_time, python_time, st, pt.
        cbn [fst snd]. repeat split; assumption.
      * cbn [Py.bind] in H. injection H as <-.
        cbn [swift_passed python_passed both_passed swift_only python_only
             performance_ratios fst snd].
        repeat split; try lia. now left.
    + cbn [Py.bind] in H. injection H as <-.
      cbn [swift_passed python_passed both_passed swift_only python_only
           performance_ratios fst snd].
      repeat split; try lia. now left.
  - cbn [Py.bind] in H. injection H as <-.
    cbn [swift_passed python_passed both_passed swift_only python_only
         performance_ratios fst snd].
    destruct (truthy ss), (truthy ps); try discriminate B;
      cbn [andb negb]; repeat split; try lia; now left.
Qed.

(** The state of the counters after [n] pairs. *)
Definition within (n : Z) (c : counters) : Prop :=
  0 <= both_passed num c /\ 0 <= swift_only num c /\ 0 <= python_only num c /\
  both_passed num c + swift_only num c + python_only num c <= n /\
  swift_passed num c = both_passed num c + swift_only num c /\
  python_passed num c = both_passed num c + python_only num c /\
  Z.of_nat (List.length (performance_ratios num c)) <= both_passed num c.

Lemma iteration_within n c pair c' :
  within n c -> iteration c pair = Returned c' -> within (n + 1) c'.
Proof.
  destruct pair as [st pt]. intros W H.
  destruct (iteration_reads _ _ _ _ H)
    as (sd & ss & pd & ps & _ & _ & _ & _ & E1 & E2 & E3 & E4 & E5 & R).
  unfold within in *. rewrite E1, E2, E3, E4, E5.
  assert (Z.of_nat (List.length (performance_ratios num c'))
          <= both_passed num c + (if truthy ss && truthy ps then 1 else 0)).
  { destruct R as [-> | (B & r & _ & ->)].
    - destruct (truthy ss && truthy ps); lia.
    - rewrite B, length_app. cbn [List.length]. lia. }
  destruct (truthy ss), (truthy ps); cbn [andb negb] in *; lia.
Qed.

Lemma loop_within pairs : forall n c c',
  within n c -> loop c pairs = Returned c' ->
  within (n + Z.of_nat (List.length pairs)) c'.
Proof.
  induction pairs as [| p rest IH]; intros n c c' W H.
  - injection H as <-. cbn [List.length]. now rewrite Z.add_0_r.
  - cbn [AnalyzeFinal.loop] in H. open_binds.
    pose proof (iteration_within n c p _ W E) as W1.
    pose proof (IH _ _ _ W1 H) as W2.
    cbn [List.length]. now replace (n + Z.of_nat (S (List.length rest)))
      with (n + 1 + Z.of_nat (List.length rest)) by lia.
Qed.

Lemma initial_within : within 0 (initial num).
Proof. unfold within. cbn. lia. Qed.

(** X1. When the counting loop completes, no counter is negative, the
    passes and exclusive passes together do not exceed the number of pairs
    compared (the length of the shorter list), so [swift_passed] and
    [python_passed] never exceed [total_tests], and there are at most
    [both_passed] performance ratios. *)
Theorem counters_bounded (swift_results python_results : list json) (c : counters) :
  analyze swift_results python_results = Returned c ->
  let compared :=
    Z.of_nat (Nat.min (List.length swift_results) (List.length python_results)) in
  let total_tests := Z.of_nat (List.length swift_results) in
  0 <= both_passed num c /\ 0 <= swift_only num c /\ 0 <= python_only num c /\
  both_passed num c + swift_only num c + python_only num c <= compared /\
  swift_passed num c <= total_tests /\ python_passed num c <= total_tests /\
  Z.of_nat (List.length (performance_ratios num c)) <= both_passed num c.
Proof.
  intros H. unfold AnalyzeFinal.analyze in H.
  pose proof (loop_within _ _ _ _ initial_within H) as W.
  rewrite length_combine in W. unfold within in W. cbn zeta. lia.
Qed.

(** The ratios recorded over a list of pairs: one for each pair of
    [timed], in order, and [timed] holds pairs of the list only. *)
Definition ratios_of (pairs : list (json * json)) (ratios : list num) : Prop :=
  exists timed,
    Forall2 ratio_of_pair timed ratios /\ incl timed pairs.

Lemma loop_ratios pairs : forall c c' before,
  ratios_of before (performance_ratios num c) ->
  loop c pairs = Returned c' ->
  ratios_of (before ++ pairs) (performance_ratios num c').
Proof.
  induction pairs as [| [st pt] rest IH]; intros c c' before F H.
  - injection H as <-. now rewrite app_nil_r.
  - cbn [AnalyzeFinal.loop] in H.
    destruct (iteration c (st, pt)) as [c1 |] eqn:E; cbn [Py.bind] in H;
      [| discriminate H].
    replace (before ++ (st, pt) :: rest)%list
      with ((before ++ [(st, pt)]) ++ rest)%list by (now rewrite <- app_assoc).
    apply (IH c1 c'); [| exact H].
    destruct F as (timed & F & I).
    destruct (iteration_reads _ _ _ _ E)
      as (sd & ss & pd & ps & _ & _ & _ & _ & _ & _ & _ & _ & _ & R).
    destruct R as [-> | (_ & r & P & ->)].
    + exists timed. split; [exact F | apply incl_appl, I].
    + exists (timed ++ [(st, pt)])%list. split.
      * apply Forall2_app; [exact F | constructor; [exact P | constructor]].
      * apply incl_app; [apply incl_appl, I | apply incl_appr, incl_refl].
Qed.

(** X2. Every performance ratio the loop records is the quotient
    [swift_time / python_time] of the two [default.timeMs] of one compared
    pair, both greater than zero: there is one such pair for each ratio, in
    the order of the ratios, and the loop never divides by a time that is
    zero or negative. *)
Theorem ratios_from_positive_times (swift_results python_results : list json)
    (c : counters) :
  analyze swift_results python_results = Returned c ->
  exists timed : list (json * json),
    Forall2 ratio_of_pair timed (performance_ratios num c) /\
    incl timed (combine swift_results python_results).
Proof.
  intros H.
  apply (loop_ratios (combine swift_results python_results) (initial num) c []);
    [| exact H].
  exists []. split; [constructor | apply incl_refl].
Qed.

Lemma fuzzy_passed_null t :
  getitem t "fuzzy" = Returned JNull ->
  fuzzy_passed t
  = Raised (TypeError "indices must be integers or not subscriptable").
Proof.
  intros H. unfold fuzzy_passed.
  destruct t; try discriminate H.
  cbn [contains AnalyzeFinal.getitem] in *.
  destruct (assoc num "fuzzy" fields) as [v |]; [| discriminate H].
  injection H as ->. reflexivity.
Qed.

Lemma fuzzy_loop_raises pairs : forall f st pt,
  In (st, pt) pairs ->
  getitem st "fuzzy" = Returned JNull \/ getitem pt "fuzzy" = Returned JNull ->
  exists e, fuzzy_loop f pairs = Raised e.
Proof.
  induction pairs as [| p rest IH]; intros f st pt HIn Hnull; [destruct HIn |].
  cbn [fuzzy_loop].
  destruct (fuzzy_iteration f p) as [f' | e] eqn:E; cbn [Py.bind];
    [| eexists; reflexivity].
  destruct HIn as [-> | HIn]; [| exact (IH f' st pt HIn Hnull)].
  exfalso. unfold fuzzy_iteration in E.
  destruct Hnull as [H | H]; apply fuzzy_passed_null in H.
  - rewrite H in E. discriminate E.
  - destruct (fuzzy_passed st); cbn [Py.bind] in E; [| discriminate E].
    rewrite H in E. discriminate E.
Qed.

(** X3. A record whose ["fuzzy"] entry is [null] stops the script: the
    key is there, so line 48 (or 50) subscripts [None] and raises; whatever
    the other records hold, the script does not complete. *)
Theorem null_fuzzy_stops_script (swift_results python_results : list json)
    (swift_test python_test : json) :
  In (swift_test, python_test) (combine swift_results python_results) ->
  getitem swift_test "fuzzy" = Returned JNull \/
  getitem python_test "fuzzy" = Returned JNull ->
  exists e, script swift_results python_results = Raised e.
Proof.
  intros HIn Hnull. unfold script.
  destruct (loop (initial num) (combine swift_results python_results))
    as [c | e]; cbn [Py.bind]; [| eexists; reflexivity].
  destruct (fuzzy_loop_raises _ (0, 0) _ _ HIn Hnull) as [e ->].
  eexists; reflexivity.
Qed.

(** A record that is a dict without a ["fuzzy"] key. *)
Definition lacks_fuzzy (t : json) : bool :=
  match t with
  | JObj fields =>
      match assoc num "fuzzy" fields with None => true | Some _ => false end
  | _ => false
  end.

Lemma lacks_fuzzy_not_passed t :
  lacks_fuzzy t = true -> fuzzy_passed t = Returned false.
Proof.
  destruct t; try discriminate. cbn [lacks_fuzzy]. intros H.
  unfold fuzzy_passed. cbn [contains].
  destruct (assoc num "fuzzy" fields); [discriminate H | reflexivity].
Qed.

Lemma fuzzy_loop_lacking pairs : forall f,
  forallb (fun p => lacks_fuzzy (fst p) && lacks_fuzzy (snd p)) pairs = true ->
  fuzzy_loop f pairs = Returned f.
Proof.
  induction pairs as [| [st pt] rest IH]; intros f H; [reflexivity |].
  cbn [forallb fst snd] in H.
  apply andb_true_iff in H as [H Hrest]. apply andb_true_iff in H as [Hs Hp].
  cbn [fuzzy_loop]. unfold fuzzy_iteration.
  rewrite (lacks_fuzzy_not_passed _ Hs), (lacks_fuzzy_not_passed _ Hp).
  cbn [Py.bind]. destruct f as [a b]. cbn [fst snd]. apply IH, Hrest.
Qed.

(** X4. Records without a ["fuzzy"] key are skipped by the fuzzy count:
    when no compared record has the key, the second loop raises nothing and
    both fuzzy counters stay at zero, whatever else the records hold. *)
Theorem missing_fuzzy_counts_nothing (swift_results python_results : list json) :
  forallb lacks_fuzzy swift_results = true ->
  forallb lacks_fuzzy python_results = true ->
  fuzzy_loop (0, 0) (combine swift_results python_results) = Returned (0, 0).
Proof.
  intros Hs Hp. apply fuzzy_loop_lacking.
  revert python_results Hp.
  induction swift_results as [| s srest IH]; intros [| p prest] Hp;
    try reflexivity.
  cbn [forallb] in Hs, Hp.
  apply andb_true_iff in Hs as [Hs Hs']. apply andb_true_iff in Hp as [Hp Hp'].
  cbn [combine forallb fst snd]. rewrite Hs, Hp. cbn [andb].
  apply IH; assumption.
Qed.

Lemma percent_returns a total :
  total <> 0 -> percent a total = Returned (percent_of a total).
Proof.
  intros H. unfold percent. apply Z.eqb_neq in H. now rewrite H.
Qed.

(** X5. With no Swift result the script raises [ZeroDivisionError] at its
    first percentage (line 55), whatever the Python list holds; with at
    least one Swift result every percentage of the report is computed, for
    any counters. *)
Theorem empty_results_divide_by_zero :
  (forall python_results : list json,
     script [] python_results = Raised (ZeroDivisionError "division by zero")) /\
  (forall (first : json) (others : list json) (c : counters) (f : Z * Z),
     exists r,
       make_report (Z.of_nat (List.length (first :: others))) c f = Returned r /\
       total_tests r = Z.of_nat (List.length (first :: others))).
Proof.
  split.
  - intros python_results. reflexivity.
  - intros first others c f. unfold make_report.
    assert (Z.of_nat (List.length (first :: others)) <> 0)
      by (cbn [List.length]; lia).
    rewrite !percent_returns by assumption. cbn [Py.bind].
    eexists; split; reflexivity.
Qed.

Lemma exclusive_loop_counts pairs : forall c c' l l',
  loop c pairs = Returned c' -> exclusive_loop l pairs = Returned l' ->
  Z.of_nat (List.length l') - Z.of_nat (List.length l)
  = swift_only num c' - swift_only num c.
Proof.
  induction pairs as [| [st pt] rest IH]; intros c c' l l' H X.
  - injection H as <-. injection X as <-. lia.
  - cbn [AnalyzeFinal.loop] in H. cbn [exclusive_loop] in X.
    destruct (iteration c (st, pt)) as [c1 |] eqn:Ec; cbn [Py.bind] in H;
      [| discriminate H].
    destruct (exclusive_iteration l (st, pt)) as [l1 |] eqn:El;
      cbn [Py.bind] in X; [| discriminate X].
    pose proof (IH _ _ _ _ H X) as Hrest.
    destruct (iteration_reads _ _ _ _ Ec)
      as (sd & ss & pd & ps & G1 & G2 & G3 & G4 & _ & _ & _ & E4 & _).
    unfold exclusive_iteration in El. rewrite G1 in El. cbn [Py.bind] in El.
    rewrite G2 in El. cbn [Py.bind] in El.
    destruct (truthy ss).
    + rewrite G3 in El. cbn [Py.bind] in El. rewrite G4 in El.
      cbn [Py.bind] in El.
      destruct (truthy ps); cbn [negb andb] in *.
      * injection El as <-. lia.
      * open_binds. injection El as <-. rewrite length_app in Hrest.
        cbn [List.length] in Hrest. lia.
    + injection El as <-. cbn [andb] in E4. lia.
Qed.

(** X6. The list of Swift-exclusive successes printed at the end has
    exactly [swift_only] lines: when the counting loop and the final loop
    both complete, the count and the list agree. *)
Theorem exclusive_list_matches_count (swift_results python_results : list json)
    (c : counters) (printed : list (json * json)) :
  analyze swift_results python_results = Returned c ->
  exclusive_loop [] (combine swift_results python_results) = Returned printed ->
  Z.of_nat (List.length printed) = swift_only num c.
Proof.
  intros H X.
  pose proof (exclusive_loop_counts _ _ _ _ _ H X) as E.
  cbn [List.length initial swift_only] in E. lia.
Qed.

End Script.

(** *** The script on rational numbers *)

Definition Q_percent (a total : Z) : Q := (inject_Z a / inject_Z total * 100)%Q.

(** A Swift record with a description and, when [fz] is given, a
    ["fuzzy"] entry. *)
Definition swift_record (input descr : string) (ok : bool) (ms : Q)
    (fz : option (json Q)) : json Q :=
  JObj ([("input", JStr input); ("description", JStr descr);
         ("default", JObj [("success", JBool ok); ("timeMs", JNum ms)])]
        ++ match fz with Some v => [("fuzzy", v)] | None => [] end)%list.

Definition described_swift : list (json Q) :=
  [swift_record "2003-09-25" "ISO date only" true (Qmake 1 100) None;
   swift_record "tomorrow" "Relative - tomorrow" true (Qmake 2 100) None;
   swift_record "not a date" "Invalid text" false (Qmake 0 1) None].

Definition described_python : list (json Q) :=
  [swift_record "2003-09-25" "ISO date only" true (Qmake 5 100) None;
   swift_record "tomorrow" "Relative - tomorrow" false (Qmake 0 1) None;
   swift_record "not a date" "Invalid text" false (Qmake 0 1) None].

(** The counters of the sample lists of [AnalyzeFinal]. *)
Definition sample_counters : counters Q :=
  mkCounters Q 3 2 2 1 0 [Qmake 100 500].

Lemma sample_analyzed :
  analyze Q Q_gt0 Q_nonzero Q_of_bool Q_div sample_swift sample_python
  = Returned sample_counters.
Proof. vm_compute. reflexivity. Qed.

Lemma counters_bounded_witness :
  analyze Q Q_gt0 Q_nonzero Q_of_bool Q_div sample_swift sample_python
    = Returned sample_counters /\
  both_passed Q sample_counters + swift_only Q sample_counters
    + python_only Q sample_counters <= 4 /\
  Z.of_nat (List.length (performance_ratios Q sample_counters))
    <= both_passed Q sample_counters.
Proof.
  split; [exact sample_analyzed |].
  pose proof (counters_bounded Q Q_gt0 Q_nonzero Q_of_bool Q_div
                sample_swift sample_python sample_counters sample_analyzed)
    as (_ & _ & _ & H1 & _ & _ & H2).
  split; [exact H1 | exact H2].
Defined.

Lemma ratios_from_positive_times_witness :
  analyze Q Q_gt0 Q_nonzero Q_of_bool Q_div sample_swift sample_python
    = Returned sample_counters /\
  performance_ratios Q sample_counters = [Qdiv (Qmake 1 100) (Qmake 5 100)] /\
  exists timed,
    Forall2 (ratio_of_pair Q Q_gt0 Q_of_bool Q_div) timed
            (performance_ratios Q sample_counters) /\
    incl timed (combine sample_swift sample_python).
Proof.
  split; [exact sample_analyzed |]. split; [reflexivity |].
  exact (ratios_from_positive_times Q Q_gt0 Q_nonzero Q_of_bool Q_div
           sample_swift sample_python sample_counters sample_analyzed).
Defined.

Lemma null_fuzzy_stops_script_witness :
  exists e,
    script Q Q_gt0 Q_nonzero Q_of_bool Q_div Q_percent
      (fun _ => 0%Q) (fun _ => 0%Q) (fun _ => 0%Q) (fun _ => 0%Q)
      [swift_record "today" "Relative - today" true (Qmake 1 100) (Some JNull)]
      [swift_record "today" "Relative - today" false (Qmake 0 1) None]
    = Raised e.
Proof.
  apply (null_fuzzy_stops_script Q Q_gt0 Q_nonzero Q_of_bool Q_div Q_percent
           (fun _ => 0%Q) (fun _ => 0%Q) (fun _ => 0%Q) (fun _ => 0%Q) _ _
           (swift_record "today" "Relative - today" true (Qmake 1 100) (Some JNull))
           (swift_record "today" "Relative - today" false (Qmake 0 1) None)).
  - left. reflexivity.
  - left. reflexivity.
Defined.

Lemma missing_fuzzy_counts_nothing_witness :
  fuzzy_loop Q Q_nonzero (0, 0) (combine described_swift described_python)
  = Returned (0, 0).
Proof.
  apply (missing_fuzzy_counts_nothing Q Q_nonzero described_swift described_python);
    reflexivity.
Defined.

Definition described_counters : counters Q :=
  mkCounters Q 2 1 1 1 0 [Qmake 100 500].

Definition described_printed : list (json Q * json Q) :=
  [(JStr "Relative - tomorrow", JStr "tomorrow")].

Lemma exclusive_list_matches_count_witness :
  analyze Q Q_gt0 Q_nonzero Q_of_bool Q_div described_swift described_python
    = Returned described_counters /\
  exclusive_loop Q Q_nonzero [] (combine described_swift described_python)
    = Returned described_printed /\
  Z.of_nat (List.length described_printed) = swift_only Q described_counters.
Proof.
  assert (A : analyze Q Q_gt0 Q_nonzero Q_of_bool Q_div described_swift
                described_python = Returned described_counters)
    by (vm_compute; reflexivity).
  assert (X : exclusive_loop Q Q_nonzero []
                (combine described_swift described_python)
              = Returned described_printed)
    by (vm_compute; reflexivity).
  split; [exact A |]. split; [exact X |].
  exact (exclusive_list_matches_count Q Q_gt0 Q_nonzero Q_of_bool Q_div
           described_swift described_python _ _ A X).
Defined.

End AnalyzeScript.

(** ** docs/compare_results.py: [analyze_results] *)

Module CompareAnalysis.
Import Py Datetime AnalyzeFinal CompareResults.

Section Analysis.

(** Numbers of the JSON files (floats, and integers where the file has an
    integer literal) with the arithmetic of lines 165-180. *)
Variable num : Type.
Variable num_gt0 : num -> bool.
Variable num_nonzero : num -> bool.
Variable num_of_bool : bool -> num.

(** [a / b] for a divisor that is not zero, and [a + b]: the result, or
    [OverflowError] when an integer beyond the range of floats has to
    become a float. *)
Variable num_div : num -> num -> outcome num.
Variable num_add : num -> num -> outcome num.
Variable num_of_Z : Z -> num.
Variable num_inf : num.
Variable num_ltb : num -> num -> bool.

(** [dateutil_parser.isoparse] on a text. On a loaded value that is not a
    text it raises (the value has no characters to read). *)
Variable isoparse : string -> outcome datetime.

#[local] Abbreviation json := (AnalyzeFinal.json num).
#[local] Abbreviation getitem := (AnalyzeFinal.getitem num).
#[local] Abbreviation truthy := (AnalyzeFinal.truthy num num_nonzero).
#[local] Abbreviation as_num := (AnalyzeFinal.as_num num num_of_bool).

(** [a == b] on two loaded values. *)
Variable py_eq : json -> json -> bool.

(** Lines 29-39 on a loaded value. *)
Definition normalize_value (date_str : json) : json :=
  if negb (truthy date_str) then JNull
  else match date_str with
       | JStr s =>
           match isoparse s with
           | Returned dt => JStr (strftime dt)
           | Raised _ => date_str
           end
       | _ => date_str
       end.

(** Lines 41-65 on two loaded values. *)
Definition compare_values (python_date swift_date : json) : bool :=
  if negb (truthy python_date) || negb (truthy swift_date) then
    py_eq python_date swift_date
  else if py_eq (normalize_value python_date) (normalize_value swift_date) then
    true
  else
    match python_date, swift_date with
    | JStr p, JStr s => same_day isoparse p s
    | _, _ => false
    end.

(** An entry of [performance_comparison]. *)
Record perf : Type := mkPerf {
  perf_input : json;
  python_ms : json;
  swift_ms : json
}.

(** The lists of lines 79-84, and the indices line 89 reports. *)
Record categories : Type := mkCategories {
  both_success : list (json * json);
  both_fail : list (json * json);
  python_only_success : list (json * json);
  swift_only_success : list (json * json);
  different_results : list (json * json);
  performance_comparison : list perf;
  mismatches : list nat
}.

Definition no_categories : categories := mkCategories [] [] [] [] [] [] [].

Definition add_both_success (p : json * json) (c : categories) : categories :=
  mkCategories (both_success c ++ [p]) (both_fail c) (python_only_success c)
    (swift_only_success c) (different_results c) (performance_comparison c)
    (mismatches c).

Definition add_both_fail (p : json * json) (c : categories) : categories :=
  mkCategories (both_success c) (both_fail c ++ [p]) (python_only_success c)
    (swift_only_success c) (different_results c) (performance_comparison c)
    (mismatches c).

Definition add_python_only (p : json * json) (c : categories) : categories :=
  mkCategories (both_success c) (both_fail c) (python_only_success c ++ [p])
    (swift_only_success c) (different_results c) (performance_comparison c)
    (mismatches c).

Definition add_swift_only (p : json * json) (c : categories) : categories :=
  mkCategories (both_success c) (both_fail c) (python_only_success c)
    (swift_only_success c ++ [p]) (different_results c)
    (performance_comparison c) (mismatches c).

Definition add_different (p : json * json) (c : categories) : categories :=
  mkCategories (both_success c) (both_fail c) (python_only_success c)
    (swift_only_success c) (different_results c ++ [p])
    (performance_comparison c) (mismatches c).

Definition add_performance (p : perf) (c : categories) : categories :=
  mkCategories (both_success c) (both_fail c) (python_only_success c)
    (swift_only_success c) (different_results c)
    (performance_comparison c ++ [p]) (mismatches c).

Definition add_mismatch (i : nat) (c : categories) : categories :=
  mkCategories (both_success c) (both_fail c) (python_only_success c)
    (swift_only_success c) (different_results c) (performance_comparison c)
    (mismatches c ++ [i]).

(** One iteration of the loop of lines 86-116, at index [i]. *)
Definition categorize (i : nat) (c : categories) (pair : json * json)
    : outcome categories :=
  let '(py_test, sw_test) := pair in
  py_input <- getitem py_test "input" ;;
  sw_input <- getitem sw_test "input" ;;
  if negb (py_eq py_input sw_input) then Returned (add_mismatch i c)
  else
    pd <- getitem py_test "default" ;;
    py_success <- getitem pd "success" ;;
    sd <- getitem sw_test "default" ;;
    sw_success <- getitem sd "success" ;;
    c1 <- (if truthy py_success && truthy sw_success then
             pd' <- getitem py_test "default" ;;
             py_date <- getitem pd' "date" ;;
             sd' <- getitem sw_test "default" ;;
             sw_date <- getitem sd' "date" ;;
             if negb (compare_values py_date sw_date)
             then Returned (add_different pair (add_both_success pair c))
             else Returned (add_both_success pair c)
           else if negb (truthy py_success) && negb (truthy sw_success) then
             Returned (add_both_fail pair c)
           else if truthy py_success && negb (truthy sw_success) then
             Returned (add_python_only pair c)
           else Returned (add_swift_only pair c)) ;;
    if truthy py_success && truthy sw_success then
      input <- getitem py_test "input" ;;
      pd'' <- getitem py_test "default" ;;
      py_ms <- getitem pd'' "time_ms" ;;
      sd'' <- getitem sw_test "default" ;;
      sw_ms <- getitem sd'' "timeMs" ;;
      Returned (add_performance (mkPerf input py_ms sw_ms) c1)
    else Returned c1.

Fixpoint categorize_loop (i : nat) (c : categories) (pairs : list (json * json))
    : outcome categories :=
  match pairs with
  | [] => Returned c
  | p :: rest => c' <- categorize i c p ;; categorize_loop (S i) c' rest
  end.

(** [for x in l: ...] for a body that prints what [body x] returns. *)
Fixpoint for_each {A B : Type} (body : A -> outcome B) (l : list A)
    : outcome (list B) :=
  match l with
  | [] => Returned []
  | x :: rest => y <- body x ;; ys <- for_each body rest ;; Returned (y :: ys)
  end.

(** Lines 131-134: description, input, Python date, Swift error. *)
Definition python_only_lines (pair : json * json) : outcome (list json) :=
  let '(py_test, sw_test) := pair in
  d <- getitem py_test "description" ;;
  i <- getitem py_test "input" ;;
  pd <- getitem py_test "default" ;;
  date <- getitem pd "date" ;;
  sd <- getitem sw_test "default" ;;
  err <- getitem sd "error" ;;
  Returned [d; i; date; err].

(** Lines 140-147: description, input, Swift date, Python error and, when
    the Python fuzzy entry is there and passed, its date. *)
Definition swift_only_lines (pair : json * json) : outcome (list json) :=
  let '(py_test, sw_test) := pair in
  d <- getitem sw_test "description" ;;
  i <- getitem sw_test "input" ;;
  sd <- getitem sw_test "default" ;;
  date <- getitem sd "date" ;;
  pd <- getitem py_test "default" ;;
  err <- getitem pd "error" ;;
  fz <- getitem py_test "fuzzy" ;;
  if truthy fz then
    fz' <- getitem py_test "fuzzy" ;;
    ok <- getitem fz' "success" ;;
    if truthy ok then
      fz'' <- getitem py_test "fuzzy" ;;
      fdate <- getitem fz'' "date" ;;
      Returned [d; i; date; err; fdate]
    else Returned [d; i; date; err]
  else Returned [d; i; date; err].

(** Lines 153-156: description, input and the two dates. *)
Definition different_lines (pair : json * json) : outcome (list json) :=
  let '(py_test, sw_test) := pair in
  d <- getitem py_test "description" ;;
  i <- getitem py_test "input" ;;
  pd <- getitem py_test "default" ;;
  pdate <- getitem pd "date" ;;
  sd <- getitem sw_test "default" ;;
  sdate <- getitem sd "date" ;;
  Returned [d; i; pdate; sdate].

(** [sum(...)] of line 165 or 166: from [0], adding each value. *)
Fixpoint sum_from (acc : num) (l : list json) : outcome num :=
  match l with
  | [] => Returned acc
  | v :: rest =>
      x <- as_num v ;; total <- num_add acc x ;; sum_from total rest
  end.

(** [a / b] on two floats: a divisor equal to zero raises. *)
Definition float_div (a b : num) : outcome num :=
  if num_nonzero b then num_div a b
  else Raised (AnalyzeScript.ZeroDivisionError "float division by zero").

(** Line 178. *)
Definition ratio_of (p : perf) : outcome num :=
  py <- as_num (python_ms p) ;;
  if num_gt0 py then sw <- as_num (swift_ms p) ;; num_div sw py
  else Returned num_inf.

(** [list.sort(key=...)]: stable, ascending; the keys are compared with
    [<]. *)
Fixpoint insert_by (x : perf * num) (l : list (perf * num)) : list (perf * num) :=
  match l with
  | [] => [x]
  | y :: rest =>
      if num_ltb (snd x) (snd y) then x :: y :: rest
      else y :: insert_by x rest
  end.

Definition sort_by_ratio (l : list (perf * num)) : list (perf * num) :=
  fold_left (fun sorted x => insert_by x sorted) l [].

(** [l[-5:]]. *)
Definition last_five {A : Type} (l : list A) : list A :=
  skipn (List.length l - 5) l.

(** What lines 160-189 print. *)
Record timing : Type := mkTiming {
  avg_python_ms : num;
  avg_swift_ms : num;
  avg_ratio : num;
  best : list (perf * num);
  worst : list (perf * num)
}.

(** Lines 165-173: the two averages and their ratio. *)
Definition averages (l : list perf) : outcome (num * num * num) :=
  total_python_ms <- sum_from (num_of_Z 0) (map python_ms l) ;;
  total_swift_ms <- sum_from (num_of_Z 0) (map swift_ms l) ;;
  let n := num_of_Z (Z.of_nat (List.length l)) in
  avg_py <- num_div total_python_ms n ;;
  avg_sw <- num_div total_swift_ms n ;;
  r <- float_div avg_sw avg_py ;;
  Returned (avg_py, avg_sw, r).

(** Lines 160-189. *)
Definition performance (l : list perf) : outcome (option timing) :=
  match l with
  | [] => Returned None
  | _ =>
      a <- averages l ;;
      ratios <- for_each (fun p => x <- ratio_of p ;; Returned (p, x)) l ;;
      let sorted := sort_by_ratio ratios in
      Returned (Some (mkTiming (fst (fst a)) (snd (fst a)) (snd a)
                               (firstn 5 sorted) (last_five sorted)))
  end.

(** What a complete run prints. *)
Record analysis : Type := mkAnalysis {
  found : categories;
  python_only_printed : list (list json);
  swift_only_printed : list (list json);
  different_printed : list (list json);
  timed : option timing
}.

(** Lines 67-189; [None] is the early return of line 76. *)
Definition analyze_results (python_results swift_results : list json)
    : outcome (option analysis) :=
  if negb (Nat.eqb (List.length python_results) (List.length swift_results))
  then Returned None
  else
    c <- categorize_loop 0 no_categories (combine python_results swift_results) ;;
    po <- for_each python_only_lines (python_only_success c) ;;
    so <- for_each swift_only_lines (swift_only_success c) ;;
    df <- for_each different_lines (different_results c) ;;
    t <- performance (performance_comparison c) ;;
    Returned (Some (mkAnalysis c po so df t)).

(** *** Facts about the categories *)

(** [t['default']['success']] as a truth value, when it can be read. *)
Definition passes (t : json) : option bool :=
  match getitem t "default" with
  | Returned d =>
      match getitem d "success" with
      | Returned v => Some (truthy v)
      | Raised _ => None
      end
  | Raised _ => None
  end.

(** The entry of [performance_comparison] made for a pair. *)
Definition timed_from (pair : json * json) (p : perf) : Prop :=
  getitem (fst pair) "input" = Returned (perf_input p) /\
  (exists pd, getitem (fst pair) "default" = Returned pd /\
              getitem pd "time_ms" = Returned (python_ms p)) /\
  (exists sd, getitem (snd pair) "default" = Returned sd /\
              getitem sd "timeMs" = Returned (swift_ms p)).

Ltac open_binds :=
  repeat match goal with
         | H : Py.bind ?m _ = Returned _ |- _ =>
             let E := fresh "E" in
             destruct m eqn:E; cbn [Py.bind] in H; [| discriminate H]
         end.

(** What one iteration does to the lists. *)
Lemma categorize_cases i c pair c' :
  categorize i c pair = Returned c' ->
  c' = add_mismatch i c \/
  (passes (fst pair) = Some true /\ passes (snd pair) = Some true /\
   exists p, timed_from pair p /\
     (c' = add_performance p (add_both_success pair c) \/
      c' = add_performance p (add_different pair (add_both_success pair c)))) \/
  (passes (fst pair) = Some false /\ passes (snd pair) = Some false /\
   c' = add_both_fail pair c) \/
  (passes (fst pair) = Some true /\ passes (snd pair) = Some false /\
   c' = add_python_only pair c) \/
  (passes (fst pair) = Some false /\ passes (snd pair) = Some true /\
   c' = add_swift_only pair c).
Proof.
  destruct pair as [py sw]. unfold categorize. intros H.
  destruct (getitem py "input") as [pi |] eqn:Epi; cbn [Py.bind] in H;
    [| discriminate H].
  destruct (getitem sw "input") as [si |] eqn:Esi; cbn [Py.bind] in H;
    [| discriminate H].
  destruct (negb (py_eq pi si)); [left; now injection H as <- | right].
  destruct (getitem py "default") as [pd |] eqn:Epd; cbn [Py.bind] in H;
    [| discriminate H].
  destruct (getitem pd "success") as [ps |] eqn:Eps; cbn [Py.bind] in H;
    [| discriminate H].
  destruct (getitem sw "default") as [sd |] eqn:Esd; cbn [Py.bind] in H;
    [| discriminate H].
  destruct (getitem sd "success") as [ss |] eqn:Ess; cbn [Py.bind] in H;
    [| discriminate H].
  assert (Pp : passes py = Some (truthy ps))
    by (unfold passes; now rewrite Epd, Eps).
  assert (Ps : passes sw = Some (truthy ss))
    by (unfold passes; now rewrite Esd, Ess).
  cbn [fst snd]. rewrite Pp, Ps.
  destruct (truthy ps), (truthy ss); cbn [andb negb] in H.
  - left. split; [reflexivity |]. split; [reflexivity |].
    destruct (getitem pd "date") as [pdate |]; cbn [Py.bind] in H;
      [| discriminate H].
    destruct (getitem sd "date") as [sdate |]; cbn [Py.bind] in H;
      [| discriminate H].
    destruct (getitem pd "time_ms") as [pms |] eqn:Epm;
      [| destruct (negb (compare_values pdate sdate)); discriminate H].
    destruct (getitem sd "timeMs") as [sms |] eqn:Esm;
      [| destruct (negb (compare_values pdate sdate)); discriminate H].
    exists (mkPerf pi pms sms). split.
    + unfold timed_from. cbn [fst snd perf_input python_ms swift_ms].
      split; [exact Epi |]. split; eexists; split; eassumption.
    + destruct (negb (compare_values pdate sdate)); cbn [Py.bind] in H;
        injection H as <-; [right | left]; reflexivity.
  - right; right; left. cbn [Py.bind] in H. injection H as <-. auto.
  - right; right; right. cbn [Py.bind] in H. injection H as <-. auto.
  - right; left. cbn [Py.bind] in H. injection H as <-. auto.
Qed.





Lemma analyze_results_found python_results swift_results a :
  analyze_results python_results swift_results = Returned (Some a) ->
  List.length python_results = List.length swift_results /\
  categorize_loop 0 no_categories (combine python_results swift_results)
  = Returned (found a).
Proof.
  unfold analyze_results. intros H.
  destruct (Nat.eqb (List.length python_results) (List.length swift_results))
    eqn:L; cbn [negb] in H; [| discriminate H].
  apply Nat.eqb_eq in L. split; [exact L |].
  open_binds. injection H as <-. reflexivity.
Qed.


(** The performance entries and the differing pairs against
    [both_success]. *)
Definition timed_pairs (c : categories) : Prop :=
  Forall2 timed_from (both_success c) (performance_comparison c) /\
  incl (different_results c) (both_success c).

Lemma categorize_timed i c pair c' :
  timed_pairs c -> categorize i c pair = Returned c' -> timed_pairs c'.
Proof.
  intros [F I] H. unfold timed_pairs.
  destruct (categorize_cases _ _ _ _ H)
    as [-> | [(_ & _ & p & T & [-> | ->]) | [(_ & _ & ->)
       | [(_ & _ & ->) | (_ & _ & ->)]]]];
    cbn [add_mismatch add_performance add_both_success add_different
         add_both_fail add_python_only add_swift_only both_success
         performance_comparison different_results];
    try (split; assumption).
  - split.
    + apply Forall2_app; [exact F | constructor; [exact T | constructor]].
    + apply incl_appl, I.
  - split.
    + apply Forall2_app; [exact F | constructor; [exact T | constructor]].
    + apply incl_app; [apply incl_appl, I |].
      apply incl_appr, incl_refl.
Qed.

Lemma categorize_loop_timed pairs : forall i c c',
  timed_pairs c -> categorize_loop i c pairs = Returned c' -> timed_pairs c'.
Proof.
  induction pairs as [| p rest IH]; intros i c c' T H.
  - now injection H as <-.
  - cbn [categorize_loop] in H.
    destruct (categorize i c p) as [c1 |] eqn:E; cbn [Py.bind] in H;
      [| discriminate H].
    exact (IH _ _ _ (categorize_timed _ _ _ _ T E) H).
Qed.

(** X8. When the loop of lines 86-116 completes there is one performance
    entry for each pair of [both_success], in the same order, holding that
    pair's input, the Python [time_ms] and the Swift [timeMs]; and every
    pair of [different_results] is a pair of [both_success]. *)
Theorem performance_entries_match (pairs : list (json * json)) (c : categories) :
  categorize_loop 0 no_categories pairs = Returned c ->
  Forall2 timed_from (both_success c) (performance_comparison c) /\
  List.length (performance_comparison c) = List.length (both_success c) /\
  incl (different_results c) (both_success c).
Proof.
  intros C.
  assert (T0 : timed_pairs no_categories)
    by (split; [constructor | apply incl_refl]).
  destruct (categorize_loop_timed _ _ _ _ T0 C) as [F I].
  split; [exact F |]. split; [| exact I].
  symmetry. exact (Forall2_length F).
Qed.

(** Lists of different lengths are not analysed: the function returns
    after the warning of line 75 without reading a record. *)
Lemma count_mismatch_returns (python_results swift_results : list json) :
  List.length python_results <> List.length swift_results ->
  analyze_results python_results swift_results = Returned None.
Proof.
  intros H. unfold analyze_results.
  apply Nat.eqb_neq in H. now rewrite H.
Qed.

(** *** The averages of lines 165-173 *)

Section Averages.

(** Zero stays zero under the arithmetic of the averages, and no sum or
    quotient of zeros overflows. *)
Hypothesis zero_is_zero : num_nonzero (num_of_Z 0) = false.
Hypothesis add_zero : forall a b,
  num_nonzero a = false -> num_nonzero b = false ->
  exists c, num_add a b = Returned c /\ num_nonzero c = false.
Hypothesis div_zero : forall a n,
  0 < n -> num_nonzero a = false ->
  exists q, num_div a (num_of_Z n) = Returned q /\ num_nonzero q = false.

(** A time that is a number equal to zero. *)
Definition zero_time (v : json) : bool :=
  match as_num v with
  | Returned x => negb (num_nonzero x)
  | Raised _ => false
  end.

Lemma sum_of_zeros l : forall acc,
  num_nonzero acc = false -> forallb zero_time l = true ->
  exists total, sum_from acc l = Returned total /\ num_nonzero total = false.
Proof.
  induction l as [| v rest IH]; intros acc Z0 F.
  - exists acc. split; [reflexivity | exact Z0].
  - cbn [forallb] in F. apply andb_true_iff in F as [Zv F].
    cbn [sum_from]. unfold zero_time in Zv.
    destruct (as_num v) as [x |]; [| discriminate Zv]. cbn [Py.bind].
    apply negb_true_iff in Zv.
    destruct (add_zero acc x Z0 Zv) as (total & -> & Zt). cbn [Py.bind].
    apply IH; assumption.
Qed.

(** X9. The overall ratio of line 173 is not guarded the way the
    per-test ratio of line 178 is: when the tests both parsers pass all
    have a Python time of zero, lines 165-173 never complete. Once the
    Swift total and the Swift average are computed, the ratio raises
    [ZeroDivisionError]; otherwise an earlier line has raised (a Swift time
    that is no number, or an integer beyond the range of floats). *)
Theorem unguarded_average_ratio (l : list perf) :
  l <> [] ->
  forallb zero_time (map python_ms l) = true ->
  (exists e, averages l = Raised e) /\
  (forall total_swift_ms avg_swift_ms,
     sum_from (num_of_Z 0) (map swift_ms l) = Returned total_swift_ms ->
     num_div total_swift_ms (num_of_Z (Z.of_nat (List.length l)))
       = Returned avg_swift_ms ->
     exists e,
       averages l = Raised e /\ isinstance e "ZeroDivisionError" = true).
Proof.
  intros Hne Hz.
  assert (Hn : 0 < Z.of_nat (List.length l))
    by (destruct l; [congruence | cbn [List.length]; lia]).
  destruct (sum_of_zeros _ _ zero_is_zero Hz) as (tp & Etp & Ztp).
  destruct (div_zero tp _ Hn Ztp) as (avg_py & Eavg & Zavg).
  assert (R : forall ts avg_sw,
            sum_from (num_of_Z 0) (map swift_ms l) = Returned ts ->
            num_div ts (num_of_Z (Z.of_nat (List.length l))) = Returned avg_sw ->
            averages l
            = Raised (AnalyzeScript.ZeroDivisionError "float division by zero")).
  { intros ts avg_sw Ets Eavg_sw. unfold averages.
    rewrite Etp, Ets. cbn [Py.bind]. rewrite Eavg, Eavg_sw. cbn [Py.bind].
    unfold float_div. rewrite Zavg. reflexivity. }
  split.
  - destruct (sum_from (num_of_Z 0) (map swift_ms l)) as [ts | e] eqn:Ets.
    + destruct (num_div ts (num_of_Z (Z.of_nat (List.length l))))
        as [avg_sw | e] eqn:Eavg_sw.
      * eexists. exact (R ts avg_sw eq_refl Eavg_sw).
      * exists e. unfold averages. rewrite Etp, Ets. cbn [Py.bind].
        rewrite Eavg, Eavg_sw. reflexivity.
    + exists e. unfold averages. rewrite Etp, Ets. reflexivity.
  - intros ts avg_sw Ets Eavg_sw. eexists. split; [exact (R ts avg_sw Ets Eavg_sw) |].
    reflexivity.
Qed.

End Averages.

(** *** The comparison on texts *)

Section Texts.

(** [==] on texts and [None]. *)
Definition of_text (d : option string) : json :=
  match d with Some s => JStr s | None => JNull end.

Hypothesis py_eq_text : forall a b,
  py_eq (of_text a) (of_text b) = opt_eqb a b.

(** On two values that are texts or [None], the comparison the loop makes
    is [compare_dates]. *)
Lemma compare_values_on_texts (a b : option string) :
  compare_values (of_text a) (of_text b) = compare_dates isoparse a b.
Proof.
  unfold compare_values, compare_dates.
  assert (T : forall d, truthy (of_text d) = opt_truthy d)
    by (intros [s |]; reflexivity).
  assert (N : forall d, normalize_value (of_text d)
                        = of_text (normalize_dates isoparse d)).
  { intros [s |]; [| reflexivity].
    unfold normalize_value, normalize_dates. cbn [of_text AnalyzeFinal.truthy].
    destruct (negb (str_truthy s)); [reflexivity |].
    destruct (isoparse s); reflexivity. }
  rewrite !T, !N, !py_eq_text.
  destruct (negb (opt_truthy a) || negb (opt_truthy b)); [reflexivity |].
  destruct (opt_eqb (normalize_dates isoparse a) (normalize_dates isoparse b));
    [reflexivity |].
  destruct a, b; reflexivity.
Qed.

End Texts.

End Analysis.

(** *** [compare_dates] at its edges *)

Section Dates.

Variable isoparse : string -> outcome datetime.

#[local] Abbreviation normalize_dates := (CompareResults.normalize_dates isoparse).
#[local] Abbreviation compare_dates := (CompareResults.compare_dates isoparse).

(** X10. [compare_dates] is reflexive: a value, parseable or not, text
    or [None], compares [True] with itself. *)
Theorem compare_dates_reflexive (d : option string) :
  compare_dates d d = true.
Proof.
  unfold CompareResults.compare_dates.
  destruct (negb (opt_truthy d) || negb (opt_truthy d)).
  - now apply opt_eqb_eq.
  - replace (opt_eqb (normalize_dates d) (normalize_dates d)) with true;
      [reflexivity |].
    symmetry. now apply opt_eqb_eq.
Qed.

(** X11. When one of the two values is missing ([None] or the empty
    text), [compare_dates] is plain equality: nothing is parsed, and [None]
    and the empty text differ. *)
Theorem compare_dates_missing (a b : option string) :
  opt_truthy a = false \/ opt_truthy b = false ->
  (compare_dates a b = true <-> a = b).
Proof.
  intros H. unfold CompareResults.compare_dates.
  replace (negb (opt_truthy a) || negb (opt_truthy b)) with true.
  - apply opt_eqb_eq.
  - destruct H as [-> | ->]; [reflexivity |].
    now rewrite orb_true_r.
Qed.

(** X12. A text [isoparse] cannot read is compared as it stands: with
    another unreadable text it compares [True] only when the two texts are
    equal, with a readable one (of a year from 1000 on, which [strftime]
    prints with its four digits on every platform) only when it is itself
    the normalized form of the other. The same-day rule is never reached. *)
Theorem compare_dates_unparsed (a b : string) (e : exn) :
  str_truthy a = true -> str_truthy b = true ->
  isoparse a = Raised e ->
  match isoparse b with
  | Returned db =>
      1000 <= year db ->
      (compare_dates (Some a) (Some b) = true <-> strftime db = a)
  | Raised _ => compare_dates (Some a) (Some b) = true <-> b = a
  end.
Proof.
  intros Ta Tb Ha. unfold CompareResults.compare_dates.
  cbn [opt_truthy]. rewrite Ta, Tb. cbn [negb orb].
  unfold CompareResults.normalize_dates, same_day. rewrite Ta, Tb, Ha.
  cbn [negb opt_eqb].
  destruct (isoparse b) as [db |].
  - intros _. destruct (String.eqb a (strftime db)) eqn:E.
    + apply String.eqb_eq in E. split; [now intros _ | reflexivity].
    + apply String.eqb_neq in E. split; [discriminate | congruence].
  - destruct (String.eqb a b) eqn:E.
    + apply String.eqb_eq in E. split; [now intros _ | reflexivity].
    + apply String.eqb_neq in E. split; [discriminate | congruence].
Qed.

End Dates.

(** *** The analysis on rational numbers *)

(** [==] on the scalars of the sample records. *)
Definition scalar_eq (a b : AnalyzeFinal.json Q) : bool :=
  match a, b with
  | JNull, JNull => true
  | JBool x, JBool y => Bool.eqb x y
  | JNum x, JNum y => Qeq_bool x y
  | JStr x, JStr y => String.eqb x y
  | _, _ => false
  end.

(** A record as [test_comparison.py] writes it. *)
Definition python_entry (input : string) (date : option string) (ms : Q)
    : AnalyzeFinal.json Q :=
  JObj [("input", JStr input);
        ("description", JStr "");
        ("default",
         JObj [("success", JBool (match date with Some _ => true | None => false end));
               ("date", of_text Q date);
               ("time_ms", JNum ms);
               ("error", match date with
                         | Some _ => JNull
                         | None => JStr "Unknown string format"
                         end)]);
        ("fuzzy", JNull); ("dayfirst", JNull)].

(** A record of the Swift results. *)
Definition swift_entry (input : string) (date : option string) (ms : Q)
    : AnalyzeFinal.json Q :=
  JObj [("input", JStr input);
        ("description", JStr "");
        ("default",
         JObj [("success", JBool (match date with Some _ => true | None => false end));
               ("date", of_text Q date);
               ("timeMs", JNum ms);
               ("error", JNull)])].

Definition sample_python_results : list (AnalyzeFinal.json Q) :=
  [python_entry "2003-09-25" (Some "2003-09-25T00:00:00") (Qmake 5 100);
   python_entry "10/09/03" (Some "2003-10-09T00:00:00") (Qmake 4 100);
   python_entry "tomorrow" None (Qmake 0 1);
   python_entry "not a date" None (Qmake 0 1)].

Definition sample_swift_results : list (AnalyzeFinal.json Q) :=
  [swift_entry "2003-09-25" (Some "2003-09-25T12:00:00") (Qmake 1 100);
   swift_entry "10/09/03" (Some "2003-09-10T00:00:00") (Qmake 3 100);
   swift_entry "tomorrow" (Some "2024-01-02T00:00:00") (Qmake 2 100);
   swift_entry "not a date" None (Qmake 0 1)].

Definition sample_pair (n : nat) : AnalyzeFinal.json Q * AnalyzeFinal.json Q :=
  nth n (combine sample_python_results sample_swift_results) (JNull, JNull).

Definition sample_perf (n : nat) : perf Q :=
  let '(py, sw) := sample_pair n in
  match getitem Q py "input", getitem Q py "default", getitem Q sw "default" with
  | Returned i, Returned pd, Returned sd =>
      match getitem Q pd "time_ms", getitem Q sd "timeMs" with
      | Returned p, Returned s => mkPerf Q i p s
      | _, _ => mkPerf Q JNull JNull JNull
      end
  | _, _, _ => mkPerf Q JNull JNull JNull
  end.

Definition sample_categories : categories Q :=
  mkCategories Q [sample_pair 0; sample_pair 1] [sample_pair 3] []
    [sample_pair 2] [sample_pair 1] [sample_perf 0; sample_perf 1] [].

Lemma sample_categorized :
  categorize_loop Q Q_nonzero Datetime.isoparse scalar_eq 0 (no_categories Q)
    (combine sample_python_results sample_swift_results)
  = Returned sample_categories.
Proof. vm_compute. reflexivity. Qed.


Lemma performance_entries_match_witness :
  categorize_loop Q Q_nonzero Datetime.isoparse scalar_eq 0 (no_categories Q)
    (combine sample_python_results sample_swift_results)
  = Returned sample_categories /\
  List.length (performance_comparison Q sample_categories) = 2%nat /\
  incl (different_results Q sample_categories) (both_success Q sample_categories).
Proof.
  split; [exact sample_categorized |].
  destruct (performance_entries_match Q Q_nonzero Datetime.isoparse scalar_eq
              _ _ sample_categorized) as (_ & L & I).
  split; [exact L | exact I].
Defined.

(** Sum of rationals: there is no overflow. *)
Definition Q_add (a b : Q) : outcome Q := Returned (Qplus a b).

Lemma Q_zero_add (a b : Q) :
  Q_nonzero a = false -> Q_nonzero b = false ->
  exists c, Q_add a b = Returned c /\ Q_nonzero c = false.
Proof.
  intros Ha Hb. eexists. split; [reflexivity |]. revert Ha Hb.
  unfold Q_nonzero. rewrite !negb_false_iff, !Z.eqb_eq.
  destruct a as [na da], b as [nb db]. cbn [Qnum Qplus].
  intros -> ->. reflexivity.
Qed.

Lemma Q_zero_div (a : Q) (n : Z) :
  0 < n -> Q_nonzero a = false ->
  exists q, Q_div a (inject_Z n) = Returned q /\ Q_nonzero q = false.
Proof.
  intros _ Ha. eexists. split; [reflexivity |]. revert Ha.
  unfold Q_nonzero. rewrite !negb_false_iff, !Z.eqb_eq.
  destruct a as [na da]. cbn [Qnum]. intros ->. reflexivity.
Qed.

(** Two tests both parsers pass, timed by a clock that did not advance
    during the Python calls. *)
Definition untimed : list (perf Q) :=
  [mkPerf Q (JStr "2003-09-25") (JNum (Qmake 0 1)) (JNum (Qmake 1 100));
   mkPerf Q (JStr "10/09/03") (JNum (Qmake 0 1)) (JNum (Qmake 3 100))].

Lemma unguarded_average_ratio_witness :
  exists e,
    averages Q Q_nonzero Q_of_bool Q_div Q_add inject_Z untimed = Raised e /\
    isinstance e "ZeroDivisionError" = true.
Proof.
  apply (proj2 (unguarded_average_ratio Q Q_nonzero Q_of_bool Q_div Q_add
                  inject_Z eq_refl Q_zero_add Q_zero_div untimed
                  ltac:(discriminate) eq_refl)
           (Qplus (Qplus (inject_Z 0) (Qmake 1 100)) (Qmake 3 100))
           (Qdiv (Qplus (Qplus (inject_Z 0) (Qmake 1 100)) (Qmake 3 100))
                 (inject_Z 2))).
  - reflexivity.
  - reflexivity.
Defined.

Lemma compare_dates_missing_witness :
  (CompareResults.compare_dates Datetime.isoparse None None = true <->
   @None string = None) /\
  (CompareResults.compare_dates Datetime.isoparse None (Some "") = true <->
   None = Some "") /\
  CompareResults.compare_dates Datetime.isoparse None (Some "") = false.
Proof.
  split; [| split].
  - apply (compare_dates_missing Datetime.isoparse None None). left. reflexivity.
  - apply (compare_dates_missing Datetime.isoparse None (Some "")).
    left. reflexivity.
  - reflexivity.
Defined.

Lemma compare_dates_unparsed_witness :
  Datetime.isoparse "tomorrow"
    = Raised (ValueError "invalid isoformat string") /\
  Datetime.isoparse "2003-09-25"
    = Returned (mkDatetime 2003 9 25 0 0 0 0 None) /\
  (CompareResults.compare_dates Datetime.isoparse (Some "tomorrow")
     (Some "tomorrow") = true) /\
  (CompareResults.compare_dates Datetime.isoparse (Some "tomorrow")
     (Some "2003-09-25") = false).
Proof.
  assert (R : Datetime.isoparse "tomorrow"
              = Raised (ValueError "invalid isoformat string"))
    by (vm_compute; reflexivity).
  assert (P : Datetime.isoparse "2003-09-25"
              = Returned (mkDatetime 2003 9 25 0 0 0 0 None))
    by (vm_compute; reflexivity).
  split; [exact R |]. split; [exact P |]. split.
  - pose proof (compare_dates_unparsed Datetime.isoparse "tomorrow" "tomorrow" _
                  eq_refl eq_refl R) as H.
    rewrite R in H. apply H. reflexivity.
  - pose proof (compare_dates_unparsed Datetime.isoparse "tomorrow" "2003-09-25"
                  _ eq_refl eq_refl R) as H.
    rewrite P in H. cbn [year] in H.
    destruct (CompareResults.compare_dates Datetime.isoparse (Some "tomorrow")
                (Some "2003-09-25")) eqn:E; [| reflexivity].
    assert (S : strftime (mkDatetime 2003 9 25 0 0 0 0 None) = "tomorrow")
      by (apply H; [lia | reflexivity]).
    vm_compute in S. discriminate S.
Defined.

End CompareAnalysis.

(** ** test_comparison.py: the run over the scenarios *)

Module TestRun.
Import Py Datetime TestComparison.

(** Lines 15-104. *)
Definition TEST_SCENARIOS : list (string * string) :=
  [("2003-09-25T10:49:41", "ISO datetime with T separator");
   ("2003-09-25 10:49:41", "ISO datetime with space separator");
   ("2003-09-25", "ISO date only");
   ("20030925T104941", "Compact ISO datetime");
   ("20030925", "Compact ISO date");
   ("09/25/2003", "US format MM/DD/YYYY");
   ("25/09/2003", "EU format DD/MM/YYYY");
   ("09-25-2003", "US format with dashes");
   ("25-09-2003", "EU format with dashes");
   ("09.25.2003", "US format with dots");
   ("25.09.2003", "EU format with dots");
   ("2003/09/25", "Year first with slashes");
   ("10/09/03", "Short date - ambiguous");
   ("10-09-03", "Short date with dashes");
   ("10.09.03", "Short date with dots");
   ("Sep 25 2003", "Month abbreviation");
   ("September 25, 2003", "Full month name with comma");
   ("25 Sep 2003", "Day first with month name");
   ("3rd of May 2001", "Ordinal date");
   ("May 3rd, 2001", "Ordinal date US style");
   ("10:36:28", "Time only HH:MM:SS");
   ("10:36", "Time only HH:MM");
   ("10:36:28 PM", "Time with PM");
   ("10:36:28 AM", "Time with AM");
   ("22:36:28", "24-hour time");
   ("Thu Sep 25 10:36:28 2003", "Unix date format");
   ("Wed, July 10, '96", "Abbreviated year with apostrophe");
   ("1996.July.10 AD 12:08 PM", "Complex format with AD");
   ("2003-09-25 10:49:41,502", "Logger format with milliseconds");
   ("July 10, '96", "Apostrophe year without day name");
   ("'96-07-10", "Apostrophe year ISO style");
   ("10-Jul-'96", "Apostrophe year with month abbreviation");
   ("December 25 '99", "Apostrophe year end of string");
   ("753 BC", "BC year only");
   ("2023 CE", "CE year");
   ("1 AD", "Year 1 AD");
   ("December 31, 1 BC", "Date with BC");
   ("1996.July.10 AD", "AD date without time");
   ("44 BC", "Julius Caesar's death year");
   ("today", "Relative - today");
   ("tomorrow", "Relative - tomorrow");
   ("yesterday", "Relative - yesterday");
   ("3 days ago", "Relative - days ago");
   ("in 2 weeks", "Relative - in weeks");
   ("next month", "Relative - next month");
   ("last year", "Relative - last year");
   ("", "Empty string");
   ("not a date", "Invalid text");
   ("2003-02-29", "Invalid date - not leap year");
   ("2004-02-29", "Valid leap year date");
   ("2003-09-31", "Invalid date - September has 30 days");
   ("99", "Two digit number");
   ("10", "Two digit number");
   ("2003", "Year only");
   ("Today is January 1, 2047 at 8:21:00AM", "Fuzzy - date in sentence");
   ("The deadline is 2023-12-25", "Fuzzy - date at end");
   ("On Sep 25 2003 something happened", "Fuzzy - date in middle");
   ("2003/09/25", "Forward slashes");
   ("2003\09\25", "Backslashes");
   ("2003_09_25", "Underscores");
   ("2003-09-25T10:49:41Z", "ISO with UTC timezone");
   ("2003-09-25T10:49:41+05:00", "ISO with timezone offset");
   ("2003-09-25T10:49:41-08:00", "ISO with negative timezone offset")].

Section Run.

Variable seconds : Type.
Variable sub : seconds -> seconds -> seconds.
Variable mul : seconds -> seconds -> seconds.
Variable of_int : Z -> seconds.
Variable dateutil_parse :
  datetime -> string -> bool -> bool -> bool -> outcome datetime.

#[local] Abbreviation Readings := (TestComparison.Readings seconds).
#[local] Abbreviation result := (TestComparison.result seconds).
#[local] Abbreviation test_result := (TestComparison.test_result seconds).
#[local] Abbreviation parse_with_dateutil :=
  (TestComparison.parse_with_dateutil seconds sub mul of_int dateutil_parse).
#[local] Abbreviation run_scenario :=
  (TestComparison.run_scenario seconds sub mul of_int dateutil_parse).
#[local] Abbreviation fails_as_documented :=
  (TestComparison.fails_as_documented dateutil_parse).

(** What the three calls of scenario [i] read from the clock. *)
Variable clock : nat -> Readings * Readings * Readings.

(** The console. [report i t] is what the [print] calls of lines 159-172
    do with entry [t] of scenario [i], and [announce] what those of lines
    131-132 do: they return, or raise when standard output does not take
    the text ([UnicodeEncodeError] for the check marks of line 159 on an
    encoding without them). What they write is read off the entry alone. *)
Variable report : nat -> test_result -> outcome unit.
Variable announce : outcome unit.

(** The loop of lines 134-172 from scenario [i] on. *)
Fixpoint run_from (i : nat) (scenarios : list (string * string))
    : outcome (list test_result) :=
  match scenarios with
  | [] => Returned []
  | (date_string, description) :: rest =>
      let '(w1, w2, w3) := clock i in
      t <- run_scenario w1 w2 w3 date_string description ;;
      _ <- report i t ;;
      ts <- run_from (S i) rest ;;
      Returned (t :: ts)
  end.

(** Lines 127-174. *)
Definition run_python_tests : outcome (list test_result) :=
  _ <- announce ;;
  run_from 0 TEST_SCENARIOS.

(** [r["fuzzy"] and r["fuzzy"]["success"]], as a truth value. *)
Definition fuzzy_passed (r : test_result) : bool :=
  match fuzzy_result seconds r with
  | Some f => success seconds f
  | None => false
  end.

(** [sum(1 for r in results if ...)]. *)
Definition count (f : test_result -> bool) (results : list test_result) : Z :=
  Z.of_nat (List.length (filter f results)).

(** The three numbers of lines 230-232. *)
Definition total (results : list test_result) : Z :=
  Z.of_nat (List.length results).

Definition successful (results : list test_result) : Z :=
  count (fun r => success seconds (default seconds r)) results.

Definition fuzzy_success (results : list test_result) : Z :=
  count fuzzy_passed results.

(** *** Facts *)

(** X13. The only exceptions a call lets through are the parser's own,
    of a class the [except] clause does not name: an error of [isoformat]
    and a named parser error both become failure records. *)
Theorem only_unnamed_parser_errors_escape (w : Readings) (date_string : string)
    (fuzzy dayfirst yearfirst : bool) (e : exn) :
  parse_with_dateutil w date_string fuzzy dayfirst yearfirst = Raised e <->
  dateutil_parse (now seconds w) date_string fuzzy dayfirst yearfirst = Raised e /\
  except_matches handled e = false.
Proof.
  unfold TestComparison.parse_with_dateutil, TestComparison.attempt.
  destruct (dateutil_parse (now seconds w) date_string fuzzy dayfirst yearfirst)
    as [parsed | e'] eqn:P; cbn [Py.bind].
  - split; [| intros [H _]; discriminate H].
    destruct (isoformat parsed) as [iso | e'] eqn:I; cbn [Py.bind];
      [discriminate |].
    rewrite (isoformat_raises _ _ I). discriminate.
  - destruct (except_matches handled e') eqn:M.
    + split; [discriminate |]. intros [H N]. injection H as ->. congruence.
    + split.
      * intros H. injection H as ->. split; [reflexivity | exact M].
      * intros [H _]. injection H as ->. reflexivity.
Qed.

(** The separators that trigger the day-first call. *)
Definition has_separator (s : string) : bool :=
  contains "/" s || contains "-" s || contains "." s.

Definition is_some {A : Type} (o : option A) : bool :=
  match o with Some _ => true | None => false end.

(** The shape of one entry: which of the two further calls were made. *)
Definition entry_of (scenario : string * string) (t : test_result) : Prop :=
  input seconds t = fst scenario /\
  description seconds t = snd scenario /\
  is_some (fuzzy_result seconds t)
    = negb (success seconds (default seconds t)) && str_truthy (fst scenario) /\
  is_some (dayfirst_result seconds t) = has_separator (fst scenario).

Lemma run_scenario_entry w1 w2 w3 date_string descr t :
  run_scenario w1 w2 w3 date_string descr = Returned t ->
  entry_of (date_string, descr) t.
Proof.
  unfold TestComparison.run_scenario, entry_of, has_separator. intros H.
  destruct (parse_with_dateutil w1 date_string false false false) as [r |];
    cbn [Py.bind] in H; [| discriminate H].
  destruct (negb (success seconds r) && str_truthy date_string) eqn:Fz;
    destruct (contains "/" date_string || contains "-" date_string
              || contains "." date_string) eqn:Df;
    cbn [Py.bind] in H;
    repeat match type of H with
           | context [TestComparison.parse_with_dateutil ?a ?b ?c ?d ?e ?w ?s ?f ?g ?h] =>
               destruct (TestComparison.parse_with_dateutil a b c d e w s f g h);
               cbn [Py.bind] in H; [| discriminate H]
           end;
    injection H as <-;
    cbn [input description default fuzzy_result dayfirst_result fst snd is_some];
    rewrite ?Fz, ?Df; repeat split; reflexivity.
Qed.

Lemma run_from_entries scenarios : forall i results,
  run_from i scenarios = Returned results ->
  Forall2 entry_of scenarios results.
Proof.
  induction scenarios as [| [s d] rest IH]; intros i results H.
  - injection H as <-. constructor.
  - cbn [run_from] in H. destruct (clock i) as [[w1 w2] w3].
    destruct (run_scenario w1 w2 w3 s d) as [t |] eqn:E; cbn [Py.bind] in H;
      [| discriminate H].
    destruct (report i t) as [[] |]; cbn [Py.bind] in H; [| discriminate H].
    destruct (run_from (S i) rest) as [ts |] eqn:R; cbn [Py.bind] in H;
      [| discriminate H].
    injection H as <-. constructor.
    + exact (run_scenario_entry _ _ _ _ _ _ E).
    + exact (IH _ _ R).
Qed.

(** X14. When the run completes there is one entry per scenario, in the
    order of the scenarios, with the scenario's text and description; an
    entry has a fuzzy result exactly when its default call failed on a
    non-empty text, and a day-first result exactly when the text has a [/],
    a [-] or a [.]. *)
Theorem run_keeps_scenarios (i : nat) (scenarios : list (string * string))
    (results : list test_result) :
  run_from i scenarios = Returned results ->
  map (fun t => (input seconds t, description seconds t)) results = scenarios /\
  Forall2 entry_of scenarios results.
Proof.
  intros H. pose proof (run_from_entries _ _ _ H) as F.
  split; [| exact F].
  clear H. induction F as [| [s d] t rest ts (I & D & _) _ IH]; [reflexivity |].
  cbn [map fst snd] in *. now rewrite I, D, IH.
Qed.

Lemma parse_with_dateutil_returns w date_string fuzzy dayfirst yearfirst :
  fails_as_documented ->
  exists r, parse_with_dateutil w date_string fuzzy dayfirst yearfirst = Returned r.
Proof.
  intros Hdoc.
  destruct (parse_with_dateutil_cases seconds sub mul of_int dateutil_parse
              w date_string fuzzy dayfirst yearfirst)
    as [[iso C] | [[e [_ C]] | [e [N [P _]]]]].
  - eexists; exact C.
  - eexists; exact C.
  - rewrite (Hdoc _ _ _ _ _ _ P) in N. discriminate N.
Qed.

Lemma run_scenario_returns w1 w2 w3 date_string descr :
  fails_as_documented ->
  exists t, run_scenario w1 w2 w3 date_string descr = Returned t.
Proof.
  intros Hdoc. unfold TestComparison.run_scenario.
  destruct (parse_with_dateutil_returns w1 date_string false false false Hdoc)
    as [r ->].
  destruct (parse_with_dateutil_returns w2 date_string true false false Hdoc)
    as [r2 ->].
  destruct (parse_with_dateutil_returns w3 date_string false true false Hdoc)
    as [r3 ->].
  cbn [Py.bind].
  destruct (negb (success seconds r) && str_truthy date_string);
    destruct (contains "/" date_string || contains "-" date_string
              || contains "." date_string);
    cbn [Py.bind]; eexists; reflexivity.
Qed.

(** Standard output takes every line the run prints. *)
Definition console_accepts : Prop :=
  announce = Returned tt /\ forall i t, report i t = Returned tt.

Lemma run_from_returns scenarios : forall i,
  fails_as_documented -> (forall i t, report i t = Returned tt) ->
  exists results,
    run_from i scenarios = Returned results /\
    List.length results = List.length scenarios.
Proof.
  induction scenarios as [| [s d] rest IH]; intros i Hdoc Hout.
  - exists []. split; reflexivity.
  - cbn [run_from]. destruct (clock i) as [[w1 w2] w3].
    destruct (run_scenario_returns w1 w2 w3 s d Hdoc) as [t ->].
    cbn [Py.bind]. rewrite Hout. cbn [Py.bind].
    destruct (IH (S i) Hdoc Hout) as (ts & -> & L).
    cbn [Py.bind]. exists (t :: ts). split; [reflexivity |].
    cbn [List.length]. now rewrite L.
Qed.

(** X15. With a parser that fails as the [except] clause expects, and a
    standard output that takes every line printed, the run over any list of
    scenarios completes, with as many entries as scenarios: no scenario,
    whatever its text, stops the run. So [run_python_tests] returns 63
    entries. *)
Theorem run_completes :
  fails_as_documented -> console_accepts ->
  (forall (i : nat) (scenarios : list (string * string)),
     exists results,
       run_from i scenarios = Returned results /\
       List.length results = List.length scenarios) /\
  (exists results,
     run_python_tests = Returned results /\ List.length results = 63%nat).
Proof.
  intros Hdoc [Ha Hout]. split.
  - intros i scenarios. exact (run_from_returns scenarios i Hdoc Hout).
  - unfold run_python_tests. rewrite Ha. cbn [Py.bind].
    exact (run_from_returns TEST_SCENARIOS 0%nat Hdoc Hout).
Qed.

Lemma filter_length_le {A : Type} (f : A -> bool) (l : list A) :
  (List.length (filter f l) <= List.length l)%nat.
Proof.
  induction l as [| x rest IH]; [apply Nat.le_refl |].
  cbn [filter]. destruct (f x); cbn [List.length]; lia.
Qed.

Lemma counts_disjoint scenarios : forall results,
  Forall2 entry_of scenarios results ->
  successful results + fuzzy_success results <= total results.
Proof.
  unfold successful, fuzzy_success, total, count.
  induction 1 as [| sc t rest ts (_ & _ & Fz & _) _ IH]; [cbn; lia |].
  cbn [filter]. unfold fuzzy_passed at 1.
  destruct (success seconds (default seconds t)) eqn:S.
  - cbn [negb andb] in Fz.
    destruct (fuzzy_result seconds t); [discriminate Fz |].
    cbn [List.length]. lia.
  - destruct (fuzzy_result seconds t) as [f |].
    + destruct (success seconds f); cbn [List.length]; lia.
    + cbn [List.length]. lia.
Qed.

(** X16. In the summary of lines 230-237 the default successes and the
    additional fuzzy successes count different tests: the fuzzy call is made
    only after the default call failed, so the two numbers together never
    exceed the total. *)
Theorem summary_counts_disjoint (i : nat) (scenarios : list (string * string))
    (results : list test_result) :
  run_from i scenarios = Returned results ->
  0 <= successful results /\ 0 <= fuzzy_success results /\
  successful results + fuzzy_success results <= total results /\
  total results = Z.of_nat (List.length scenarios).
Proof.
  intros H. pose proof (run_from_entries _ _ _ H) as F.
  split; [unfold successful, count; lia |].
  split; [unfold fuzzy_success, count; lia |].
  split; [exact (counts_disjoint _ _ F) |].
  unfold total. now rewrite (Forall2_length F).
Qed.

End Run.

(** *** The run on a parser of ISO timestamps, with rational seconds *)

(** A parser that reads ISO timestamps and nothing else. *)
Definition iso_parser (today : datetime) (s : string)
    (fuzzy dayfirst yearfirst : bool) : outcome datetime :=
  Datetime.isoparse s.

Lemma iso_parser_fails_as_documented :
  TestComparison.fails_as_documented iso_parser.
Proof.
  intros today s fz df yf e. unfold iso_parser, Datetime.isoparse.
  destruct (read_timestamp s) as [dt |].
  - destruct (valid dt); [discriminate |].
    intros H. injection H as <-. reflexivity.
  - intros H. injection H as <-. reflexivity.
Qed.

(** A clock that advances by a millisecond during each call. *)
Definition sample_clock (i : nat)
    : TestComparison.Readings Q * TestComparison.Readings Q
      * TestComparison.Readings Q :=
  let at_ (k : Z) :=
    TestComparison.mkReadings Q (inject_Z (3 * Z.of_nat i + k))
      (inject_Z (3 * Z.of_nat i + k) + Qmake 1 1000)%Q
      (mkDatetime 2024 1 15 0 0 0 0 None) in
  (at_ 0, at_ 1, at_ 2).

(** A standard output that takes every line. *)
Definition sample_report (i : nat) (t : TestComparison.test_result Q)
    : outcome unit :=
  Returned tt.

Definition sample_announce : outcome unit := Returned tt.

Definition sample_run : outcome (list (TestComparison.test_result Q)) :=
  run_python_tests Q Qminus Qmult inject_Z iso_parser sample_clock
    sample_report sample_announce.

Definition sample_results : list (TestComparison.test_result Q) :=
  Eval vm_compute in
    match sample_run with Returned results => results | Raised _ => [] end.

Lemma sample_run_returns : sample_run = Returned sample_results.
Proof. vm_compute. reflexivity. Qed.

Lemma run_keeps_scenarios_witness :
  sample_run = Returned sample_results /\
  map (fun t => (input Q t, description Q t)) sample_results = TEST_SCENARIOS.
Proof.
  split; [exact sample_run_returns |].
  exact (proj1 (run_keeps_scenarios Q Qminus Qmult inject_Z iso_parser
                  sample_clock sample_report 0%nat TEST_SCENARIOS
                  sample_results sample_run_returns)).
Defined.

Lemma run_completes_witness :
  TestComparison.fails_as_documented iso_parser /\
  console_accepts Q sample_report sample_announce /\
  exists results,
    run_python_tests Q Qminus Qmult inject_Z iso_parser sample_clock
      sample_report sample_announce = Returned results /\
    List.length results = 63%nat.
Proof.
  assert (C : console_accepts Q sample_report sample_announce)
    by (split; [reflexivity | intros i t; reflexivity]).
  split; [exact iso_parser_fails_as_documented |]. split; [exact C |].
  exact (proj2 (run_completes Q Qminus Qmult inject_Z iso_parser sample_clock
                  sample_report sample_announce
                  iso_parser_fails_as_documented C)).
Defined.

Lemma summary_counts_disjoint_witness :
  sample_run = Returned sample_results /\
  successful Q sample_results + fuzzy_success Q sample_results
    <= total Q sample_results /\
  total Q sample_results = 63.
Proof.
  split; [exact sample_run_returns |].
  destruct (summary_counts_disjoint Q Qminus Qmult inject_Z iso_parser
              sample_clock sample_report 0%nat TEST_SCENARIOS sample_results
              sample_run_returns) as (_ & _ & H & T).
  split; [exact H | exact T].
Defined.

End TestRun.

(** ** From one script to the next: the results file *)

Module ResultsFile.
Import Py Datetime AnalyzeFinal TestComparison.

Section File.

(** The numbers of the file are the floats of the harness. *)
Variable seconds : Type.

#[local] Abbreviation json := (AnalyzeFinal.json seconds).
#[local] Abbreviation result := (TestComparison.result seconds).
#[local] Abbreviation test_result := (TestComparison.test_result seconds).

#[local] Abbreviation of_text := (CompareAnalysis.of_text seconds).

(** The dict of lines 113-118 or 120-125 as [json.load] gives it back. *)
Definition result_json (r : result) : json :=
  JObj [("success", JBool (success seconds r));
        ("date", of_text (date seconds r));
        ("time_ms", JNum (time_ms seconds r));
        ("error", of_text (error seconds r))].

Definition optional_json (r : option result) : json :=
  match r with Some x => result_json x | None => JNull end.

(** The dict of lines 148-154, written by [json.dump] on line 225 and read
    back by [json.load]. *)
Definition to_json (t : test_result) : json :=
  JObj [("input", JStr (input seconds t));
        ("description", JStr (description seconds t));
        ("default", result_json (default seconds t));
        ("fuzzy", optional_json (fuzzy_result seconds t));
        ("dayfirst", optional_json (dayfirst_result seconds t))].

(** *** What the readers find in a record *)

Lemma to_json_input t :
  getitem seconds (to_json t) "input" = Returned (JStr (input seconds t)).
Proof. reflexivity. Qed.

Lemma to_json_default t :
  getitem seconds (to_json t) "default"
  = Returned (result_json (default seconds t)).
Proof. reflexivity. Qed.

Lemma to_json_fuzzy t :
  getitem seconds (to_json t) "fuzzy"
  = Returned (optional_json (fuzzy_result seconds t)).
Proof. reflexivity. Qed.

Lemma result_json_success r :
  getitem seconds (result_json r) "success"
  = Returned (JBool (success seconds r)).
Proof. reflexivity. Qed.

Lemma result_json_date r :
  getitem seconds (result_json r) "date" = Returned (of_text (date seconds r)).
Proof. reflexivity. Qed.

Lemma result_json_time_ms r :
  getitem seconds (result_json r) "time_ms" = Returned (JNum (time_ms seconds r)).
Proof. reflexivity. Qed.

Lemma result_json_timeMs r :
  getitem seconds (result_json r) "timeMs" = Raised (KeyError "timeMs").
Proof. reflexivity. Qed.

Lemma combine_map_r {A B C : Type} (f : B -> C) (l : list A) (l' : list B) :
  combine l (map f l') = map (fun p => (fst p, f (snd p))) (combine l l').
Proof.
  revert l'. induction l as [| x rest IH]; intros [| y rest']; try reflexivity.
  cbn [combine map fst snd]. now rewrite IH.
Qed.

(** *** The file under [analyze_final_results.py] *)

Section Final.

Variable num_gt0 : seconds -> bool.
Variable num_nonzero : seconds -> bool.
Variable num_of_bool : bool -> seconds.
Variable num_div : seconds -> seconds -> outcome seconds.
Variable percent_of : Z -> Z -> seconds.
Variable mean median minimum maximum : list seconds -> seconds.

#[local] Abbreviation counters := (AnalyzeFinal.counters seconds).
#[local] Abbreviation iteration :=
  (AnalyzeFinal.iteration seconds num_gt0 num_nonzero num_of_bool num_div).
#[local] Abbreviation loop :=
  (AnalyzeFinal.loop seconds num_gt0 num_nonzero num_of_bool num_div).
#[local] Abbreviation analyze :=
  (AnalyzeFinal.analyze seconds num_gt0 num_nonzero num_of_bool num_div).
#[local] Abbreviation script :=
  (AnalyzeScript.script seconds num_gt0 num_nonzero num_of_bool num_div
     percent_of mean median minimum maximum).

Lemma iteration_on_written c swift_test t c' :
  iteration c (swift_test, to_json t) = Returned c' ->
  both_passed seconds c' = both_passed seconds c /\
  performance_ratios seconds c' = performance_ratios seconds c.
Proof.
  unfold AnalyzeFinal.iteration. rewrite !to_json_default.
  destruct (getitem seconds swift_test "default") as [sd |]; cbn [Py.bind];
    [| discriminate].
  destruct (getitem seconds sd "success") as [ss |]; cbn [Py.bind];
    [| discriminate].
  rewrite result_json_success. cbn [Py.bind].
  destruct (AnalyzeFinal.truthy seconds num_nonzero ss
            && AnalyzeFinal.truthy seconds num_nonzero
                 (JBool (success seconds (default seconds t)))).
  - destruct (getitem seconds sd "timeMs"); cbn [Py.bind]; [| discriminate].
    rewrite result_json_timeMs. cbn [Py.bind]. discriminate.
  - cbn [Py.bind fst snd]. intros H. injection H as <-. split; reflexivity.
Qed.

Lemma loop_on_written pairs : forall c c',
  loop c (map (fun p => (fst p, to_json (snd p))) pairs) = Returned c' ->
  both_passed seconds c' = both_passed seconds c /\
  performance_ratios seconds c' = performance_ratios seconds c.
Proof.
  induction pairs as [| [sw t] rest IH]; intros c c' H.
  - injection H as <-. split; reflexivity.
  - cbn [map AnalyzeFinal.loop fst snd] in H.
    destruct (iteration c (sw, to_json t)) as [c1 |] eqn:E; cbn [Py.bind] in H;
      [| discriminate H].
    destruct (iteration_on_written _ _ _ _ E) as [B1 R1].
    destruct (IH _ _ H) as [B2 R2]. split; congruence.
Qed.

(** X17. The counting loop of [analyze_final_results.py] reads
    ["timeMs"] from both records, and the harness writes ["time_ms"]. On
    Python records written by [test_comparison.py] the loop therefore
    completes only if no test passes on both sides: a pair that passes on
    both raises [KeyError], so at the end [both_passed] is zero and there is
    no performance ratio. *)
Theorem written_records_never_both_pass (swift_results : list json)
    (results : list test_result) (c : counters) :
  analyze swift_results (map (to_json) results) = Returned c ->
  both_passed seconds c = 0 /\ performance_ratios seconds c = [].
Proof.
  unfold AnalyzeFinal.analyze. rewrite combine_map_r. intros H.
  exact (loop_on_written _ _ _ H).
Qed.

Lemma Forall2_In_l {A B : Type} (R : A -> B -> Prop) (l : list A)
    (l' : list B) (y : B) :
  Forall2 R l l' -> In y l' -> exists x, In x l /\ R x y.
Proof.
  induction 1 as [| x y' l l' Hxy _ IH]; intros HIn; [destruct HIn |].
  destruct HIn as [-> | HIn].
  - exists x. split; [now left | exact Hxy].
  - destruct (IH HIn) as (x' & I & Rx). exists x'. split; [now right | exact Rx].
Qed.

Lemma In_combine_r {A B : Type} (l : list A) (l' : list B) (y : B) :
  List.length l = List.length l' -> In y l' -> exists x, In (x, y) (combine l l').
Proof.
  revert l'. induction l as [| x rest IH]; intros [| y' rest'] L HIn;
    try discriminate L; [destruct HIn |].
  destruct HIn as [-> | HIn].
  - exists x. now left.
  - injection L as L. destruct (IH _ L HIn) as [x' I]. exists x'. now right.
Qed.

Section Harnessed.

Variable sub : seconds -> seconds -> seconds.
Variable mul : seconds -> seconds -> seconds.
Variable of_int : Z -> seconds.
Variable dateutil_parse :
  datetime -> string -> bool -> bool -> bool -> outcome datetime.
Variable clock :
  nat -> TestComparison.Readings seconds * TestComparison.Readings seconds
         * TestComparison.Readings seconds.
Variable report : nat -> test_result -> outcome unit.

#[local] Abbreviation run_from :=
  (TestRun.run_from seconds sub mul of_int dateutil_parse clock report).

(** X18. [analyze_final_results.py] cannot complete on the results of a
    run of the harness in which some test passed, or had the empty text:
    such an entry was not retried in fuzzy mode, the file holds
    ["fuzzy": null] for it, and the script subscripts it (line 50). With
    the empty text among the scenarios this is every run. *)
Theorem final_script_stops_on_written_results (i : nat)
    (scenarios : list (string * string)) (results : list test_result)
    (swift_results : list json) (t : test_result) :
  run_from i scenarios = Returned results ->
  List.length swift_results = List.length results ->
  In t results ->
  success seconds (default seconds t) = true \/ input seconds t = "" ->
  exists e, script swift_results (map (to_json) results) = Raised e.
Proof.
  intros Hrun L HIn Hnot.
  pose proof (TestRun.run_from_entries _ _ _ _ _ _ _ _ _ _ Hrun) as F.
  destruct (Forall2_In_l _ _ _ _ F HIn) as (sc & _ & I & _ & Fz & _).
  assert (N : fuzzy_result seconds t = None).
  { destruct (fuzzy_result seconds t); [| reflexivity]. exfalso.
    cbn [TestRun.is_some] in Fz. symmetry in Fz.
    apply andb_true_iff in Fz as [S T].
    destruct Hnot as [H | H].
    - rewrite H in S. discriminate S.
    - rewrite <- I, H in T. discriminate T. }
  destruct (In_combine_r swift_results results t L HIn) as [sw Hsw].
  unfold AnalyzeScript.script.
  destruct (loop _ _) as [c | e]; cbn [Py.bind]; [| eexists; reflexivity].
  destruct (AnalyzeScript.fuzzy_loop_raises seconds num_nonzero
              (combine swift_results (map (to_json) results)) (0, 0)
              sw (to_json t)) as [e ->].
  - rewrite combine_map_r.
    apply (in_map (fun p => (fst p, to_json (snd p))) _ _ Hsw).
  - right. rewrite to_json_fuzzy, N. reflexivity.
  - eexists; reflexivity.
Qed.

End Harnessed.

End Final.

(** *** The file under [compare_results.py] *)

Section Compared.

Variable num_nonzero : seconds -> bool.
Variable isoparse : string -> outcome datetime.
Variable py_eq : json -> json -> bool.

#[local] Abbreviation categories := (CompareAnalysis.categories seconds).
#[local] Abbreviation categorize :=
  (CompareAnalysis.categorize seconds num_nonzero isoparse py_eq).
#[local] Abbreviation categorize_loop :=
  (CompareAnalysis.categorize_loop seconds num_nonzero isoparse py_eq).

(** A Swift record with the keys the loop of lines 86-116 reads. *)
Definition swift_shaped (sw : json) : bool :=
  match getitem seconds sw "input", getitem seconds sw "default" with
  | Returned _, Returned d =>
      match getitem seconds d "success", getitem seconds d "date",
            getitem seconds d "timeMs" with
      | Returned _, Returned _, Returned _ => true
      | _, _, _ => false
      end
  | _, _ => false
  end.

Lemma categorize_written i c t sw :
  swift_shaped sw = true ->
  exists c', categorize i c (to_json t, sw) = Returned c'.
Proof.
  unfold swift_shaped, CompareAnalysis.categorize. intros H.
  rewrite !to_json_input, !to_json_default.
  destruct (getitem seconds sw "input") as [si |]; [| discriminate H].
  destruct (getitem seconds sw "default") as [sd |]; [| discriminate H].
  cbn [Py.bind].
  destruct (getitem seconds sd "success") as [ss |]; [| discriminate H].
  destruct (getitem seconds sd "date") as [sdate |]; [| discriminate H].
  destruct (getitem seconds sd "timeMs") as [sms |]; [| discriminate H].
  destruct (negb (py_eq _ si)); [eexists; reflexivity |].
  rewrite !result_json_success, !result_json_date, !result_json_time_ms.
  cbn [Py.bind].
  destruct (AnalyzeFinal.truthy seconds num_nonzero
              (JBool (success seconds (default seconds t))));
    destruct (AnalyzeFinal.truthy seconds num_nonzero ss);
    cbn [andb negb Py.bind];
    try (destruct (negb (CompareAnalysis.compare_values _ _ _ _ _ _));
         cbn [Py.bind]);
    eexists; reflexivity.
Qed.

(** X19. The file [test_comparison.py] writes is one [compare_results.py]
    can read: on Python records written by the harness, and Swift records
    that have ["input"] and, under ["default"], ["success"], ["date"] and
    ["timeMs"], the loop of lines 86-116 completes, for any results. *)
Theorem written_records_are_categorized (results : list test_result)
    (swift_results : list json) :
  forallb swift_shaped swift_results = true ->
  exists c,
    categorize_loop 0 (CompareAnalysis.no_categories seconds)
      (combine (map (to_json) results) swift_results) = Returned c.
Proof.
  intros H.
  generalize 0%nat, (CompareAnalysis.no_categories seconds).
  revert swift_results H.
  induction results as [| t rest IH]; intros [| sw srest] H i c;
    try (eexists; reflexivity).
  cbn [forallb] in H. apply andb_true_iff in H as [Hsw H].
  cbn [map combine CompareAnalysis.categorize_loop].
  destruct (categorize_written i c t sw Hsw) as [c1 ->]. cbn [Py.bind].
  exact (IH srest H (S i) c1).
Qed.

End Compared.

End File.

(** *** The file of the sample run *)

Definition written : list (AnalyzeFinal.json Q) :=
  map (to_json Q) TestRun.sample_results.

(** Swift records for the same tests, all failing. *)
Definition failing_swift : list (AnalyzeFinal.json Q) :=
  map (fun t => CompareAnalysis.swift_entry (input Q t) None (Qmake 0 1))
      TestRun.sample_results.

Definition failing_counters : AnalyzeFinal.counters Q :=
  Eval vm_compute in
    match analyze Q Q_gt0 Q_nonzero Q_of_bool Q_div failing_swift written with
    | Returned c => c
    | Raised _ => initial Q
    end.

Lemma failing_analyzed :
  analyze Q Q_gt0 Q_nonzero Q_of_bool Q_div failing_swift written
  = Returned failing_counters.
Proof. vm_compute. reflexivity. Qed.

Lemma written_records_never_both_pass_witness :
  analyze Q Q_gt0 Q_nonzero Q_of_bool Q_div failing_swift written
    = Returned failing_counters /\
  0 < python_passed Q failing_counters /\
  both_passed Q failing_counters = 0 /\
  performance_ratios Q failing_counters = [].
Proof.
  split; [exact failing_analyzed |]. split; [reflexivity |].
  exact (written_records_never_both_pass Q Q_gt0 Q_nonzero Q_of_bool Q_div
           failing_swift TestRun.sample_results failing_counters
           failing_analyzed).
Defined.

Lemma final_script_stops_on_written_results_witness :
  TestRun.sample_run = Returned TestRun.sample_results /\
  exists e,
    AnalyzeScript.script Q Q_gt0 Q_nonzero Q_of_bool Q_div AnalyzeScript.Q_percent
      (fun _ => 0%Q) (fun _ => 0%Q) (fun _ => 0%Q) (fun _ => 0%Q)
      failing_swift written
    = Raised e.
Proof.
  split; [exact TestRun.sample_run_returns |].
  apply (final_script_stops_on_written_results Q Q_gt0 Q_nonzero Q_of_bool Q_div
           AnalyzeScript.Q_percent
           (fun _ => 0%Q) (fun _ => 0%Q) (fun _ => 0%Q) (fun _ => 0%Q)
           Qminus Qmult inject_Z TestRun.iso_parser TestRun.sample_clock
           TestRun.sample_report
           0%nat TestRun.TEST_SCENARIOS TestRun.sample_results failing_swift
           (hd (mkTest Q "" "" (mkResult Q false None 0%Q None) None None)
               TestRun.sample_results)).
  - exact TestRun.sample_run_returns.
  - reflexivity.
  - left. reflexivity.
  - left. reflexivity.
Defined.

(** Swift records for the same tests, in the same order, all passing with
    the same date. *)
Definition passing_swift : list (AnalyzeFinal.json Q) :=
  map (fun t => CompareAnalysis.swift_entry (input Q t)
                  (Some "2003-09-25T00:00:00") (Qmake 1 100))
      TestRun.sample_results.

Definition written_categories : CompareAnalysis.categories Q :=
  Eval vm_compute in
    match CompareAnalysis.categorize_loop Q Q_nonzero Datetime.isoparse
            CompareAnalysis.scalar_eq 0 (CompareAnalysis.no_categories Q)
            (combine written passing_swift) with
    | Returned c => c
    | Raised _ => CompareAnalysis.no_categories Q
    end.

Lemma written_records_are_categorized_witness :
  List.length written = List.length passing_swift /\
  forallb (swift_shaped Q) passing_swift = true /\
  (exists c,
     CompareAnalysis.categorize_loop Q Q_nonzero Datetime.isoparse
       CompareAnalysis.scalar_eq 0 (CompareAnalysis.no_categories Q)
       (combine written passing_swift)
     = Returned c) /\
  CompareAnalysis.categorize_loop Q Q_nonzero Datetime.isoparse
    CompareAnalysis.scalar_eq 0 (CompareAnalysis.no_categories Q)
    (combine written passing_swift)
  = Returned written_categories /\
  CompareAnalysis.mismatches Q written_categories = [] /\
  (List.length (CompareAnalysis.both_success Q written_categories),
   List.length (CompareAnalysis.swift_only_success Q written_categories),
   List.length (CompareAnalysis.different_results Q written_categories),
   List.length (CompareAnalysis.performance_comparison Q written_categories))
  = (8, 55, 1, 8)%nat.
Proof.
  split; [reflexivity |]. split; [reflexivity |]. split.
  - apply (written_records_are_categorized Q Q_nonzero Datetime.isoparse
             CompareAnalysis.scalar_eq TestRun.sample_results passing_swift).
    reflexivity.
  - split; [vm_compute; reflexivity |]. split; reflexivity.
Defined.

End ResultsFile.
